(** * PyLinks: the GitHub and DOI clients

    A shallow embedding of [src/pylinks/api/github.py] and
    [src/pylinks/api/doi.py].

    Python values decoded from JSON are the inductive type [pyval]; a Python
    [str] is a Rocq [string] whose characters are the code points below 256;
    a Python [int] is a [Z]; a Python [dict] is an association list that
    keeps insertion order.  Code that sends HTTP requests runs in a small
    monad that threads the list of requests sent so far and may raise a
    Python exception.  The modules [pylinks.http] and [pylinks.url] are not
    part of the sources at hand: [pylinks.http.request] is the transport
    that every computation reads, a function from the arguments of the call
    to a response or an exception, and a URL is kept as the operands it was
    built from.  Every [while True] loop takes a bound on the number of
    iterations and has a third outcome for the run that exceeds it; what a
    loop returns is proved for every bound that is large enough. *)

From Stdlib Require Import ZArith List String Ascii Bool Lia Arith.
From Stdlib Require Import DecimalString.
Import ListNotations.

Set Implicit Arguments.
Set Warnings "-register-all".

Local Open Scope string_scope.
Local Open Scope list_scope.

(** ** Python values and the builtins the clients use *)

Module Py.

(** Values a response is decoded to by [response_type="json"], and the
    values a request payload is built from. *)
Inductive pyval : Type :=
| PNone
| PBool (b : bool)
| PInt (z : Z)
| PFloat (bits : Z)             (* a double, by its 64 bits *)
| PStr (s : string)
| PList (l : list pyval)
| PDict (d : list (string * pyval)).

(** The exceptions of the two modules.  Messages are not modelled.
    [HTTPError] and [OtherError] stand for whatever the transport
    raises. *)
Inductive exn : Type :=
| TypeError
| ValueError
| KeyError (key : string)
| HTTPError (status : Z) (body : string)
| OtherError (name : string).

(** [str(z)] for an [int]. *)
Definition str_of_int (z : Z) : string := NilZero.string_of_int (Z.to_int z).

(** [isinstance(v, str)] *)
Definition is_str (v : pyval) : bool :=
  match v with PStr _ => true | _ => false end.

(** Truth value of an object, as tested by [if v:] *)
Definition truthy (v : pyval) : bool :=
  match v with
  | PNone => false
  | PBool b => b
  | PInt z => negb (Z.eqb z 0)
  | PFloat bits => negb (Z.eqb (Z.land bits (Z.ones 63)) 0)
  | PStr s => negb (String.eqb s "")
  | PList l => match l with [] => false | _ => true end
  | PDict d => match d with [] => false | _ => true end
  end.

(** Truth value of a [str] *)
Definition nonempty (s : string) : bool := negb (String.eqb s "").

(** The characters of a [str], each as a [str] of length one. *)
Fixpoint chars (s : string) : list pyval :=
  match s with
  | EmptyString => []
  | String c s' => PStr (String c EmptyString) :: chars s'
  end.

(** ** Dictionaries *)

Definition dict (V : Type) : Type := list (string * V).

(** [d[k]], [None] standing for [KeyError] *)
Fixpoint dict_get {V} (d : dict V) (k : string) : option V :=
  match d with
  | [] => None
  | (k', v) :: d' => if String.eqb k k' then Some v else dict_get d' k
  end.

(** [k in d] *)
Definition dict_mem {V} (k : string) (d : dict V) : bool :=
  match dict_get d k with Some _ => true | None => false end.

(** [d[k] = v]: an existing key keeps its place, a new one goes last. *)
Fixpoint dict_set {V} (d : dict V) (k : string) (v : V) : dict V :=
  match d with
  | [] => [(k, v)]
  | (k', v') :: d' =>
      if String.eqb k k' then (k', v) :: d' else (k', v') :: dict_set d' k v
  end.

(** [d1 | d2] *)
Definition dict_or {V} (d1 d2 : dict V) : dict V :=
  fold_left (fun d kv => dict_set d (fst kv) (snd kv)) d2 d1.

Definition keys {V} (d : dict V) : list string := map fst d.

(** ** String methods *)

(** [s.removesuffix(suffix)] *)
Fixpoint removesuffix (s suffix : string) : string :=
  if String.eqb s suffix then ""
  else match s with
       | EmptyString => ""
       | String c s' => String c (removesuffix s' suffix)
       end.

(** [c in chars], for a character *)
Fixpoint char_in (c : ascii) (chars : string) : bool :=
  match chars with
  | EmptyString => false
  | String c' chars' => Ascii.eqb c c' || char_in c chars'
  end.

(** [s.rstrip(chars)] *)
Fixpoint rstrip (s chars : string) : string :=
  match s with
  | EmptyString => ""
  | String c s' =>
      match rstrip s' chars with
      | EmptyString => if char_in c chars then "" else String c ""
      | r => String c r
      end
  end.

(** The double quote, as a string *)
Definition dq : string := String "034" "".

(** The newline, as a string *)
Definition nl : string := String "010" "".

(** [x or y] *)
Definition or_else (x y : pyval) : pyval := if truthy x then x else y.

End Py.

(** ** The fragment of Python's [re] used by the patterns of the clients

    Patterns are matched as [re.match] does: anchored at the start of the
    string, greedy, with backtracking, and with one capturing group. *)

Module Re.

Inductive regex : Type :=
| Chars (s : string)            (* literal characters *)
| Class (p : ascii -> bool)     (* one character of a class *)
| Star (p : ascii -> bool)      (* greedy [c*] on a class *)
| Cat (r1 r2 : regex)
| Opt (r : regex)               (* greedy [(?:r)?] *)
| Group (r : regex)             (* [(r)], group 1 *)
| Bol                           (* [^] *)
| Eol.                          (* [$] *)

(** [c+] and [c{n}] on a class *)
Definition Plus (p : ascii -> bool) : regex := Cat (Class p) (Star p).

Fixpoint Times (n : nat) (p : ascii -> bool) (r : regex) : regex :=
  match n with
  | O => r
  | S n' => Cat (Class p) (Times n' p r)
  end.

(** Character classes.  [\d] and [\s] are the Unicode classes of a [str]
    pattern, on the code points below 256. *)
Definition between (lo hi : ascii) (c : ascii) : bool :=
  ((nat_of_ascii lo <=? nat_of_ascii c) && (nat_of_ascii c <=? nat_of_ascii hi))%nat.

Definition digit (c : ascii) : bool := between "0" "9" c.

Definition space (c : ascii) : bool :=
  let n := nat_of_ascii c in
  (((9 <=? n) && (n <=? 13)) || ((28 <=? n) && (n <=? 32))
   || (n =? 133) || (n =? 160))%nat.

Definition nonspace (c : ascii) : bool := negb (space c).

(** State of a match: characters consumed, characters left, group 1. *)
Record mstate : Type := MState {
  pos : nat;
  rest : string;
  group1 : option string
}.

(** [s] minus the literal prefix [l] *)
Fixpoint strip (l s : string) : option string :=
  match l, s with
  | EmptyString, _ => Some s
  | String a l', String b s' => if Ascii.eqb a b then strip l' s' else None
  | String _ _, EmptyString => None
  end.

(** [$]: at the end of the string, or just before a final newline *)
Definition at_end (s : string) : bool :=
  String.eqb s "" || String.eqb s (String "010" "").

(** Greedy repetition: the longest run first, then shorter ones. *)
Fixpoint star (p : ascii -> bool) (n : nat) (s : string) (g : option string)
    (k : mstate -> option mstate) : option mstate :=
  match s with
  | String c s' =>
      if p c then
        match star p (S n) s' g k with
        | Some m => Some m
        | None => k (MState n s g)
        end
      else k (MState n s g)
  | EmptyString => k (MState n s g)
  end.

Fixpoint run (r : regex) (st : mstate) (k : mstate -> option mstate)
    : option mstate :=
  match r with
  | Chars l =>
      match strip l (rest st) with
      | Some s' => k (MState (pos st + String.length l) s' (group1 st))
      | None => None
      end
  | Class p =>
      match rest st with
      | String c s' => if p c then k (MState (S (pos st)) s' (group1 st)) else None
      | EmptyString => None
      end
  | Star p => star p (pos st) (rest st) (group1 st) k
  | Cat r1 r2 => run r1 st (fun st' => run r2 st' k)
  | Opt r' =>
      match run r' st k with
      | Some m => Some m
      | None => k st
      end
  | Group r' =>
      run r' st (fun st' =>
        k (MState (pos st') (rest st')
             (Some (substring 0 (pos st' - pos st) (rest st)))))
  | Bol => if (pos st =? 0)%nat then k st else None
  | Eol => if at_end (rest st) then k st else None
  end.

(** [pattern.match(s)]; the result carries [m.end()] and [m.group(1)]. *)
Definition re_match (r : regex) (s : string) : option mstate :=
  run r (MState 0 s None) Some.

(** [m.group(1)] of a pattern whose group takes part in every match *)
Definition group (m : mstate) : string :=
  match group1 m with Some g => g | None => "" end.

End Re.

(** ** Requests, and the monad of code that sends them *)

Module Http.
Import Py.

Inductive verb : Type := GET | POST | PUT | PATCH | OPTIONS | DELETE.

(** The [response_type] argument: ["json"], ["str"], ["bytes"] or [None]. *)
Inductive response_type : Type := RJson | RStr | RBytes | RNone.

(** A [pylinks.url.URL], kept as the base it was built from and the
    operands of [/] applied to it, in order. *)
Inductive url : Type :=
| Url (base : string)
| Div (u : url) (operand : string).

(** The arguments of one call of [pylinks.http.request]. *)
Record Request : Type := {
  req_verb : verb;
  req_url : url;
  req_headers : dict string;
  req_data : option string;
  req_json : option pyval;
  req_response_type : response_type
}.

(** What [pylinks.http.request] does with a request: it returns the
    decoded response or raises. *)
Inductive reply : Type :=
| Reply (v : pyval)
| Fail (e : exn).

(** Outcome of a run: a value, an exception, or a loop cut at its bound. *)
Inductive outcome (A : Type) : Type :=
| Ok (a : A)
| Raise (e : exn)
| Unfinished.
Arguments Raise {A} e.
Arguments Unfinished {A}.

(** A computation reads the transport and extends the list of the
    requests sent so far (oldest first). *)
Definition M (A : Type) : Type :=
  (Request -> reply) -> list Request -> outcome A * list Request.

Definition ret {A} (a : A) : M A := fun _ sent => (Ok a, sent).

Definition raise {A} (e : exn) : M A := fun _ sent => (Raise e, sent).

Definition bind {A B} (m : M A) (f : A -> M B) : M B :=
  fun transport sent =>
    match m transport sent with
    | (Ok a, sent') => f a transport sent'
    | (Raise e, sent') => (Raise e, sent')
    | (Unfinished, sent') => (Unfinished, sent')
    end.

Definition of_reply (r : reply) : outcome pyval :=
  match r with
  | Reply v => Ok v
  | Fail e => Raise e
  end.

(** [pylinks.http.request(...)] *)
Definition request (r : Request) : M pyval :=
  fun transport sent => (of_reply (transport r), sent ++ [r]).

(** [while True: body], where the body either goes on with a new state
    or leaves the loop with the value the function then returns. *)
Fixpoint while_true {S A} (bound : nat) (body : S -> M (S + A)) (s : S) : M A :=
  match bound with
  | O => fun _ sent => (Unfinished, sent)
  | Datatypes.S n =>
      bind (body s) (fun r =>
        match r with
        | inl s' => while_true n body s'
        | inr a => ret a
        end)
  end.

(** [for x in l: body] *)
Fixpoint for_each {A} (l : list A) (body : A -> M unit) : M unit :=
  match l with
  | [] => ret tt
  | x :: l' => bind (body x) (fun _ => for_each l' body)
  end.

(** A run from the state in which nothing has been sent. *)
Definition exec {A} (m : M A) (transport : Request -> reply)
    : outcome A * list Request :=
  m transport [].

(** *** Builtins that may raise *)

(** [acc.extend(v)] *)
Definition extend (acc : list pyval) (v : pyval) : M (list pyval) :=
  match v with
  | PList l => ret (acc ++ l)
  | PDict d => ret (acc ++ map PStr (keys d))
  | PStr s => ret (acc ++ chars s)
  | PNone | PBool _ | PInt _ | PFloat _ => raise TypeError
  end.

(** [len(v)] *)
Definition len (v : pyval) : M Z :=
  match v with
  | PList l => ret (Z.of_nat (List.length l))
  | PDict d => ret (Z.of_nat (List.length d))
  | PStr s => ret (Z.of_nat (String.length s))
  | PNone | PBool _ | PInt _ | PFloat _ => raise TypeError
  end.

(** [sub] occurs in [s] *)
Fixpoint occurs (sub s : string) : bool :=
  match Re.strip sub s with
  | Some _ => true
  | None => match s with
            | String _ s' => occurs sub s'
            | EmptyString => false
            end
  end.

(** [key in v], for a [str] key *)
Definition contains (key : string) (v : pyval) : M bool :=
  match v with
  | PDict d => ret (dict_mem key d)
  | PList l =>
      ret (existsb (fun x => match x with PStr s => String.eqb s key | _ => false end) l)
  | PStr s => ret (occurs key s)
  | PNone | PBool _ | PInt _ | PFloat _ => raise TypeError
  end.

(** [v[key]], for a [str] key *)
Definition getitem (v : pyval) (key : string) : M pyval :=
  match v with
  | PDict d =>
      match dict_get d key with
      | Some x => ret x
      | None => raise (KeyError key)
      end
  | _ => raise TypeError
  end.

(** [pattern.match(v)] *)
Definition pattern_match (pattern : Re.regex) (v : pyval) : M (option Re.mstate) :=
  match v with
  | PStr s => ret (Re.re_match pattern s)
  | _ => raise TypeError
  end.

(** [v[i]], for an [int] index that is not negative *)
Definition index (v : pyval) (i : nat) : M pyval :=
  match v with
  | PList l =>
      match nth_error l i with
      | Some x => ret x
      | None => raise (OtherError "IndexError")
      end
  | PStr s =>
      match String.get i s with
      | Some c => ret (PStr (String c ""))
      | None => raise (OtherError "IndexError")
      end
  | PDict _ => raise (KeyError (str_of_int (Z.of_nat i)))
  | PNone | PBool _ | PInt _ | PFloat _ => raise TypeError
  end.

(** [v.get(key, default)] *)
Definition get_or (v : pyval) (key : string) (default : pyval) : M pyval :=
  match v with
  | PDict d =>
      match dict_get d key with
      | Some x => ret x
      | None => ret default
      end
  | _ => raise (OtherError "AttributeError")
  end.

(** [for x in l: body], the body working on a state that it may leave
    the loop with ([inr]) or hand to the next turn ([inl]) *)
Fixpoint for_state {A S} (l : list A) (body : A -> S -> M (S + S)) (s : S) : M S :=
  match l with
  | [] => ret s
  | x :: l' =>
      bind (body x s) (fun r =>
        match r with
        | inl s' => for_state l' body s'
        | inr s' => ret s'
        end)
  end.

(** [[f(x) for x in l]] *)
Fixpoint comprehend {A B} (l : list A) (f : A -> M B) : M (list B) :=
  match l with
  | [] => ret []
  | x :: l' => bind (f x) (fun y => bind (comprehend l' f) (fun ys => ret (y :: ys)))
  end.

(** [iter(v)], as the list of what it yields *)
Definition iterate (v : pyval) : M (list pyval) := extend [] v.

Declare Scope py_scope.
Delimit Scope py_scope with py.
Notation "x <- c ;; k" := (bind c (fun x => k))
  (at level 61, c at next level, right associativity) : py_scope.
Notation "c ;;; k" := (bind c (fun _ => k))
  (at level 61, right associativity) : py_scope.
Notation "c >>= f" := (bind c f)
  (at level 58, left associativity) : py_scope.

End Http.

Import Py Http.
Local Open Scope string_scope.
Local Open Scope py_scope.

(** ** [class GitHub] *)

Module GitHub.

Record t : Type := {
  _endpoint : dict url;
  _token : option string;
  _headers : dict string
}.

(** Truth value of an [Optional[str]] *)
Definition token_truthy (token : option string) : bool :=
  match token with
  | Some s => nonempty s
  | None => false
  end.

Definition __init__ (token : option string) : t :=
  let endpoint :=
    [("api", Url "https://api.github.com");
     ("upload", Url "https://uploads.github.com")] in
  let headers := [("X-GitHub-Api-Version", "2022-11-28")] in
  let headers :=
    match token with
    | Some s =>
        if nonempty s then dict_set headers "Authorization" ("Bearer " ++ s)
        else headers
    | None => headers
    end in
  {| _endpoint := endpoint; _token := token; _headers := headers |}.

(** [self._headers | extra_headers if extra_headers else self._headers] *)
Definition merged_headers (self : t) (extra_headers : option (dict string))
    : dict string :=
  match extra_headers with
  | Some extra =>
      match extra with
      | _ :: _ => dict_or (_headers self) extra
      | [] => _headers self
      end
  | None => _headers self
  end.

(** [self._endpoint[name]] *)
Definition endpoint (self : t) (name : string) : M url :=
  match dict_get (_endpoint self) name with
  | Some u => ret u
  | None => raise (KeyError name)
  end.

Definition graphql_query (self : t) (query : string) (mutation : bool)
    (extra_headers : option (dict string)) (response_type : response_type)
    : M pyval :=
  let headers := merged_headers self extra_headers in
  api <- endpoint self "api" ;;
  request {|
    req_verb := POST;
    req_url := Div api "graphql";
    req_headers := headers;
    req_data := None;
    req_json :=
      Some (PDict [("query",
        PStr ((if mutation then "mutation " else "") ++ "{" ++ query ++ "}"))]);
    req_response_type := response_type
  |}.

Definition graphql_mutation (self : t) (mutation_name : string)
    (mutation_input_name : string) (mutation_input : dict pyval)
    (mutation_payload : string) (extra_headers : option (dict string))
    : M pyval :=
  let headers := merged_headers self extra_headers in
  let query :=
    "mutation($mutationInput:" ++ mutation_input_name ++ "!) "
    ++ "{" ++ mutation_name ++ "(input:$mutationInput) {"
    ++ mutation_payload ++ "}}" in
  api <- endpoint self "api" ;;
  response <- request {|
    req_verb := POST;
    req_url := Div api "graphql";
    req_headers := headers;
    req_data := None;
    req_json :=
      Some (PDict [("query", PStr query);
                   ("variables", PDict [("mutationInput", PDict mutation_input)])]);
    req_response_type := RJson
  |} ;;
  has_errors <- contains "errors" response ;;
  if has_errors : bool then ret response
  else getitem response "data".

Definition rest_query (self : t) (query : string) (verb : verb)
    (data : option string) (json : option pyval)
    (response_type : response_type) (extra_headers : option (dict string))
    (endpoint_name : string) : M pyval :=
  let headers := merged_headers self extra_headers in
  base <- endpoint self endpoint_name ;;
  request {|
    req_verb := verb;
    req_url := Div base query;
    req_headers := headers;
    req_data := data;
    req_json := json;
    req_response_type := response_type
  |}.

Definition authenticated (self : t) : bool :=
  match _token self with
  | Some _ => true
  | None => false
  end.

End GitHub.

(** ** [class Repo] *)

Module Repo.

Record t : Type := {
  _username : string;
  _name : string;
  _token : option string;
  _github : GitHub.t
}.

Definition __init__ (username name : string) (token : option string) : t :=
  {| _username := username; _name := name; _token := token;
     _github := GitHub.__init__ token |}.

Definition _rest_query (self : t) (query : string) (verb : verb)
    (data : option string) (json : option pyval)
    (response_type : response_type) (extra_headers : option (dict string))
    (endpoint : string) : M pyval :=
  GitHub.rest_query (_github self)
    ("repos/" ++ _username self ++ "/" ++ _name self ++ "/" ++ query)
    verb data json response_type extra_headers endpoint.

(** [self._rest_query(query)]: the other arguments at their defaults,
    [verb="GET"], [data=None], [json=None], [response_type="json"],
    [extra_headers=None], [endpoint="api"] *)
Definition get (self : t) (query : string) : M pyval :=
  _rest_query self query GET None None RJson None "api".

Definition info (self : t) : M pyval := get self "".

Definition branches (bound : nat) (self : t) : M (list pyval) :=
  while_true bound (fun '(branches, page) =>
    response <- get self ("branches?per_page=100&page=" ++ str_of_int page) ;;
    branches <- extend branches response ;;
    let page := (page + 1)%Z in
    n <- len response ;;
    if (n <? 100)%Z then ret (inr branches)
    else ret (inl (branches, page)))
  ([], 1%Z).

Definition labels (bound : nat) (self : t) : M (list pyval) :=
  while_true bound (fun '(labels, page) =>
    response <- get self ("labels?per_page=100&page=" ++ str_of_int page) ;;
    labels <- extend labels response ;;
    let page := (page + 1)%Z in
    n <- len response ;;
    if (n <? 100)%Z then ret (inr labels)
    else ret (inl (labels, page)))
  ([], 1%Z).

Definition issue_update (self : t) (number : Z) (title : option (string + Z))
    (body state state_reason : option string) : M pyval :=
  let data : dict pyval := [] in
  let data :=
    match title with
    | Some (inl s) => dict_set data "title" (PStr s)
    | Some (inr z) => dict_set data "title" (PStr (str_of_int z))
    | None => data
    end in
  let data :=
    match body with
    | Some s => dict_set data "body" (PStr s)
    | None => data
    end in
  let data :=
    match state with
    | Some s => dict_set data "state" (PStr s)
    | None => data
    end in
  let data :=
    match state_reason with
    | Some s => dict_set data "state_reason" (PStr s)
    | None => data
    end in
  _rest_query self ("issues/" ++ str_of_int number) PATCH None
    (Some (PDict data)) RJson None "api".

Definition issue_labels (bound : nat) (self : t) (number : Z) : M (list pyval) :=
  while_true bound (fun '(labels, page) =>
    response <- get self ("issues/" ++ str_of_int number
                          ++ "/labels?per_page=100&page=" ++ str_of_int page) ;;
    labels <- extend labels response ;;
    let page := (page + 1)%Z in
    n <- len response ;;
    if (n <? 100)%Z then ret (inr labels)
    else ret (inl (labels, page)))
  ([], 1%Z).

Definition issue_comments (bound : nat) (self : t) (number : Z) (max_count : Z)
    : M (list pyval) :=
  while_true bound (fun '(comments, page) =>
    response <- get self ("issues/" ++ str_of_int number
                          ++ "/comments?per_page=100&page=" ++ str_of_int page) ;;
    comments <- extend comments response ;;
    let page := (page + 1)%Z in
    n <- len response ;;
    if ((n <? 100) || (Z.of_nat (List.length comments) >=? max_count))%Z
    then ret (inr comments)
    else ret (inl (comments, page)))
  ([], 1%Z).

Definition pull_list (bound : nat) (self : t) (state : string)
    (head base : option string) (sort direction : string) : M (list pyval) :=
  let query :=
    "pulls?state=" ++ state ++ "&sort=" ++ sort ++ "&direction=" ++ direction
    ++ "&per_page=100" in
  let query :=
    match head with
    | Some h => if nonempty h then query ++ "&head=" ++ h else query
    | None => query
    end in
  let query :=
    match base with
    | Some b => if nonempty b then query ++ "&base=" ++ b else query
    | None => query
    end in
  while_true bound (fun '(pulls, page) =>
    response <- get self (query ++ "&page=" ++ str_of_int page) ;;
    pulls <- extend pulls response ;;
    let page := (page + 1)%Z in
    n <- len response ;;
    if (n <? 100)%Z then ret (inr pulls)
    else ret (inl (pulls, page)))
  ([], 1%Z).

Definition pull_merge (self : t) (number : Z)
    (commit_title commit_message sha merge_method : option string) : M pyval :=
  let data : dict pyval := [] in
  let data :=
    match commit_title with
    | Some s => dict_set data "commit_title" (PStr s)
    | None => data
    end in
  let data :=
    match commit_message with
    | Some s => dict_set data "commit_message" (PStr s)
    | None => data
    end in
  let data :=
    match sha with
    | Some s => dict_set data "sha" (PStr s)
    | None => data
    end in
  let data :=
    match merge_method with
    | Some s => dict_set data "merge_method" (PStr s)
    | None => data
    end in
  _rest_query self ("pulls/" ++ str_of_int number ++ "/merge") PUT None
    (if truthy (PDict data) then Some (PDict data) else None) RJson None "api".

(** [r"^[a-z0-9][a-z0-9\-]*$"] *)
Definition topic_pattern : Re.regex :=
  let first c := Re.between "a" "z" c || Re.between "0" "9" c in
  let next c := Re.between "a" "z" c || Re.between "0" "9" c || Ascii.eqb c "-" in
  Re.Cat Re.Bol (Re.Cat (Re.Class first) (Re.Cat (Re.Star next) Re.Eol)).

Definition repo_topics_replace (self : t) (topics : list pyval) : M pyval :=
  for_each topics (fun topic =>
    match topic with
    | PStr s =>
        if (50 <? String.length s)%nat then raise ValueError
        else
          match Re.re_match topic_pattern s with
          | Some _ => ret tt
          | None => raise ValueError
          end
    | _ => raise TypeError
    end) ;;;
  _rest_query self "topics" PUT None
    (Some (PDict [("names", PList topics)])) RJson None "api".

(** [r"^[0-9a-fA-F]{6}$"] *)
Definition color_pattern : Re.regex :=
  let hex c :=
    Re.between "0" "9" c || Re.between "a" "f" c || Re.between "A" "F" c in
  Re.Cat Re.Bol (Re.Times 6 hex Re.Eol).

Definition _validate_label_data (name color description : pyval) : M unit :=
  for_each [name; color; description] (fun input_ =>
    if is_str input_ then ret tt else raise TypeError) ;;;
  (if truthy color then
     m <- pattern_match color_pattern color ;;
     match m with
     | Some _ => ret tt
     | None => raise ValueError
     end
   else ret tt) ;;;
  n <- len description ;;
  if (100 <? n)%Z then raise ValueError else ret tt.

Definition label_create (self : t) (name color description : pyval) : M pyval :=
  _validate_label_data name color description ;;;
  let data := [("name", name)] in
  let data := if truthy color then dict_set data "color" color else data in
  let data :=
    if truthy description then dict_set data "description" description
    else data in
  _rest_query self "labels" POST None (Some (PDict data)) RJson None "api".

(** The table [arg_map] of [_prepare_branch_protection_rule_input] *)
Definition arg_map : dict string :=
  [("rule_id", "branchProtectionRuleId");
   ("pattern", "pattern");
   ("allow_deletions", "allowsDeletions");
   ("allow_force_pushes", "allowsForcePushes");
   ("block_creations", "blocksCreations");
   ("bypass_force_push_actor_ids", "bypassForcePushActorIds");
   ("bypass_pull_request_actor_ids", "bypassPullRequestActorIds");
   ("dismiss_stale_reviews", "dismissesStaleReviews");
   ("enforce_admins", "isAdminEnforced");
   ("lock_allows_fetch_and_merge", "lockAllowsFetchAndMerge");
   ("lock_branch", "lockBranch");
   ("push_actor_ids", "pushActorIds");
   ("require_last_push_approval", "requireLastPushApproval");
   ("required_approving_review_count", "requiredApprovingReviewCount");
   ("required_deployment_environments", "requiredDeploymentEnvironments");
   ("required_status_check_contexts", "requiredStatusCheckContexts");
   ("require_approving_reviews", "requiresApprovingReviews");
   ("require_codeowner_reviews", "requiresCodeOwnerReviews");
   ("require_commit_signatures", "requiresCommitSignatures");
   ("require_conversation_resolution", "requiresConversationResolution");
   ("require_deployments", "requiresDeployments");
   ("require_linear_history", "requiresLinearHistory");
   ("require_status_checks", "requiresStatusChecks");
   ("require_status_checks_strict", "requiresStrictStatusChecks");
   ("restrict_push", "restrictsPushes");
   ("restrict_review_dismissals", "restrictsReviewDismissals");
   ("review_dismissal_actor_ids", "reviewDismissalActorIds")].

(** [{arg_map[k]: v for k, v in kwargs.items() if v is not None}],
    continued from the entries [out] built so far *)
Fixpoint comprehension (items : list (string * pyval)) (out : dict pyval)
    : M (dict pyval) :=
  match items with
  | [] => ret out
  | (k, PNone) :: items' => comprehension items' out
  | (k, v) :: items' =>
      match dict_get arg_map k with
      | Some k' => comprehension items' (dict_set out k' v)
      | None => raise (KeyError k)
      end
  end.

Definition _prepare_branch_protection_rule_input (kwargs : dict pyval)
    : M (dict pyval) :=
  comprehension kwargs [].

(** [data] is what [locals()] holds once ["self"] is popped: the
    parameters by name, in the order of the signature. *)
Definition branch_protection_rule_create (self : t) (data : dict pyval)
    : M pyval :=
  inputs <- _prepare_branch_protection_rule_input data ;;
  info <- info self ;;
  node_id <- getitem info "node_id" ;;
  let inputs := dict_set inputs "repositoryId" node_id in
  out <- GitHub.graphql_mutation (_github self)
           "createBranchProtectionRule" "CreateBranchProtectionRuleInput"
           inputs "branchProtectionRule {id}" None ;;
  has_errors <- contains "errors" out ;;
  if has_errors : bool then ret out
  else
    rule <- getitem out "createBranchProtectionRule" ;;
    rule <- getitem rule "branchProtectionRule" ;;
    getitem rule "id".

(** *** The other operations of [Repo] *)

Definition content (self : t) (path : string) (ref : option string) : M pyval :=
  get self ("contents/" ++ removesuffix path "/"
            ++ match ref with
               | Some r => if nonempty r then "?ref=" ++ r else ""
               | None => ""
               end).

Definition discussion_categories (self : t) : M (list pyval) :=
  let query :=
    nl ++ "            repository(name: " ++ dq ++ _name self ++ dq
    ++ ", owner: " ++ dq ++ _username self ++ dq ++ ") {" ++ nl
    ++ "              discussionCategories(first: 25) {" ++ nl
    ++ "                edges {" ++ nl
    ++ "                  node {" ++ nl
    ++ "                    name" ++ nl
    ++ "                    slug" ++ nl
    ++ "                    id" ++ nl
    ++ "                  }" ++ nl
    ++ "                }" ++ nl
    ++ "              }" ++ nl
    ++ "            }" ++ nl
    ++ "        " in
  response <- GitHub.graphql_query (_github self) query false None RJson ;;
  data <- getitem response "data" ;;
  repository <- getitem data "repository" ;;
  categories <- getitem repository "discussionCategories" ;;
  edges <- getitem categories "edges" ;;
  entries <- iterate edges ;;
  comprehend entries (fun entry => getitem entry "node").

Definition issue (self : t) (number : Z) : M pyval :=
  get self ("issues/" ++ str_of_int number).

Definition issue_add_assignees (self : t) (number : Z) (assignees : pyval)
    : M pyval :=
  let assignees := if is_str assignees then PList [assignees] else assignees in
  _rest_query self ("issues/" ++ str_of_int number ++ "/assignees") POST None
    (Some (PDict [("assignees", assignees)])) RJson None "api".


Definition pull_create (self : t) (head base title : string) (issue : Z)
    (body : string) (maintainer_can_modify draft : bool) (head_repo : string)
    : M pyval :=
  let data :=
    [("head", PStr head); ("base", PStr base);
     ("maintainer_can_modify", PBool maintainer_can_modify);
     ("draft", PBool draft)] in
  if negb (truthy (or_else (PInt issue) (PStr title))) then raise ValueError
  else
    let data := if truthy (PInt issue) then dict_set data "issue" (PInt issue)
                else data in
    let data := if nonempty title then dict_set data "title" (PStr title)
                else data in
    let data := if nonempty body then dict_set data "body" (PStr body)
                else data in
    let data := if nonempty head_repo
                then dict_set data "head_repo" (PStr head_repo) else data in
    _rest_query self "pulls" POST None (Some (PDict data)) RJson None "api".


(** [x in ('legacy', 'workflow')] *)
Definition is_build_type (x : string) : bool :=
  String.eqb x "legacy" || String.eqb x "workflow".

(** [x in ('/', '/docs')] *)
Definition is_pages_path (x : string) : bool :=
  String.eqb x "/" || String.eqb x "/docs".

Definition pages_create (self : t) (build_type : string)
    (branch : option string) (path : string) : M pyval :=
  if negb (is_build_type build_type) then raise ValueError
  else
    let data := [("build_type", PStr build_type)] in
    (if String.eqb build_type "legacy" then
       match branch with
       | Some b =>
           if negb (nonempty b) then raise ValueError
           else if negb (is_pages_path path) then raise ValueError
           else ret (dict_set data "source"
                       (PDict [("branch", PStr b); ("path", PStr path)]))
       | None => raise ValueError
       end
     else ret data) >>= fun data =>
    _rest_query self "pages" POST None (Some (PDict data)) RJson None "api".

Definition pages_update (self : t) (cname : option string)
    (https_enforced : option bool) (build_type branch : option string)
    (path : string) : M unit :=
  let data : dict pyval := [] in
  let data :=
    match cname with
    | Some c => dict_set data "cname" (if nonempty c then PStr c else PNone)
    | None => data
    end in
  let data :=
    match https_enforced with
    | Some b => dict_set data "https_enforced" (PBool b)
    | None => data
    end in
  (match build_type with
   | Some bt =>
       if negb (is_build_type bt) then raise ValueError
       else ret (dict_set data "build_type" (PStr bt))
   | None => ret data
   end) >>= fun data =>
  (match build_type with
   | Some "legacy" =>
       match branch with
       | Some b =>
           if negb (nonempty b) then raise ValueError
           else if negb (is_pages_path path) then raise ValueError
           else ret (dict_set data "source"
                       (PDict [("branch", PStr b); ("path", PStr path)]))
       | None => raise ValueError
       end
   | _ => ret data
   end) >>= fun data =>
  _rest_query self "pages" PUT None (Some (PDict data)) RStr None "api" ;;;
  ret tt.

Definition pages_delete (self : t) : M pyval :=
  _rest_query self "pages" DELETE None None RStr None "api".

Definition label_delete (self : t) (name : pyval) : M pyval :=
  match name with
  | PStr s => _rest_query self ("labels/" ++ s) DELETE None None RStr None "api"
  | _ => raise TypeError
  end.

Definition label_update (self : t) (name new_name color description : pyval)
    : M pyval :=
  _validate_label_data new_name color description ;;;
  match name with
  | PStr s =>
      let data : dict pyval := [] in
      let data := if truthy new_name then dict_set data "new_name" new_name
                  else data in
      let data := if truthy color then dict_set data "color" color else data in
      let data :=
        if truthy description then dict_set data "description" description
        else data in
      if negb (truthy (PDict data)) then raise ValueError
      else _rest_query self ("labels/" ++ s) PATCH None (Some (PDict data))
             RJson None "api"
  | _ => raise TypeError
  end.

Definition actions_permissions_workflow_default_set (self : t)
    (permissions : option string) (can_approve_pull_requests : option bool)
    : M unit :=
  let data : dict pyval := [] in
  let data :=
    match permissions with
    | Some p => dict_set data "default_workflow_permissions" (PStr p)
    | None => data
    end in
  let data :=
    match can_approve_pull_requests with
    | Some b => dict_set data "can_approve_pull_request_reviews" (PBool b)
    | None => data
    end in
  if negb (truthy (PDict data)) then raise ValueError
  else
    _rest_query self "actions/permissions/workflow" PUT None
      (Some (PDict data)) RStr None "api" ;;;
    ret tt.

(** [f"{v}"] for a [str | int] *)
Definition fmt (v : string + Z) : string :=
  match v with
  | inl s => s
  | inr z => str_of_int z
  end.

(** Truth value of a [str | int | None] *)
Definition given (v : option (string + Z)) : bool :=
  match v with
  | Some (inl s) => nonempty s
  | Some (inr z) => negb (Z.eqb z 0)
  | None => false
  end.

Definition branch_create_linked (self : t) (issue_id : string + Z)
    (base_sha : string) (name : option string)
    (repository_id : option (string + Z)) : M pyval :=
  let inputs :=
    "issueId: " ++ dq ++ fmt issue_id ++ dq ++ ", oid: " ++ dq ++ base_sha
    ++ dq ++ ", " in
  let inputs :=
    match name with
    | Some s => if nonempty s then inputs ++ "name: " ++ dq ++ s ++ dq ++ ", "
                else inputs
    | None => inputs
    end in
  let inputs :=
    match repository_id with
    | Some r => if given repository_id
                then inputs ++ "repositoryId: " ++ dq ++ fmt r ++ dq ++ ", "
                else inputs
    | None => inputs
    end in
  let inputs := rstrip inputs ", " in
  let query :=
    nl ++ "            createLinkedBranch(" ++ nl
    ++ "                input: {" ++ inputs ++ "}" ++ nl
    ++ "            ) {" ++ nl
    ++ "                linkedBranch {" ++ nl
    ++ "                    ref {" ++ nl
    ++ "                        name" ++ nl
    ++ "                        target {oid}" ++ nl
    ++ "                    }" ++ nl
    ++ "                }" ++ nl
    ++ "            }" ++ nl
    ++ "        " in
  out <- GitHub.graphql_query (_github self) query true None RJson ;;
  has_errors <- contains "errors" out ;;
  if has_errors : bool then ret out
  else
    data <- getitem out "data" ;;
    data <- getitem data "createLinkedBranch" ;;
    data <- getitem data "linkedBranch" ;;
    data <- getitem data "ref" ;;
    name <- getitem data "name" ;;
    target <- getitem data "target" ;;
    oid <- getitem target "oid" ;;
    ret (PDict [("name", name); ("sha", oid)]).

(** [data] is what [locals()] holds once ["self"] is popped, as for
    [branch_protection_rule_create]. *)
Definition branch_protection_rule_update (self : t) (data : dict pyval)
    : M pyval :=
  inputs <- _prepare_branch_protection_rule_input data ;;
  out <- GitHub.graphql_mutation (_github self)
           "updateBranchProtectionRule" "UpdateBranchProtectionRuleInput"
           inputs "branchProtectionRule {id}" None ;;
  has_errors <- contains "errors" out ;;
  if has_errors : bool then ret out
  else
    rule <- getitem out "updateBranchProtectionRule" ;;
    rule <- getitem rule "branchProtectionRule" ;;
    getitem rule "id".

End Repo.

(** ** [class User] *)

Module User.

Record t : Type := {
  _username : string;
  _token : option string;
  _github : GitHub.t
}.

Definition __init__ (username : string) (token : option string) : t :=
  {| _username := username; _token := token;
     _github := GitHub.__init__ token |}.

Definition username (self : t) : string := _username self.

Definition _rest_query (self : t) (query : string) (verb : verb)
    (data : option string) (json : option pyval)
    (response_type : response_type) (extra_headers : option (dict string))
    (endpoint : string) : M pyval :=
  GitHub.rest_query (_github self)
    ("users/" ++ username self ++ "/" ++ query)
    verb data json response_type extra_headers endpoint.

Definition info (self : t) : M pyval :=
  _rest_query self "" GET None None RJson None "api".

Definition social_accounts (self : t) : M pyval :=
  _rest_query self "social_accounts" GET None None RJson None "api".

Definition repo (self : t) (repo_name : string) : Repo.t :=
  Repo.__init__ (username self) repo_name (_token self).

(** [GitHub.user] *)
Definition user (github : GitHub.t) (username : string) : t :=
  __init__ username (GitHub._token github).

End User.

(** ** [class DOI] *)

Module DOI.

Record t : Type := {
  doi : string;
  url : string
}.

(** [r"(?:https?://)?(?:dx\.)?(?:doi\.org/)?(10\.\d+/\S+)"] *)
Definition pattern : Re.regex :=
  Re.Cat (Re.Opt (Re.Cat (Re.Chars "http")
                    (Re.Cat (Re.Opt (Re.Chars "s")) (Re.Chars "://"))))
 (Re.Cat (Re.Opt (Re.Chars "dx."))
 (Re.Cat (Re.Opt (Re.Chars "doi.org/"))
         (Re.Group
            (Re.Cat (Re.Chars "10.")
            (Re.Cat (Re.Plus Re.digit)
            (Re.Cat (Re.Chars "/") (Re.Plus Re.nonspace))))))).

Definition __init__ (doi : string) : M t :=
  match Re.re_match pattern doi with
  | None => raise ValueError
  | Some m =>
      let doi := Re.group m in
      ret {| doi := doi; url := "https://doi.org/" ++ doi |}
  end.

(** The keys that [_get_date] looks up, in order *)
Definition choices : list string :=
  ["pubished"; "published-online"; "published-print"; "published-other";
   "issued"; "created"; "deposited"; "indexed"].

Definition _get_date (data : dict pyval) : M (pyval * pyval * pyval) :=
  for_state choices (fun choice '(year, month, day) =>
    if truthy year && truthy month && truthy day
    then ret (inr (year, month, day))
    else
      entry <- get_or (PDict data) choice (PDict []) ;;
      parts <- get_or entry "date-parts" (PList [PNone]) ;;
      date <- index parts 0 ;;
      if truthy date then
        year <- (if truthy year then ret year else index date 0) ;;
        if negb (truthy month) then
          n <- len date ;;
          month <- (if (n =? 2)%Z then index date 1 else ret month) ;;
          n <- len date ;;
          if (n =? 3)%Z then
            month <- index date 1 ;;
            day <- index date 2 ;;
            ret (inl (year, month, day))
          else ret (inl (year, month, day))
        else ret (inl (year, month, day))
      else ret (inl (year, month, day)))
    (PNone, PNone, PNone) >>= fun '(year, month, day) =>
  ret (year, or_else month (PInt 1), or_else day (PInt 1)).

End DOI.

(** ** Vocabulary of the statements *)

Module Spec.

(** Every character of [s] is in the class [p]. *)
Fixpoint all (p : ascii -> bool) (s : string) : bool :=
  match s with
  | EmptyString => true
  | String c s' => p c && all p s'
  end.

(** [s] is empty or starts outside the class [p]. *)
Definition ends_run (p : ascii -> bool) (s : string) : Prop :=
  match s with
  | EmptyString => True
  | String c _ => p c = false
  end.

(** The strings a pattern can consume: [w] is consumed at position [n],
    [after] being what follows in the subject. *)
Fixpoint denote (r : Re.regex) (n : nat) (w after : string) : Prop :=
  match r with
  | Re.Chars l => w = l
  | Re.Class p => exists c, w = String c "" /\ p c = true
  | Re.Star p => all p w = true
  | Re.Cat r1 r2 =>
      exists w1 w2, w = w1 ++ w2 /\ denote r1 n w1 (w2 ++ after)
                    /\ denote r2 (n + String.length w1) w2 after
  | Re.Opt r' => w = "" \/ denote r' n w after
  | Re.Group r' => denote r' n w after
  | Re.Bol => w = "" /\ n = O
  | Re.Eol => w = "" /\ Re.at_end after = true
  end.

(** A bare DOI: ['10.'], digits, ['/'], characters that are not
    whitespace. *)
Definition identifier (s : string) : Prop :=
  exists ds tail,
    s = "10." ++ ds ++ "/" ++ tail
    /\ ds <> "" /\ all Re.digit ds = true
    /\ tail <> "" /\ all Re.nonspace tail = true.

(** An optional ['http://'] or ['https://'], an optional ['dx.'], an
    optional ['doi.org/']. *)
Definition url_prefix (s : string) : Prop :=
  exists a b c,
    s = a ++ b ++ c
    /\ (a = "" \/ a = "http://" \/ a = "https://")
    /\ (b = "" \/ b = "dx.")
    /\ (c = "" \/ c = "doi.org/").

(** [s] starts with a bare DOI, possibly behind a prefix. *)
Definition starts_with_identifier (s : string) : Prop :=
  exists pre ident rest,
    s = pre ++ ident ++ rest /\ url_prefix pre /\ identifier ident.

(** *** Paginated list operations *)

Inductive list_op : Type :=
| Branches
| Labels
| IssueLabels (number : Z)
| PullList (state : string) (head base : option string) (sort direction : string)
| IssueComments (number max_count : Z).

Definition run_op (op : list_op) (bound : nat) (self : Repo.t)
    : M (list pyval) :=
  match op with
  | Branches => Repo.branches bound self
  | Labels => Repo.labels bound self
  | IssueLabels number => Repo.issue_labels bound self number
  | PullList state head base sort direction =>
      Repo.pull_list bound self state head base sort direction
  | IssueComments number max_count =>
      Repo.issue_comments bound self number max_count
  end.

(** The cap on the number of items, for the operation that takes one *)
Definition cap (op : list_op) : option Z :=
  match op with
  | IssueComments _ max_count => Some max_count
  | _ => None
  end.

(** A query parameter that is left out when its value is [None] or
    empty *)
Definition opt_param (name : string) (value : option string) : string :=
  match value with
  | Some v => if nonempty v then name ++ v else ""
  | None => ""
  end.

(** The query of the request for the page of index [page] *)
Definition page_query (op : list_op) (page : Z) : string :=
  match op with
  | Branches => "branches?per_page=100&page=" ++ str_of_int page
  | Labels => "labels?per_page=100&page=" ++ str_of_int page
  | IssueLabels number =>
      "issues/" ++ str_of_int number ++ "/labels?per_page=100&page="
      ++ str_of_int page
  | PullList state head base sort direction =>
      "pulls?state=" ++ state ++ "&sort=" ++ sort ++ "&direction="
      ++ direction ++ "&per_page=100" ++ opt_param "&head=" head
      ++ opt_param "&base=" base ++ "&page=" ++ str_of_int page
  | IssueComments number _ =>
      "issues/" ++ str_of_int number ++ "/comments?per_page=100&page="
      ++ str_of_int page
  end.

(** The [GET] request of a repository client for a query *)
Definition get_request (username name : string) (token : option string)
    (query : string) : Request :=
  {| req_verb := GET;
     req_url := Div (Url "https://api.github.com")
                  ("repos/" ++ username ++ "/" ++ name ++ "/" ++ query);
     req_headers := GitHub._headers (GitHub.__init__ token);
     req_data := None;
     req_json := None;
     req_response_type := RJson |}.

Definition page_request (username name : string) (token : option string)
    (op : list_op) (page : nat) : Request :=
  get_request username name token (page_query op (Z.of_nat page)).

(** The requests for the pages 1 to [k], in this order *)
Definition page_requests (username name : string) (token : option string)
    (op : list_op) (k : nat) : list Request :=
  map (page_request username name token op) (seq 1 k).

(** The items of a response: the elements of a list, the keys of a dict,
    the characters of a string. *)
Definition items (v : pyval) : option (list pyval) :=
  match v with
  | PList l => Some l
  | PDict d => Some (map PStr (keys d))
  | PStr s => Some (chars s)
  | PNone | PBool _ | PInt _ | PFloat _ => None
  end.

(** The transport answers the pages [start], [start + 1], ... with
    responses whose items are the lists of [pages], in this order. *)
Definition served_from (transport : Request -> reply) (username name : string)
    (token : option string) (op : list_op) (start : nat)
    (pages : list (list pyval)) : Prop :=
  forall i p, nth_error pages i = Some p ->
    exists v,
      transport (page_request username name token op (start + i)) = Reply v
      /\ items v = Some p.

(** The same from page 1 *)
Definition serves (transport : Request -> reply) (username name : string)
    (token : option string) (op : list_op) (pages : list (list pyval)) : Prop :=
  served_from transport username name token op 1 pages.

(** The test that ends the loop, on the page just received and the items
    gathered so far (this page included) *)
Definition stops (op : list_op) (page gathered : list pyval) : bool :=
  (Z.of_nat (List.length page) <? 100)%Z
  || match cap op with
     | Some max_count => (Z.of_nat (List.length gathered) >=? max_count)%Z
     | None => false
     end.

(** The loop goes on after each of [pages]. *)
Definition goes_on (op : list_op) (pages : list (list pyval)) : Prop :=
  forall i p, nth_error pages i = Some p ->
    stops op p (List.concat (firstn (S i) pages)) = false.

(** The number of full pages after which [max_count] items are there *)
Definition pages_needed (max_count : Z) : nat :=
  Z.to_nat (Z.max 1 ((max_count + 99) / 100)).

(** The body and the loop that the five operations share, on a query
    and a test *)
Definition page_body (self : Repo.t) (query : Z -> string)
    (stop : Z -> list pyval -> bool) (s : list pyval * Z)
    : M (list pyval * Z + list pyval) :=
  let '(acc, page) := s in
  (response <- Repo.get self (query page) ;;
   acc <- extend acc response ;;
   let page := (page + 1)%Z in
   n <- len response ;;
   if stop n acc then ret (inr acc)
   else ret (inl (acc, page)))%py.

Definition op_stop (op : list_op) (n : Z) (acc : list pyval) : bool :=
  match cap op with
  | Some max_count => (n <? 100)%Z || (Z.of_nat (List.length acc) >=? max_count)%Z
  | None => (n <? 100)%Z
  end.

(** *** Payloads *)

(** The entries of [args] whose value is not [None], in order *)
Definition set_fields (args : list (string * option pyval)) : dict pyval :=
  flat_map (fun kv => match snd kv with
                      | Some v => [(fst kv, v)]
                      | None => []
                      end) args.

(** The value passed for the field [k], if one was *)
Definition passed (args : list (string * option pyval)) (k : string)
    : option pyval :=
  match dict_get args k with
  | Some (Some v) => Some v
  | _ => None
  end.

(** The field [k] of the JSON payload of a request *)
Definition payload_field (r : Request) (k : string) : option pyval :=
  match req_json r with
  | Some (PDict d) => dict_get d k
  | _ => None
  end.

(** [str(title)] for the [str | int] that [issue_update] takes *)
Definition str (v : string + Z) : string :=
  match v with
  | inl s => s
  | inr z => str_of_int z
  end.

Definition issue_update_args (title : option (string + Z))
    (body state state_reason : option string) : list (string * option pyval) :=
  [("title", option_map (fun t => PStr (str t)) title);
   ("body", option_map PStr body);
   ("state", option_map PStr state);
   ("state_reason", option_map PStr state_reason)].

Definition pull_merge_args (commit_title commit_message sha merge_method
    : option string) : list (string * option pyval) :=
  [("commit_title", option_map PStr commit_title);
   ("commit_message", option_map PStr commit_message);
   ("sha", option_map PStr sha);
   ("merge_method", option_map PStr merge_method)].

(** *** Validation *)

(** A topic that is not a string, is longer than 50 characters, or does
    not match the topic pattern *)
Definition bad_topic (v : pyval) : Prop :=
  match v with
  | PStr s =>
      (50 < String.length s)%nat \/ Re.re_match Repo.topic_pattern s = None
  | _ => True
  end.

(** A non-empty colour that does not match the colour pattern *)
Definition bad_color (v : pyval) : Prop :=
  exists s, v = PStr s /\ s <> "" /\ Re.re_match Repo.color_pattern s = None.

(** A description longer than 100 characters *)
Definition bad_description (v : pyval) : Prop :=
  exists s, v = PStr s /\ (100 < String.length s)%nat.

(** An outcome that is a [TypeError] or a [ValueError] *)
Definition validation_error {A} (o : outcome A) : Prop :=
  o = Raise TypeError \/ o = Raise ValueError.

(** *** GraphQL and credentials *)

(** [response["data"][name]] *)
Definition unwrapped (response : pyval) (name : string) : option pyval :=
  match response with
  | PDict d =>
      match dict_get d "data" with
      | Some (PDict data) => dict_get data name
      | _ => None
      end
  | _ => None
  end.

(** The extra headers of a call name no [Authorization] header. *)
Definition no_authorization (extra_headers : option (dict string)) : Prop :=
  match extra_headers with
  | Some extra => dict_mem "Authorization" extra = false
  | None => True
  end.

(** The value of the [Authorization] header that goes with a token *)
Definition bearer (token : option string) : option string :=
  match token with
  | Some s => if nonempty s then Some ("Bearer " ++ s) else None
  | None => None
  end.

(** *** Transports for the examples *)

(** A page of [k] items *)
Definition page_of (k : nat) : list pyval :=
  repeat (PDict [("name", PStr "main")]) k.

(** The reply of [replies] whose rank is the page that [target] asks
    for, the first reply standing for the page [page] *)
Fixpoint scripted_from (query : Z -> string) (target : string) (page : nat)
    (replies : list reply) : reply :=
  match replies with
  | [] => Fail (HTTPError 404 "Not Found")
  | x :: replies' =>
      if String.eqb target (query (Z.of_nat page)) then x
      else scripted_from query target (S page) replies'
  end.

(** A transport that answers the requests of [op] for the pages 1, 2, ...
    of a repository with [replies], and any other request with an
    error *)
Definition scripted (username name : string) (op : list_op)
    (replies : list reply) (r : Request) : reply :=
  match req_url r with
  | Div _ target =>
      scripted_from
        (fun page => "repos/" ++ username ++ "/" ++ name ++ "/"
                     ++ page_query op page)
        target 1 replies
  | Url _ => Fail (HTTPError 404 "Not Found")
  end.

(** A transport that gives the same response to every request *)
Definition constant (response : pyval) (r : Request) : reply :=
  Reply response.

(** A transport for [branch_protection_rule_create]: the repository on a
    [GET], the outcome of the mutation on a [POST] *)
Definition github_mock (r : Request) : reply :=
  match req_verb r with
  | GET => Reply (PDict [("node_id", PStr "R_1")])
  | POST =>
      Reply (PDict [("data", PDict [("createBranchProtectionRule",
        PDict [("branchProtectionRule", PDict [("id", PStr "BPR_1")])])])])
  | _ => Fail (HTTPError 404 "Not Found")
  end.

(** *** Computations that send nothing *)

(** A computation that sends no request and comes to an end *)
Definition silent {A} (m : M A) : Prop :=
  forall transport sent,
    snd (m transport sent) = sent /\ fst (m transport sent) <> Unfinished.

(** The entry of a record under [k] can be read by [_get_date]: it is
    absent, or a dict whose ["date-parts"] is absent or a list that is not
    empty. *)
Definition readable (data : dict pyval) (k : string) : Prop :=
  dict_get data k = None
  \/ exists e,
       dict_get data k = Some (PDict e)
       /\ (dict_get e "date-parts" = None
           \/ exists x rest, dict_get e "date-parts" = Some (PList (x :: rest))).

(** The entry of a record under [k] holds the date [date]. *)
Definition dated (data : dict pyval) (k : string) (date : list pyval) : Prop :=
  exists e rest,
    dict_get data k = Some (PDict e)
    /\ dict_get e "date-parts" = Some (PList (PList date :: rest)).

(** *** Branch protection rules *)

(** The entries of [kwargs] that are not [None], under the names that
    [arg_map] gives them *)
Definition renamed (kwargs : dict pyval) : dict pyval :=
  flat_map (fun kv =>
    match snd kv with
    | PNone => []
    | v => match dict_get Repo.arg_map (fst kv) with
           | Some k' => [(k', v)]
           | None => []
           end
    end) kwargs.

(** Every entry of [kwargs] is [None] or has a name that [arg_map] knows. *)
Definition known (kwargs : dict pyval) : Prop :=
  forall k v, In (k, v) kwargs -> v = PNone \/ dict_mem k Repo.arg_map = true.

(** [arg_map], read from right to left *)
Definition arg_map_inverse : dict string :=
  map (fun kv => (snd kv, fst kv)) Repo.arg_map.

(** The request that [graphql_mutation] sends, without extra headers *)
Definition mutation_request (token : option string)
    (name input_name payload : string) (input : dict pyval) : Request :=
  {| req_verb := POST;
     req_url := Div (Url "https://api.github.com") "graphql";
     req_headers := GitHub._headers (GitHub.__init__ token);
     req_data := None;
     req_json :=
       Some (PDict
         [("query",
           PStr ("mutation($mutationInput:" ++ input_name ++ "!) {" ++ name
                 ++ "(input:$mutationInput) {" ++ payload ++ "}}"));
          ("variables", PDict [("mutationInput", PDict input)])]);
     req_response_type := RJson |}.

(** What [graphql_mutation] makes of the reply to its request *)
Definition mutation_outcome (r : reply) : outcome pyval :=
  match r with
  | Fail e => Raise e
  | Reply (PDict d) =>
      if dict_mem "errors" d then Ok (PDict d)
      else match dict_get d "data" with
           | Some v => Ok v
           | None => Raise (KeyError "data")
           end
  | Reply (PList l) =>
      if existsb (fun x => match x with
                           | PStr s => String.eqb s "errors"
                           | _ => false
                           end) l
      then Ok (PList l) else Raise TypeError
  | Reply (PStr s) =>
      if occurs "errors" s then Ok (PStr s) else Raise TypeError
  | Reply _ => Raise TypeError
  end.

(** The value under a path of keys in nested dicts *)
Fixpoint at_path (v : pyval) (path : list string) : option pyval :=
  match path with
  | [] => Some v
  | k :: path' =>
      match v with
      | PDict d => match dict_get d k with
                   | Some v' => at_path v' path'
                   | None => None
                   end
      | _ => None
      end
  end.

(** *** Pull requests and pages *)

(** A request of a repository client with a JSON payload *)
Definition json_request (username name : string) (token : option string)
    (verb : verb) (query : string) (payload : dict pyval)
    (response_type : response_type) : Request :=
  {| req_verb := verb;
     req_url := Div (Url "https://api.github.com")
                  ("repos/" ++ username ++ "/" ++ name ++ "/" ++ query);
     req_headers := GitHub._headers (GitHub.__init__ token);
     req_data := None;
     req_json := Some (PDict payload);
     req_response_type := response_type |}.


(** The value of a [str] argument that is left out when empty *)
Definition unless_empty (s : string) : option pyval :=
  if nonempty s then Some (PStr s) else None.

Definition pull_create_payload (head base title : string) (issue : Z)
    (body : string) (maintainer_can_modify draft : bool) (head_repo : string)
    : dict pyval :=
  ([("head", PStr head); ("base", PStr base);
    ("maintainer_can_modify", PBool maintainer_can_modify);
    ("draft", PBool draft)]
   ++ set_fields
        [("issue", if Z.eqb issue 0 then None else Some (PInt issue));
         ("title", unless_empty title);
         ("body", unless_empty body);
         ("head_repo", unless_empty head_repo)])%list.

(** The outcome of a call that returns [None] once its request is
    answered *)
Definition answered (r : reply) : outcome unit :=
  match r with
  | Reply _ => Ok tt
  | Fail e => Raise e
  end.

(** The branch and the path that a legacy build of the pages needs *)
Definition pages_source (branch : option string) (path : string)
    : option pyval :=
  match branch with
  | Some b =>
      if nonempty b && Repo.is_pages_path path
      then Some (PDict [("branch", PStr b); ("path", PStr path)])
      else None
  | None => None
  end.

(** *** Topics and colours that pass *)

(** [[a-z0-9]] and [[a-z0-9\-]] *)
Definition topic_first (c : ascii) : bool :=
  Re.between "a" "z" c || Re.between "0" "9" c.

Definition topic_next (c : ascii) : bool :=
  Re.between "a" "z" c || Re.between "0" "9" c || Ascii.eqb c "-".

(** [[0-9a-fA-F]] *)
Definition hex_digit (c : ascii) : bool :=
  Re.between "0" "9" c || Re.between "a" "f" c || Re.between "A" "F" c.

(** A lower-case letter or a digit, then lower-case letters, digits and
    hyphens, and possibly one newline at the very end *)
Definition topic_shape (s : string) : Prop :=
  exists c body last,
    s = String c body ++ last
    /\ topic_first c = true /\ all topic_next body = true
    /\ (last = "" \/ last = nl).

(** Six hexadecimal digits, and possibly one newline at the very end *)
Definition color_shape (s : string) : Prop :=
  exists h last,
    s = h ++ last /\ String.length h = 6%nat /\ all hex_digit h = true
    /\ (last = "" \/ last = nl).

(** A topic that [repo_topics_replace] lets through *)
Definition good_topic (v : pyval) : Prop :=
  exists s, v = PStr s /\ (String.length s <= 50)%nat /\ topic_shape s.

(** *** GraphQL queries of the repository client *)

(** The request that [graphql_query] sends, without extra headers *)
Definition query_request (token : option string) (mutation : bool)
    (query : string) : Request :=
  {| req_verb := POST;
     req_url := Div (Url "https://api.github.com") "graphql";
     req_headers := GitHub._headers (GitHub.__init__ token);
     req_data := None;
     req_json :=
       Some (PDict
         [("query",
           PStr ((if mutation then "mutation " else "") ++ "{" ++ query
                 ++ "}"))]);
     req_response_type := RJson |}.

(** A field of a GraphQL input: its name and its value in quotes *)
Definition quoted_field (name value : string) : string :=
  name ++ ": " ++ dq ++ value ++ dq.

(** The fields that [branch_create_linked] gives to [createLinkedBranch]:
    the name and the repository only when they are given and not empty (or
    zero) *)
Definition linked_branch_fields (issue_id : string + Z) (base_sha : string)
    (name : option string) (repository_id : option (string + Z))
    : list string :=
  ([quoted_field "issueId" (Repo.fmt issue_id); quoted_field "oid" base_sha]
   ++ match name with
      | Some s => if nonempty s then [quoted_field "name" s] else []
      | None => []
      end
   ++ match repository_id with
      | Some r => if Repo.given repository_id
                  then [quoted_field "repositoryId" (Repo.fmt r)] else []
      | None => []
      end)%list.

(** The text of the [createLinkedBranch] mutation with the input [inputs] *)
Definition linked_branch_query (inputs : string) : string :=
  nl ++ "            createLinkedBranch(" ++ nl
  ++ "                input: {" ++ inputs ++ "}" ++ nl
  ++ "            ) {" ++ nl
  ++ "                linkedBranch {" ++ nl
  ++ "                    ref {" ++ nl
  ++ "                        name" ++ nl
  ++ "                        target {oid}" ++ nl
  ++ "                    }" ++ nl
  ++ "                }" ++ nl
  ++ "            }" ++ nl
  ++ "        ".

(** Where the answer to [createLinkedBranch] holds the new branch *)
Definition linked_branch_ref : list string :=
  ["data"; "createLinkedBranch"; "linkedBranch"; "ref"].

(** The text of the query for the discussion categories of a repository *)
Definition categories_query (username name : string) : string :=
  nl ++ "            repository(name: " ++ dq ++ name ++ dq
  ++ ", owner: " ++ dq ++ username ++ dq ++ ") {" ++ nl
  ++ "              discussionCategories(first: 25) {" ++ nl
  ++ "                edges {" ++ nl
  ++ "                  node {" ++ nl
  ++ "                    name" ++ nl
  ++ "                    slug" ++ nl
  ++ "                    id" ++ nl
  ++ "                  }" ++ nl
  ++ "                }" ++ nl
  ++ "              }" ++ nl
  ++ "            }" ++ nl
  ++ "        ".

(** Where the answer to that query holds the categories *)
Definition categories_edges : list string :=
  ["data"; "repository"; "discussionCategories"; "edges"].

(** *** More transports for the examples *)


(** A record of a work with the date [date] under [key] *)
Definition dated_record (key : string) (date : list Z) : string * pyval :=
  (key, PDict [("date-parts", PList [PList (map PInt date)])]).

End Spec.

Import Spec.

(** ** Strings and patterns *)

Lemma append_nil_r (s : string) : s ++ "" = s.
Proof. induction s; simpl; congruence. Qed.

Lemma append_assoc (a b c : string) : (a ++ b) ++ c = a ++ (b ++ c).
Proof. induction a; simpl; congruence. Qed.

Lemma length_append (a b : string) :
  String.length (a ++ b) = (String.length a + String.length b)%nat.
Proof. induction a; simpl; congruence. Qed.

Lemma substring_prefix (w after : string) :
  substring 0 (String.length w) (w ++ after) = w.
Proof.
  induction w as [|c w IH]; simpl.
  - destruct after; reflexivity.
  - now rewrite IH.
Qed.

Lemma strip_app (l s : string) : Re.strip l (l ++ s) = Some s.
Proof.
  induction l as [|c l IH]; simpl; [reflexivity|].
  now rewrite Ascii.eqb_refl.
Qed.

Lemma strip_sound (l s s' : string) : Re.strip l s = Some s' -> s = l ++ s'.
Proof.
  revert s; induction l as [|c l IH]; intros s H; simpl in *.
  - congruence.
  - destruct s as [|b s]; [discriminate|].
    destruct (Ascii.eqb c b) eqn:E; [|discriminate].
    apply Ascii.eqb_eq in E; subst b.
    now rewrite (IH _ H).
Qed.

(** The greedy run takes all of [w] when the continuation accepts there. *)
Lemma star_greedy p w after n g k m :
  all p w = true -> ends_run p after ->
  k (Re.MState (n + String.length w) after g) = Some m ->
  Re.star p n (w ++ after) g k = Some m.
Proof.
  revert n; induction w as [|c w IH]; intros n Hall Hend Hk; simpl in *.
  - rewrite Nat.add_0_r in Hk.
    destruct after as [|c a]; simpl in *; [exact Hk|].
    now rewrite Hend.
  - apply andb_true_iff in Hall as [Hc Hw].
    rewrite Hc, (IH (S n)); auto.
    now rewrite <- Hk; f_equal; f_equal; lia.
Qed.

Lemma star_sound p s n g k m :
  Re.star p n s g k = Some m ->
  exists w after,
    s = w ++ after /\ all p w = true
    /\ k (Re.MState (n + String.length w) after g) = Some m.
Proof.
  revert n; induction s as [|c s IH]; intros n H; simpl in H.
  - exists "", ""; simpl; rewrite Nat.add_0_r; auto.
  - destruct (p c) eqn:Hc.
    + destruct (Re.star p (S n) s g k) eqn:E.
      * injection H as <-.
        destruct (IH _ E) as (w & after & -> & Hall & Hk).
        exists (String c w), after; simpl; rewrite Hc, Hall.
        repeat split; auto.
        now rewrite <- Hk; f_equal; f_equal; lia.
      * exists "", (String c s); simpl; rewrite Nat.add_0_r; auto.
    + exists "", (String c s); simpl; rewrite Nat.add_0_r; auto.
Qed.

(** Whatever [run] accepts is a word of the pattern's denotation. *)
Lemma run_sound r : forall st k m,
  Re.run r st k = Some m ->
  exists w after g,
    Re.rest st = w ++ after /\ denote r (Re.pos st) w after
    /\ k (Re.MState (Re.pos st + String.length w) after g) = Some m.
Proof.
  induction r as [l|p|p|r1 IH1 r2 IH2|r IH|r IH| |]; intros [n s g0] k m H;
    simpl in *.
  - destruct (Re.strip l s) as [s'|] eqn:E; [|discriminate].
    apply strip_sound in E. exists l, s', g0; auto.
  - destruct s as [|c s]; [discriminate|].
    destruct (p c) eqn:Hc; [|discriminate].
    exists (String c ""), s, g0; simpl. repeat split; eauto.
    now rewrite <- H; f_equal; f_equal; lia.
  - destruct (star_sound _ _ _ _ _ H) as (w & after & -> & Hall & Hk).
    exists w, after, g0; auto.
  - destruct (IH1 _ _ _ H) as (w1 & a1 & g1 & E1 & D1 & K1); simpl in *.
    destruct (IH2 _ _ _ K1) as (w2 & a2 & g2 & E2 & D2 & K2); simpl in *.
    subst s a1. exists (w1 ++ w2), a2, g2.
    rewrite append_assoc, length_append, Nat.add_assoc.
    repeat split; auto. exists w1, w2; auto.
  - destruct (Re.run r (Re.MState n s g0) k) eqn:E.
    + injection H as <-.
      destruct (IH _ _ _ E) as (w & a & g & E1 & D & K); simpl in *.
      exists w, a, g; auto.
    + exists "", s, g0; simpl; rewrite Nat.add_0_r; auto.
  - destruct (IH _ _ _ H) as (w & a & g & E1 & D & K); simpl in *.
    eexists w, a, _; repeat split; eauto.
  - destruct (n =? 0)%nat eqn:E; [|discriminate].
    apply Nat.eqb_eq in E. exists "", s, g0; simpl; rewrite Nat.add_0_r; auto.
  - destruct (Re.at_end s) eqn:E; [|discriminate].
    exists "", s, g0; simpl; rewrite Nat.add_0_r; auto.
Qed.

Lemma re_match_sound r s m :
  Re.re_match r s = Some m ->
  exists w after, s = w ++ after /\ denote r 0 w after.
Proof.
  intros H. destruct (run_sound _ _ _ H) as (w & after & g & E & D & _).
  exists w, after; auto.
Qed.

(** ** [DOI.__init__] *)

Lemma substring_whole (s : string) : substring 0 (String.length s) s = s.
Proof.
  rewrite <- (append_nil_r s) at 2. apply substring_prefix.
Qed.

(** ['10.\d+/\S+'] consumes a bare DOI whole. *)
Lemma doi_body_run n g ds tail k m :
  ds <> "" -> all Re.digit ds = true ->
  tail <> "" -> all Re.nonspace tail = true ->
  let ident := "10." ++ ds ++ "/" ++ tail in
  k (Re.MState (n + String.length ident) "" g) = Some m ->
  Re.run
    (Re.Cat (Re.Chars "10.")
    (Re.Cat (Re.Plus Re.digit)
    (Re.Cat (Re.Chars "/") (Re.Plus Re.nonspace))))
    (Re.MState n ident g) k
  = Some m.
Proof.
  intros Hds Hd Htail Ht ident Hk.
  destruct ds as [|c ds]; [congruence|].
  destruct tail as [|c' tail]; [congruence|].
  simpl in Hd, Ht.
  apply andb_true_iff in Hd as [Hc Hd], Ht as [Hc' Ht].
  cbn. rewrite Hc.
  apply star_greedy; [exact Hd|reflexivity|].
  cbn. rewrite Hc'.
  rewrite <- (append_nil_r tail) at 1.
  apply star_greedy; [exact Ht|exact I|].
  rewrite <- Hk. f_equal. f_equal.
  subst ident. cbn. rewrite length_append. cbn. lia.
Qed.

(** The group of [DOI.pattern] captures it. *)
Lemma doi_group_run n g ds tail :
  ds <> "" -> all Re.digit ds = true ->
  tail <> "" -> all Re.nonspace tail = true ->
  let ident := "10." ++ ds ++ "/" ++ tail in
  Re.run
    (Re.Group
       (Re.Cat (Re.Chars "10.")
       (Re.Cat (Re.Plus Re.digit)
       (Re.Cat (Re.Chars "/") (Re.Plus Re.nonspace)))))
    (Re.MState n ident g) Some
  = Some (Re.MState (n + String.length ident) "" (Some ident)).
Proof.
  intros Hds Hd Htail Ht ident.
  change (Re.run (Re.Group ?r) ?st ?k) with
    (Re.run r st (fun st' =>
       k (Re.MState (Re.pos st') (Re.rest st')
            (Some (substring 0 (Re.pos st' - Re.pos st) (Re.rest st)))))).
  apply doi_body_run; auto.
  fold ident. cbv beta. unfold Re.pos, Re.rest.
  now rewrite Nat.add_comm, Nat.add_sub, substring_whole.
Qed.

(** The optional prefixes of [DOI.pattern], before a subject that goes on
    with ['1']: they are consumed, and the rest of the pattern runs on what
    follows them. *)
Lemma doi_prefix_run pre x k :
  url_prefix pre ->
  (forall n c y g, c <> "1"%char -> k (Re.MState n (String c y) g) = None) ->
  Re.run (Re.Opt (Re.Cat (Re.Chars "http")
                    (Re.Cat (Re.Opt (Re.Chars "s")) (Re.Chars "://"))))
    (Re.MState 0 (pre ++ String "1" x) None)
    (fun s1 => Re.run (Re.Opt (Re.Chars "dx.")) s1
    (fun s2 => Re.run (Re.Opt (Re.Chars "doi.org/")) s2 k))
  = k (Re.MState (String.length pre) (String "1" x) None).
Proof.
  intros (a & b & c & -> & Ha & Hb & Hc) Hk.
  destruct Ha as [->|[->| ->]], Hb as [->| ->], Hc as [->| ->]; cbn;
    repeat first [ rewrite (Hk _ "d"%char) by discriminate
                 | rewrite (Hk _ "h"%char) by discriminate ];
    try reflexivity;
    destruct (k (Re.MState _ (String "1" x) None)); reflexivity.
Qed.

Lemma run_group_chars_fail l r st k :
  Re.strip l (Re.rest st) = None ->
  Re.run (Re.Group (Re.Cat (Re.Chars l) r)) st k = None.
Proof. intros H; simpl; now rewrite H. Qed.

Lemma doi_match_whole pre ident :
  url_prefix pre -> identifier ident ->
  Re.re_match DOI.pattern (pre ++ ident)
  = Some (Re.MState (String.length pre + String.length ident) "" (Some ident)).
Proof.
  intros Hpre (ds & tail & -> & Hds & Hd & Htail & Ht).
  unfold Re.re_match, DOI.pattern.
  repeat change (Re.run (Re.Cat (Re.Opt ?a) ?b) ?st ?k)
    with (Re.run (Re.Opt a) st (fun s => Re.run b s k)).
  change ("10." ++ ds ++ "/" ++ tail) with (String "1" ("0." ++ ds ++ "/" ++ tail)).
  rewrite doi_prefix_run; auto.
  - now apply doi_group_run.
  - intros n c y g Hc.
    assert (E : Re.strip "10." (String c y) = None).
    { unfold Re.strip. destruct (Ascii.eqb_spec "1" c); congruence. }
    now apply run_group_chars_fail.
Qed.

Lemma doi_match_sound s m :
  Re.re_match DOI.pattern s = Some m -> starts_with_identifier s.
Proof.
  intros H. apply re_match_sound in H as (w & after & -> & D).
  simpl in D.
  destruct D as (w1 & w2 & -> & Ha & w3 & w4 & -> & Hb & w5 & w6 & -> & Hc
                 & w7 & w8 & -> & -> & w9 & w10 & ->
                 & (w11 & ds & -> & (c & -> & Hc1) & Hd)
                 & w12 & w13 & -> & -> & w14 & tail & ->
                 & (c' & -> & Hc') & Ht).
  exists (w1 ++ w3 ++ w5), ("10." ++ String c ds ++ "/" ++ String c' tail), after.
  repeat split.
  - now rewrite !append_assoc.
  - exists w1, w3, w5. repeat split; auto.
    destruct Ha as [->|(x & y & -> & -> & u & v & -> & [->| ->] & ->)]; auto.
  - exists (String c ds), (String c' tail). simpl. rewrite Hc1, Hc', Hd, Ht.
    repeat split; auto; discriminate.
Qed.

Lemma doi_no_match s :
  ~ starts_with_identifier s -> Re.re_match DOI.pattern s = None.
Proof.
  intros H. destruct (Re.re_match DOI.pattern s) eqn:E; [|reflexivity].
  now apply doi_match_sound in E.
Qed.

(** C9. [DOI(s)] for a bare identifier [s], or one behind an optional
    [http://] or [https://], an optional [dx.] and an optional [doi.org/],
    succeeds with [self.doi] the bare identifier and [self.url] the string
    [https://doi.org/] followed by [self.doi]; for a string that does not
    start with such an identifier (behind such a prefix or not) it raises
    [ValueError]; in both cases no request is sent. *)
Theorem DOI_init_spec (transport : Request -> reply) :
  (forall pre ident, url_prefix pre -> identifier ident ->
     exec (DOI.__init__ (pre ++ ident)) transport
     = (Ok {| DOI.doi := ident; DOI.url := "https://doi.org/" ++ ident |}, []))
  /\ (forall s, ~ starts_with_identifier s ->
        exec (DOI.__init__ s) transport = (Raise ValueError, [])).
Proof.
  split.
  - intros pre ident Hpre Hid. unfold exec, DOI.__init__.
    now rewrite (doi_match_whole Hpre Hid).
  - intros s H. unfold exec, DOI.__init__.
    now rewrite (doi_no_match H).
Qed.

(** ** Runs of the repository client *)

Lemma get_run u n tok q transport sent :
  Repo.get (Repo.__init__ u n tok) q transport sent
  = (of_reply (transport (get_request u n tok q)),
     (sent ++ [get_request u n tok q])%list).
Proof. reflexivity. Qed.

Lemma while_true_ext {S A} (body1 body2 : S -> M (S + A)) transport :
  (forall s sent, body1 s transport sent = body2 s transport sent) ->
  forall bound s sent,
    while_true bound body1 s transport sent
    = while_true bound body2 s transport sent.
Proof.
  intros H bound; induction bound as [|b IH]; intros s sent; simpl.
  - reflexivity.
  - unfold bind. rewrite H.
    destruct (body2 s transport sent) as [[[s'|a]|e|] sent']; auto.
Qed.

Lemma pull_list_query state head base sort direction page :
  let query :=
    "pulls?state=" ++ state ++ "&sort=" ++ sort ++ "&direction=" ++ direction
    ++ "&per_page=100" in
  let query :=
    match head with
    | Some h => if nonempty h then query ++ "&head=" ++ h else query
    | None => query
    end in
  let query :=
    match base with
    | Some b => if nonempty b then query ++ "&base=" ++ b else query
    | None => query
    end in
  query ++ "&page=" ++ str_of_int page
  = page_query (PullList state head base sort direction) page.
Proof.
  unfold page_query, opt_param.
  destruct head as [h|], base as [b|];
    try destruct (nonempty h); try destruct (nonempty b);
    cbv zeta; repeat rewrite append_assoc; reflexivity.
Qed.

(** Each operation is the shared loop on its query and its test. *)
Lemma run_op_loop op bound u n tok transport sent :
  run_op op bound (Repo.__init__ u n tok) transport sent
  = while_true bound
      (page_body (Repo.__init__ u n tok) (page_query op) (op_stop op))
      ([], 1%Z) transport sent.
Proof.
  destruct op; try reflexivity.
  unfold run_op, Repo.pull_list. cbv zeta.
  apply while_true_ext. intros [acc page] sent'.
  unfold page_body. now rewrite <- pull_list_query.
Qed.

Lemma op_stop_stops op p acc :
  op_stop op (Z.of_nat (List.length p)) acc = stops op p acc.
Proof. unfold op_stop, stops. destruct (cap op); auto using orb_false_r. Qed.

Lemma extend_items acc v p transport sent :
  items v = Some p ->
  extend acc v transport sent = (Ok (acc ++ p)%list, sent).
Proof. destruct v; simpl; intros [= <-]; reflexivity. Qed.

Lemma len_items v p transport sent :
  items v = Some p ->
  len v transport sent = (Ok (Z.of_nat (List.length p)), sent).
Proof.
  destruct v; simpl; intros [= <-]; unfold ret, keys;
    rewrite ?length_map; repeat f_equal.
  induction s; simpl; auto.
Qed.

(** One turn of the loop on a page that arrives *)
Lemma page_body_run u n tok op transport acc page v p sent :
  transport (page_request u n tok op page) = Reply v ->
  items v = Some p ->
  page_body (Repo.__init__ u n tok) (page_query op) (op_stop op)
    (acc, Z.of_nat page) transport sent
  = (Ok (if stops op p (acc ++ p)
         then inr (acc ++ p)%list
         else inl ((acc ++ p)%list, Z.of_nat (S page))),
     (sent ++ [page_request u n tok op page])%list).
Proof.
  intros Hv Hp. unfold page_body, bind.
  rewrite get_run. fold (page_request u n tok op page). rewrite Hv.
  unfold of_reply. cbv beta iota.
  rewrite (extend_items _ _ _ _ Hp), (len_items _ _ _ Hp), op_stop_stops.
  destruct (stops op p (acc ++ p)); unfold ret; repeat f_equal. lia.
Qed.

(** One turn of the loop on a page whose request fails *)
Lemma page_body_fail u n tok op transport acc page e sent :
  transport (page_request u n tok op page) = Fail e ->
  page_body (Repo.__init__ u n tok) (page_query op) (op_stop op)
    (acc, Z.of_nat page) transport sent
  = (Raise e, (sent ++ [page_request u n tok op page])%list).
Proof.
  intros He. unfold page_body, bind.
  rewrite get_run. fold (page_request u n tok op page). now rewrite He.
Qed.

Lemma while_true_S {S A} b (body : S -> M (S + A)) s transport sent :
  while_true (Datatypes.S b) body s transport sent
  = match body s transport sent with
    | (Ok (inl s'), sent') => while_true b body s' transport sent'
    | (Ok (inr a), sent') => (Ok a, sent')
    | (Raise e, sent') => (Raise e, sent')
    | (Unfinished, sent') => (Unfinished, sent')
    end.
Proof.
  simpl. unfold bind.
  destruct (body s transport sent) as [[[s'|a]|e|] sent']; reflexivity.
Qed.

Lemma served_from_tail transport u n tok op start p pages :
  served_from transport u n tok op start (p :: pages) ->
  served_from transport u n tok op (S start) pages.
Proof.
  intros H i q Hq. destruct (H (S i) q Hq) as (v & Hv & Hi).
  exists v. split; auto. now rewrite <- Hv, Nat.add_succ_r.
Qed.

(** The loop from any state: it goes through the pages on which the test
    fails and returns at the first one on which it holds. *)
Lemma loop_returns transport u n tok op pages : forall last acc start sent bound,
  served_from transport u n tok op start (pages ++ [last]) ->
  (forall i p, nth_error pages i = Some p ->
     stops op p (acc ++ List.concat (firstn (S i) pages)) = false) ->
  stops op last (acc ++ List.concat (pages ++ [last])) = true ->
  (List.length pages < bound)%nat ->
  while_true bound
    (page_body (Repo.__init__ u n tok) (page_query op) (op_stop op))
    (acc, Z.of_nat start) transport sent
  = (Ok (acc ++ List.concat (pages ++ [last]))%list,
     (sent ++ map (page_request u n tok op)
                (seq start (S (List.length pages))))%list).
Proof.
  induction pages as [|p pages IH]; intros last acc start sent bound Hs Hgo Hstop Hb;
    (destruct bound as [|b]; [lia|]); rewrite while_true_S.
  - destruct (Hs O last eq_refl) as (v & Hv & Hi).
    rewrite Nat.add_0_r in Hv.
    rewrite (page_body_run _ _ _ _ _ _ _ _ Hv Hi).
    simpl in Hstop. rewrite app_nil_r in Hstop. rewrite Hstop.
    simpl. now rewrite app_nil_r.
  - destruct (Hs O p eq_refl) as (v & Hv & Hi).
    rewrite Nat.add_0_r in Hv.
    rewrite (page_body_run _ _ _ _ _ _ _ _ Hv Hi).
    pose proof (Hgo O p eq_refl) as H0. simpl in H0.
    rewrite app_nil_r in H0. rewrite H0.
    rewrite (IH last (acc ++ p)%list (S start)).
    + simpl. now rewrite <- !app_assoc.
    + exact (served_from_tail Hs).
    + intros i q Hq. rewrite <- app_assoc. exact (Hgo (S i) q Hq).
    + now rewrite <- app_assoc.
    + simpl in Hb. lia.
Qed.

(** The loop from any state, when the request that follows [pages] fails *)
Lemma loop_raises transport u n tok op pages : forall e acc start sent bound,
  served_from transport u n tok op start pages ->
  (forall i p, nth_error pages i = Some p ->
     stops op p (acc ++ List.concat (firstn (S i) pages)) = false) ->
  transport (page_request u n tok op (start + List.length pages)) = Fail e ->
  (List.length pages < bound)%nat ->
  while_true bound
    (page_body (Repo.__init__ u n tok) (page_query op) (op_stop op))
    (acc, Z.of_nat start) transport sent
  = (Raise e,
     (sent ++ map (page_request u n tok op)
                (seq start (S (List.length pages))))%list).
Proof.
  induction pages as [|p pages IH]; intros e acc start sent bound Hs Hgo He Hb;
    (destruct bound as [|b]; [lia|]); rewrite while_true_S.
  - simpl in He. rewrite Nat.add_0_r in He.
    now rewrite page_body_fail with (1 := He).
  - destruct (Hs O p eq_refl) as (v & Hv & Hi).
    rewrite Nat.add_0_r in Hv.
    rewrite (page_body_run _ _ _ _ _ _ _ _ Hv Hi).
    pose proof (Hgo O p eq_refl) as H0. simpl in H0.
    rewrite app_nil_r in H0. rewrite H0.
    rewrite (IH e (acc ++ p)%list (S start)).
    + simpl. now rewrite <- !app_assoc.
    + exact (served_from_tail Hs).
    + intros i q Hq. rewrite <- app_assoc. exact (Hgo (S i) q Hq).
    + simpl in He. now rewrite Nat.add_succ_r in He.
    + simpl in Hb. lia.
Qed.

(** ** The paginated list operations *)

Lemma exec_run_op transport u n tok op pages last bound :
  serves transport u n tok op (pages ++ [last]) ->
  goes_on op pages ->
  stops op last (List.concat (pages ++ [last])) = true ->
  (List.length pages < bound)%nat ->
  exec (run_op op bound (Repo.__init__ u n tok)) transport
  = (Ok (List.concat (pages ++ [last])),
     page_requests u n tok op (S (List.length pages))).
Proof.
  intros Hs Hgo Hstop Hb. unfold exec. rewrite run_op_loop.
  exact (@loop_returns transport u n tok op pages last [] 1%nat [] bound
           Hs Hgo Hstop Hb).
Qed.

Lemma uncapped_stops op page gathered :
  cap op = None ->
  stops op page gathered = (Z.of_nat (List.length page) <? 100)%Z.
Proof. intros H. unfold stops. rewrite H. apply orb_false_r. Qed.

Lemma uncapped_goes_on op pages :
  cap op = None ->
  Forall (fun p => (100 <= List.length p)%nat) pages ->
  goes_on op pages.
Proof.
  intros Hcap Hall i p Hp. rewrite uncapped_stops by assumption.
  apply nth_error_In in Hp. rewrite Forall_forall in Hall.
  apply Hall in Hp. apply Z.ltb_ge. lia.
Qed.

Lemma length_concat_full (pages : list (list pyval)) :
  Forall (fun p => List.length p = 100%nat) pages ->
  List.length (List.concat pages) = (100 * List.length pages)%nat.
Proof.
  induction 1 as [|p pages Hp _ IH]; simpl; [reflexivity|].
  rewrite length_app, Hp, IH. lia.
Qed.

(** Every query asks for pages of 100 items and names the page last. *)
Lemma page_query_shape op page :
  exists a b,
    page_query op page
    = a ++ "per_page=100" ++ b ++ "&page=" ++ str_of_int page.
Proof.
  destruct op as [ | |number|state head base sort direction|number max_count];
    simpl.
  - now exists "branches?", "".
  - now exists "labels?", "".
  - exists ("issues/" ++ str_of_int number ++ "/labels?"), "".
    now rewrite !append_assoc.
  - exists ("pulls?state=" ++ state ++ "&sort=" ++ sort ++ "&direction="
            ++ direction ++ "&"),
           (opt_param "&head=" head ++ opt_param "&base=" base).
    now rewrite !append_assoc.
  - exists ("issues/" ++ str_of_int number ++ "/comments?"), "".
    now rewrite !append_assoc.
Qed.

(** C1. For [branches], [labels], [issue_labels] and [pull_list]: when the
    pages 1, 2, ... arrive with at least 100 items each up to a first page
    with fewer than 100, the operation returns the items of all these pages
    and sends one request per page, for the pages 1, 2, ... in this order,
    each with [per_page=100]; it sends none after the short page.  In
    particular pages of 100, 100 and 42 items give 242 items for 3
    requests. *)
Theorem paginated_fetch_stops_at_short_page transport u n tok op :
  cap op = None ->
  (forall pages last bound,
     serves transport u n tok op (pages ++ [last]) ->
     Forall (fun p => (100 <= List.length p)%nat) pages ->
     (List.length last < 100)%nat ->
     (List.length pages < bound)%nat ->
     exec (run_op op bound (Repo.__init__ u n tok)) transport
     = (Ok (List.concat (pages ++ [last])),
        page_requests u n tok op (S (List.length pages))))
  /\ (forall p1 p2 p3 bound,
        serves transport u n tok op [p1; p2; p3] ->
        List.length p1 = 100%nat -> List.length p2 = 100%nat ->
        List.length p3 = 42%nat -> (2 < bound)%nat ->
        exists result sent,
          exec (run_op op bound (Repo.__init__ u n tok)) transport
          = (Ok result, sent)
          /\ List.length result = 242%nat /\ List.length sent = 3%nat)
  /\ (forall page, exists a b,
        page_query op page
        = a ++ "per_page=100" ++ b ++ "&page=" ++ str_of_int page).
Proof.
  intros Hcap.
  assert (G : forall pages last bound,
     serves transport u n tok op (pages ++ [last]) ->
     Forall (fun p => (100 <= List.length p)%nat) pages ->
     (List.length last < 100)%nat ->
     (List.length pages < bound)%nat ->
     exec (run_op op bound (Repo.__init__ u n tok)) transport
     = (Ok (List.concat (pages ++ [last])),
        page_requests u n tok op (S (List.length pages)))).
  { intros pages last bound Hs Hfull Hshort Hb.
    apply exec_run_op; auto using uncapped_goes_on.
    rewrite uncapped_stops by assumption. apply Z.ltb_lt. lia. }
  split; [exact G|]. split; [|apply page_query_shape].
  intros p1 p2 p3 bound Hs H1 H2 H3 Hb.
  eexists _, _. split.
  - apply (G [p1; p2] p3 bound); auto.
    repeat constructor; lia. lia.
  - simpl. rewrite !length_app, H1, H2, H3. split; reflexivity.
Qed.

(** C5. For the same four operations: when [n] pages of exactly 100 items
    are followed by an empty page, the operation sends [n + 1] requests and
    returns the [100 * n] items of the full pages. *)
Theorem paginated_fetch_extra_empty_page transport u n tok op pages bound :
  cap op = None ->
  serves transport u n tok op (pages ++ [[]]) ->
  Forall (fun p => List.length p = 100%nat) pages ->
  (List.length pages < bound)%nat ->
  exists result sent,
    exec (run_op op bound (Repo.__init__ u n tok)) transport = (Ok result, sent)
    /\ result = List.concat pages
    /\ List.length result = (100 * List.length pages)%nat
    /\ sent = page_requests u n tok op (List.length pages + 1)
    /\ List.length sent = (List.length pages + 1)%nat.
Proof.
  intros Hcap Hs Hfull Hb.
  assert (E : exec (run_op op bound (Repo.__init__ u n tok)) transport
              = (Ok (List.concat (pages ++ [[]])),
                 page_requests u n tok op (S (List.length pages)))).
  { apply exec_run_op; auto.
    apply uncapped_goes_on; auto.
    eapply Forall_impl; [|exact Hfull]. simpl; intros; lia. }
  rewrite concat_app in E; simpl in E; rewrite app_nil_r in E.
  rewrite <- Nat.add_1_r in E.
  eexists _, _. split; [exact E|]. repeat split.
  - now apply length_concat_full.
  - unfold page_requests. now rewrite length_map, length_seq.
Qed.

(** C6. For the five paginated operations and every sequence of pages that
    arrive, the last one being the first on which the test of the loop
    holds: the list returned is the concatenation of the items of the
    pages, in the order of the pages, each page in the order received. *)
Theorem paginated_fetch_concatenates transport u n tok op pages last bound :
  serves transport u n tok op (pages ++ [last]) ->
  goes_on op pages ->
  stops op last (List.concat (pages ++ [last])) = true ->
  (List.length pages < bound)%nat ->
  fst (exec (run_op op bound (Repo.__init__ u n tok)) transport)
  = Ok (List.concat (pages ++ [last])).
Proof.
  intros Hs Hgo Hstop Hb. now rewrite (exec_run_op _ Hs Hgo Hstop Hb).
Qed.

(** C7. For the five paginated operations: when the pages before some page
    arrive and the loop goes on after each of them, and the request for
    that page raises, the operation raises the same exception, returns no
    list, and sends no request after the one that failed. *)
Theorem paginated_fetch_propagates_failure transport u n tok op pages e bound :
  serves transport u n tok op pages ->
  goes_on op pages ->
  transport (page_request u n tok op (S (List.length pages))) = Fail e ->
  (List.length pages < bound)%nat ->
  exec (run_op op bound (Repo.__init__ u n tok)) transport
  = (Raise e, page_requests u n tok op (S (List.length pages))).
Proof.
  intros Hs Hgo He Hb. unfold exec. rewrite run_op_loop.
  exact (@loop_raises transport u n tok op pages e [] 1%nat [] bound
           Hs Hgo He Hb).
Qed.

Lemma pages_needed_spec max_count :
  let k := pages_needed max_count in
  (1 <= k)%nat
  /\ (max_count <= 100 * Z.of_nat k)%Z
  /\ (forall j, (1 <= j < k)%nat -> (100 * Z.of_nat j < max_count)%Z).
Proof.
  unfold pages_needed. cbv zeta.
  set (q := ((max_count + 99) / 100)%Z).
  assert (Hq : (100 * q <= max_count + 99 < 100 * q + 100)%Z).
  { unfold q. Z.div_mod_to_equations. lia. }
  repeat split; intros; lia.
Qed.

Lemma firstn_map_seq {A} (f : nat -> A) i k :
  (i <= k)%nat -> firstn i (map f (seq 0 k)) = map f (seq 0 i).
Proof.
  intros H. replace k with (i + (k - i))%nat by lia.
  rewrite seq_app, map_app, firstn_app, length_map, length_seq, Nat.sub_diag.
  simpl. rewrite app_nil_r. apply firstn_all2.
  now rewrite length_map, length_seq.
Qed.

Lemma length_concat_map_full (pages : nat -> list pyval) k :
  (forall i, List.length (pages i) = 100%nat) ->
  List.length (List.concat (map pages (seq 0 k))) = (100 * k)%nat.
Proof.
  intros H. rewrite length_concat_full.
  - now rewrite length_map, length_seq.
  - apply Forall_forall. intros p Hp. apply in_map_iff in Hp as (i & <- & _). auto.
Qed.

Lemma nth_error_map_seq {A} (f : nat -> A) k i p :
  nth_error (map f (seq 0 k)) i = Some p -> (i < k)%nat /\ p = f i.
Proof.
  intros H.
  assert (Hi : (i < k)%nat).
  { rewrite <- (length_seq k 0), <- (length_map f). apply nth_error_Some. congruence. }
  split; [exact Hi|].
  rewrite nth_error_map in H.
  destruct (nth_error (seq 0 k) i) as [j|] eqn:E; [|discriminate].
  apply (nth_error_nth _ _ O) in E. rewrite seq_nth in E by exact Hi.
  simpl in H, E. congruence.
Qed.

(** C4. [issue_comments] on pages of exactly 100 items each: it returns
    after the first page with which it holds at least [max_count] items,
    with the items of the pages up to that one, so with at least
    [max_count] items; for [max_count = 150] it sends 2 requests and returns
    200 items. *)
Theorem issue_comments_stops_at_cap transport u n tok number max_count
    (pages : nat -> list pyval) bound :
  (forall i, exists v,
      transport (page_request u n tok (IssueComments number max_count) (S i))
      = Reply v
      /\ items v = Some (pages i) /\ List.length (pages i) = 100%nat) ->
  let k := pages_needed max_count in
  (k <= bound)%nat ->
  exists result sent,
    exec (Repo.issue_comments bound (Repo.__init__ u n tok) number max_count)
      transport
    = (Ok result, sent)
    /\ result = List.concat (map pages (seq 0 k))
    /\ sent = page_requests u n tok (IssueComments number max_count) k
    /\ List.length sent = k
    /\ (max_count <= Z.of_nat (List.length result))%Z
    /\ (forall j, (1 <= j < k)%nat ->
          (Z.of_nat (List.length (List.concat (map pages (seq 0 j))))
           < max_count)%Z)
    /\ (max_count = 150%Z ->
          List.length sent = 2%nat /\ List.length result = 200%nat).
Proof.
  intros H k Hb.
  destruct (pages_needed_spec max_count) as (Hk1 & Hk2 & Hk3).
  fold k in Hk1, Hk2, Hk3.
  assert (Hlen : forall i, List.length (pages i) = 100%nat).
  { intros i. destruct (H i) as (v & _ & _ & Hl). exact Hl. }
  set (op := IssueComments number max_count).
  destruct k as [|m] eqn:Ek; [lia|].
  assert (E : exec (run_op op bound (Repo.__init__ u n tok)) transport
              = (Ok (List.concat (map pages (seq 0 m) ++ [pages m])),
                 page_requests u n tok op
                   (S (List.length (map pages (seq 0 m)))))).
  { apply exec_run_op.
    - intros i p Hp.
      change (map pages (seq 0 m) ++ [pages m])%list
        with (map pages (seq 0 m) ++ map pages [m])%list in Hp.
      rewrite <- map_app, <- seq_S in Hp.
      apply nth_error_map_seq in Hp as [_ ->].
      destruct (H i) as (v & Hv & Hi & _). eauto.
    - intros i p Hp. apply nth_error_map_seq in Hp as [Hi ->].
      rewrite firstn_map_seq by lia.
      unfold stops. simpl cap.
      rewrite length_concat_map_full, Hlen by exact Hlen.
      apply orb_false_iff. split; [reflexivity|].
      rewrite Z.geb_leb. apply Z.leb_gt.
      specialize (Hk3 (S i)). lia.
    - change (map pages (seq 0 m) ++ [pages m])%list
        with (map pages (seq 0 m) ++ map pages [m])%list.
      rewrite <- map_app, <- seq_S.
      unfold stops. simpl cap.
      rewrite length_concat_map_full by exact Hlen.
      apply orb_true_iff. right. apply Z.geb_le. lia.
    - rewrite length_map, length_seq. lia. }
  change (map pages (seq 0 m) ++ [pages m])%list
    with (map pages (seq 0 m) ++ map pages [m])%list in E.
  rewrite <- map_app, <- seq_S, length_map, length_seq in E.
  eexists _, _. split; [exact E|].
  assert (Hsent : List.length (page_requests u n tok op (S m)) = S m).
  { unfold page_requests. now rewrite length_map, length_seq. }
  split; [reflexivity|]. split; [reflexivity|]. split; [exact Hsent|].
  split; [|split].
  - rewrite length_concat_map_full by exact Hlen. lia.
  - intros j Hj. rewrite length_concat_map_full by exact Hlen.
    specialize (Hk3 j). lia.
  - intros ->. rewrite Hsent, length_concat_map_full by exact Hlen.
    unfold k in Ek. vm_compute in Ek. injection Ek as <-. split; reflexivity.
Qed.

(** ** Credentials *)

Lemma dict_get_set {V} (d : dict V) k v k' :
  dict_get (dict_set d k v) k'
  = if String.eqb k' k then Some v else dict_get d k'.
Proof.
  induction d as [|[k0 v0] d IH]; simpl.
  - reflexivity.
  - destruct (String.eqb_spec k k0) as [->|Hk]; simpl.
    + now destruct (String.eqb k' k0).
    + rewrite IH. destruct (String.eqb_spec k' k0) as [->|Hk']; auto.
      destruct (String.eqb_spec k0 k); congruence.
Qed.

Lemma dict_get_or {V} (d2 : dict V) : forall d1 k,
  dict_mem k d2 = false -> dict_get (dict_or d1 d2) k = dict_get d1 k.
Proof.
  unfold dict_or, dict_mem.
  induction d2 as [|[k0 v0] d2 IH]; intros d1 k H; simpl in *.
  - reflexivity.
  - destruct (String.eqb k k0) eqn:E; [discriminate|].
    rewrite IH by exact H. now rewrite dict_get_set, E.
Qed.

Lemma init_headers token :
  dict_get (GitHub._headers (GitHub.__init__ token)) "Authorization"
  = bearer token.
Proof. destruct token as [s|]; simpl; [destruct (nonempty s)|]; reflexivity. Qed.

Lemma merged_headers_authorization token extra :
  no_authorization extra ->
  dict_get (GitHub.merged_headers (GitHub.__init__ token) extra) "Authorization"
  = bearer token.
Proof.
  intros H. unfold GitHub.merged_headers.
  destruct extra as [[|kv extra]|]; try apply init_headers.
  cbv beta iota. rewrite (@dict_get_or _ (kv :: extra)) by exact H. apply init_headers.
Qed.

Lemma bind_ret {A B} (a : A) (f : A -> M B) : bind (ret a) f = f a.
Proof. reflexivity. Qed.

Lemma endpoint_api token :
  GitHub.endpoint (GitHub.__init__ token) "api"
  = ret (Url "https://api.github.com").
Proof. reflexivity. Qed.

Lemma graphql_mutation_sent token name input_name input payload extra transport :
  exists r,
    snd (exec (GitHub.graphql_mutation (GitHub.__init__ token) name input_name
                 input payload extra) transport) = [r]
    /\ req_verb r = POST
    /\ req_url r = Div (Url "https://api.github.com") "graphql"
    /\ req_headers r = GitHub.merged_headers (GitHub.__init__ token) extra
    /\ fst (exec (GitHub.graphql_mutation (GitHub.__init__ token) name
                    input_name input payload extra) transport)
       = match transport r with
         | Fail e => Raise e
         | Reply (PDict d) =>
             if dict_mem "errors" d then Ok (PDict d)
             else match dict_get d "data" with
                  | Some v => Ok v
                  | None => Raise (KeyError "data")
                  end
         | Reply (PList l) =>
             if existsb (fun x => match x with
                                  | PStr s => String.eqb s "errors"
                                  | _ => false
                                  end) l
             then Ok (PList l) else Raise TypeError
         | Reply (PStr s) =>
             if occurs "errors" s then Ok (PStr s) else Raise TypeError
         | Reply _ => Raise TypeError
         end.
Proof.
  eexists. unfold exec, GitHub.graphql_mutation.
  rewrite endpoint_api, bind_ret. unfold bind, request.
  split; [|split; [|split; [|split]]].
  - destruct (transport _) as [[ |b|z|f|s|l|d]|e]; simpl; try reflexivity.
    + destruct (occurs "errors" s); reflexivity.
    + destruct (existsb _ l); reflexivity.
    + destruct (dict_mem "errors" d); simpl; [reflexivity|].
      destruct (dict_get d "data"); reflexivity.
  - reflexivity.
  - reflexivity.
  - reflexivity.
  - destruct (transport _) as [[ |b|z|f|s|l|d]|e]; simpl; try reflexivity.
    + destruct (occurs "errors" s); reflexivity.
    + destruct (existsb _ l); reflexivity.
    + destruct (dict_mem "errors" d); simpl; [reflexivity|].
      destruct (dict_get d "data"); reflexivity.
Qed.

(** C10. [authenticated] is [True] exactly when the token is not [None];
    the [Authorization] header of the client, and of the request that
    [rest_query], [graphql_query] and [graphql_mutation] send (the extra
    headers of the call naming none), is [Bearer] and the token exactly
    when the token is a non-empty string, and is absent otherwise; so with
    the empty string as token [authenticated] is [True] and no
    [Authorization] header is sent. *)
Theorem authenticated_and_authorization (token : option string) :
  (GitHub.authenticated (GitHub.__init__ token) = true <-> token <> None)
  /\ (bearer token <> None <-> GitHub.token_truthy token = true)
  /\ dict_get (GitHub._headers (GitHub.__init__ token)) "Authorization"
     = bearer token
  /\ (forall transport extra query verb data json rt endpoint,
        no_authorization extra ->
        endpoint = "api" \/ endpoint = "upload" ->
        exists r,
          exec (GitHub.rest_query (GitHub.__init__ token) query verb data json
                  rt extra endpoint) transport
          = (of_reply (transport r), [r])
          /\ dict_get (req_headers r) "Authorization" = bearer token)
  /\ (forall transport extra query mutation rt,
        no_authorization extra ->
        exists r,
          exec (GitHub.graphql_query (GitHub.__init__ token) query mutation
                  extra rt) transport
          = (of_reply (transport r), [r])
          /\ dict_get (req_headers r) "Authorization" = bearer token)
  /\ (forall transport extra name input_name input payload,
        no_authorization extra ->
        exists r,
          snd (exec (GitHub.graphql_mutation (GitHub.__init__ token) name
                       input_name input payload extra) transport) = [r]
          /\ dict_get (req_headers r) "Authorization" = bearer token)
  /\ (token = Some "" ->
        GitHub.authenticated (GitHub.__init__ token) = true
        /\ bearer token = None).
Proof.
  split; [|split; [|split; [|split; [|split; [|split]]]]].
  - destruct token; unfold GitHub.authenticated, GitHub.__init__; simpl;
      intuition congruence.
  - destruct token as [s|]; simpl; [destruct (nonempty s)|];
      intuition congruence.
  - apply init_headers.
  - intros transport extra query verb data json rt endpoint Hx [-> | ->];
      (eexists; split; [reflexivity|]);
      now apply merged_headers_authorization.
  - intros transport extra query mutation rt Hx.
    eexists; split; [reflexivity|].
    now apply merged_headers_authorization.
  - intros transport extra name input_name input payload Hx.
    destruct (graphql_mutation_sent token name input_name input payload extra
                transport) as (r & Hs & _ & _ & Hh & _).
    exists r. split; [exact Hs|].
    rewrite Hh. now apply merged_headers_authorization.
  - intros ->. split; reflexivity.
Qed.

(** ** GraphQL mutations *)

(** C2, as the code has it.  [graphql_mutation] sends one [POST] request to
    the GraphQL endpoint; when the response is a dict with an ["errors"]
    key it returns the response unchanged and raises nothing; when the
    response is a dict without that key it returns [response["data"]],
    which the callers then index by the name of the mutation. *)
Theorem graphql_mutation_returns_data token name input_name input payload extra
    transport :
  exists r,
    snd (exec (GitHub.graphql_mutation (GitHub.__init__ token) name input_name
                 input payload extra) transport) = [r]
    /\ req_verb r = POST
    /\ req_url r = Div (Url "https://api.github.com") "graphql"
    /\ forall d, transport r = Reply (PDict d) ->
         (dict_mem "errors" d = true ->
            fst (exec (GitHub.graphql_mutation (GitHub.__init__ token) name
                         input_name input payload extra) transport)
            = Ok (PDict d))
         /\ (dict_mem "errors" d = false ->
               forall v, dict_get d "data" = Some v ->
                 fst (exec (GitHub.graphql_mutation (GitHub.__init__ token)
                              name input_name input payload extra) transport)
                 = Ok v).
Proof.
  destruct (graphql_mutation_sent token name input_name input payload extra
              transport) as (r & Hs & Hv & Hu & _ & Hr).
  exists r. repeat (split; [assumption|]).
  intros d Hd. rewrite Hr, Hd. split.
  - now intros ->.
  - intros -> v ->. reflexivity.
Qed.

(** C2 as stated fails: on a response without ["errors"] the result is
    [response["data"]], not [response["data"][mutationName]]. *)
Lemma graphql_mutation_not_unwrapped :
  exists v,
    unwrapped
      (PDict [("data", PDict [("createBranchProtectionRule",
         PDict [("branchProtectionRule", PDict [("id", PStr "BPR_1")])])])])
      "createBranchProtectionRule" = Some v
    /\ fst (exec (GitHub.graphql_mutation (GitHub.__init__ None)
                    "createBranchProtectionRule"
                    "CreateBranchProtectionRuleInput"
                    [("pattern", PStr "main")] "branchProtectionRule {id}" None)
              (fun _ => Reply
                 (PDict [("data", PDict [("createBranchProtectionRule",
                    PDict [("branchProtectionRule",
                            PDict [("id", PStr "BPR_1")])])])])))
       <> Ok v.
Proof.
  eexists. split; [reflexivity|]. vm_compute. discriminate.
Qed.

(** ** Payloads *)

(** C8. [issue_update] and [pull_merge] send one request whose JSON payload
    holds exactly the fields whose argument is not [None], in the order of
    the parameters, [title] being passed through [str]; a field whose
    argument is [None] is absent; [pull_merge] sends no payload at all when
    every argument is [None]. *)
Theorem optional_fields_only_when_set u n tok transport :
  (forall number title body state state_reason,
     let args := issue_update_args title body state state_reason in
     exists r,
       exec (Repo.issue_update (Repo.__init__ u n tok) number title body state
               state_reason) transport
       = (of_reply (transport r), [r])
       /\ req_verb r = PATCH
       /\ req_json r = Some (PDict (set_fields args))
       /\ forall k, payload_field r k = passed args k)
  /\ (forall number commit_title commit_message sha merge_method,
        let args := pull_merge_args commit_title commit_message sha merge_method in
        exists r,
          exec (Repo.pull_merge (Repo.__init__ u n tok) number commit_title
                  commit_message sha merge_method) transport
          = (of_reply (transport r), [r])
          /\ req_verb r = PUT
          /\ req_json r = match set_fields args with
                          | [] => None
                          | _ :: _ => Some (PDict (set_fields args))
                          end
          /\ forall k, payload_field r k = passed args k).
Proof.
  split.
  - intros number title body state state_reason args.
    eexists. split; [reflexivity|]. split; [reflexivity|]. subst args.
    split.
    + destruct title as [[s|z]|], body, state, state_reason; reflexivity.
    + intros k. unfold payload_field, passed.
      destruct title as [[s|z]|], body, state, state_reason; simpl;
        repeat match goal with
        | |- context [String.eqb k ?x] =>
            destruct (String.eqb_spec k x); [subst k; simpl|]
        end; reflexivity.
  - intros number commit_title commit_message sha merge_method args.
    eexists. split; [reflexivity|]. split; [reflexivity|]. subst args.
    split.
    + destruct commit_title, commit_message, sha, merge_method; reflexivity.
    + intros k. unfold payload_field, passed.
      destruct commit_title, commit_message, sha, merge_method; simpl;
        repeat match goal with
        | |- context [String.eqb k ?x] =>
            destruct (String.eqb_spec k x); [subst k; simpl|]
        end; reflexivity.
Qed.

(** ** Validation *)

(** A loop whose body either passes or raises without sending, and raises
    on a bad element, raises on a list that holds a bad element. *)
Lemma for_each_raises {A} (body : A -> M unit) (bad : A -> Prop)
    (transport : Request -> reply) (l : list A) :
  (forall x sent,
     body x transport sent = (Ok tt, sent)
     \/ validation_error (fst (body x transport sent))
        /\ snd (body x transport sent) = sent) ->
  (forall x sent, bad x -> body x transport sent <> (Ok tt, sent)) ->
  Exists bad l ->
  forall sent,
    validation_error (fst (for_each l body transport sent))
    /\ snd (for_each l body transport sent) = sent.
Proof.
  intros Hbody Hbad Hex sent.
  induction Hex as [x l Hx|x l _ IH]; simpl; unfold bind.
  - destruct (Hbody x sent) as [E|[Hv Hs]]; [now apply Hbad in E|].
    destruct (body x transport sent) as [[[]|e|] sent']; simpl in *; subst;
      [destruct Hv; discriminate | split; auto | destruct Hv; discriminate].
  - destruct (Hbody x sent) as [E|[Hv Hs]].
    + rewrite E. exact IH.
    + destruct (body x transport sent) as [[[]|e|] sent']; simpl in *; subst;
        [destruct Hv; discriminate | split; auto | destruct Hv; discriminate].
Qed.

Lemma validation_error_raise {A B} (e : exn) :
  validation_error (@Raise A e) -> validation_error (@Raise B e).
Proof. intros [[= ->]|[= ->]]; [left|right]; reflexivity. Qed.

(** C3. [repo_topics_replace] on a list that holds a topic that is not a
    string, is longer than 50 characters or does not match the topic
    pattern, and [label_create] with a non-empty colour that does not match
    the colour pattern or a description longer than 100 characters, raise
    [TypeError] or [ValueError] and send no request. *)
Theorem validation_before_request u n tok transport :
  (forall topics, Exists bad_topic topics ->
     let run := exec (Repo.repo_topics_replace (Repo.__init__ u n tok) topics)
                  transport in
     validation_error (fst run) /\ snd run = [])
  /\ (forall name color description,
        bad_color color \/ bad_description description ->
        let run := exec (Repo.label_create (Repo.__init__ u n tok) name color
                           description) transport in
        validation_error (fst run) /\ snd run = []).
Proof.
  split.
  - intros topics Hex run. subst run.
    unfold exec, Repo.repo_topics_replace, bind.
    match goal with
    | |- context [for_each topics ?b transport []] =>
        destruct (@for_each_raises _ b bad_topic transport topics) with (sent := @nil Request)
          as [Hv Hs]
    end; auto.
    + intros x sent. destruct x as [ |b|z|f|s|l|d];
        try (right; split; [left|]; reflexivity).
      destruct (50 <? String.length s)%nat;
        [right; split; [right|]; reflexivity|].
      destruct (Re.re_match Repo.topic_pattern s);
        [left|right; split; [right|]]; reflexivity.
    + intros x sent Hx. destruct x as [ |b|z|f|s|l|d]; try discriminate.
      destruct Hx as [Hx|Hx].
      * apply Nat.ltb_lt in Hx. rewrite Hx. discriminate.
      * rewrite Hx. destruct (50 <? String.length s)%nat; discriminate.
    + destruct (for_each topics _ transport []) as [[[]|e|] sent'];
        simpl in *; subst;
        [destruct Hv; discriminate
        | split; [exact (validation_error_raise Hv)|reflexivity]
        | destruct Hv; discriminate].
  - intros name color description H run. subst run.
    unfold exec, Repo.label_create, Repo._validate_label_data, bind.
    destruct name as [ |b|z|f|s|l|d]; try (split; [left|]; reflexivity).
    destruct color as [ |b|z|f|c|l|d]; try (split; [left|]; reflexivity).
    destruct description as [ |b|z|f|t|l|d]; try (split; [left|]; reflexivity).
    cbn -[Re.re_match String.length Z.ltb Z.of_nat].
    destruct H as [(c' & [= <-] & Hne & Hno)|(t' & [= <-] & Hlen)].
    + destruct (String.eqb_spec c ""); [contradiction|].
      cbn -[Re.re_match String.length Z.ltb Z.of_nat]. rewrite Hno.
      split; [right|]; reflexivity.
    + assert (E : (100 <? Z.of_nat (String.length t))%Z = true)
        by (apply Z.ltb_lt; lia).
      destruct (String.eqb c ""); cbn -[Re.re_match String.length Z.ltb Z.of_nat].
      * rewrite E. split; [right|]; reflexivity.
      * destruct (Re.re_match Repo.color_pattern c);
          cbn -[Re.re_match String.length Z.ltb Z.of_nat];
          [rewrite E|]; split; try right; reflexivity.
Qed.

(** ** The statements at concrete inputs *)

Example topic_pattern_examples :
  Re.re_match Repo.topic_pattern "python-3" <> None
  /\ Re.re_match Repo.topic_pattern "Python" = None
  /\ Re.re_match Repo.topic_pattern "-python" = None
  /\ Re.re_match Repo.topic_pattern "" = None
  /\ Re.re_match Repo.topic_pattern (String "a" (String "010" "")) <> None.
Proof. repeat split; try reflexivity; discriminate. Qed.

Example color_pattern_examples :
  Re.re_match Repo.color_pattern "00ffAA" <> None
  /\ Re.re_match Repo.color_pattern "#00ffAA" = None
  /\ Re.re_match Repo.color_pattern "00ffA" = None
  /\ Re.re_match Repo.color_pattern "00ffAAA" = None.
Proof. repeat split; try reflexivity; discriminate. Qed.

Example doi_examples :
  option_map Re.group (Re.re_match DOI.pattern "10.3762/bjoc.17.8")
  = Some "10.3762/bjoc.17.8"
  /\ option_map Re.group
       (Re.re_match DOI.pattern "https://doi.org/10.1039/d2sc03130b")
     = Some "10.1039/d2sc03130b"
  /\ option_map Re.group
       (Re.re_match DOI.pattern "dx.doi.org/10.1093/nar/gkac267")
     = Some "10.1093/nar/gkac267"
  /\ option_map Re.group
       (Re.re_match DOI.pattern "10.1093/nar/gkac267 (2022)")
     = Some "10.1093/nar/gkac267"
  /\ Re.re_match DOI.pattern "doi:10.1093/nar/gkac267" = None.
Proof. repeat split. Qed.

(** The caller of [graphql_mutation] indexes its result by the name of the
    mutation. *)
Example branch_protection_rule_create_example :
  fst (exec (Repo.branch_protection_rule_create
               (Repo.__init__ "octocat" "hello" (Some "token"))
               [("pattern", PStr "main"); ("allow_deletions", PNone);
                ("enforce_admins", PBool true)])
         github_mock)
  = Ok (PStr "BPR_1").
Proof. reflexivity. Qed.

(** [issue_comments] does make the extra request of C5 when the cap is not
    reached, and does not when it is. *)
Example issue_comments_extra_request :
  (let run := exec (Repo.issue_comments 5 (Repo.__init__ "octocat" "hello" None)
                      7 1000)
                (scripted "octocat" "hello" (IssueComments 7 1000)
                   [Reply (PList (page_of 100)); Reply (PList [])]) in
   List.length (snd run) = 2%nat)
  /\ (let run := exec (Repo.issue_comments 5 (Repo.__init__ "octocat" "hello" None)
                         7 100)
                   (scripted "octocat" "hello" (IssueComments 7 100)
                      [Reply (PList (page_of 100)); Reply (PList [])]) in
      List.length (snd run) = 1%nat).
Proof. split; vm_compute; reflexivity. Qed.

Lemma paginated_fetch_stops_at_short_page_witness :
  exec (Repo.branches 3 (Repo.__init__ "octocat" "hello" None))
    (scripted "octocat" "hello" Branches
       [Reply (PList (page_of 100)); Reply (PList (page_of 100));
        Reply (PList (page_of 42))])
  = (Ok (page_of 100 ++ page_of 100 ++ page_of 42 ++ [])%list,
     page_requests "octocat" "hello" None Branches 3).
Proof.
  apply (proj1 (@paginated_fetch_stops_at_short_page
                  (scripted "octocat" "hello" Branches
                     [Reply (PList (page_of 100)); Reply (PList (page_of 100));
                      Reply (PList (page_of 42))])
                  "octocat" "hello" None Branches eq_refl)
           [page_of 100; page_of 100] (page_of 42) 3%nat).
  - intros i p Hp. destruct i as [|[|[|i]]]; simpl in Hp;
      try (destruct i; discriminate); injection Hp as <-;
      eexists; split; reflexivity.
  - repeat constructor; vm_compute; lia.
  - vm_compute; lia.
  - simpl; lia.
Defined.

Lemma graphql_mutation_returns_data_witness :
  fst (exec (GitHub.graphql_mutation (GitHub.__init__ (Some "token"))
               "createBranchProtectionRule" "CreateBranchProtectionRuleInput"
               [("pattern", PStr "main")] "branchProtectionRule {id}" None)
         (constant (PDict [("errors", PList [PStr "Forbidden"])])))
  = Ok (PDict [("errors", PList [PStr "Forbidden"])]).
Proof.
  destruct (graphql_mutation_returns_data (Some "token")
              "createBranchProtectionRule" "CreateBranchProtectionRuleInput"
              [("pattern", PStr "main")] "branchProtectionRule {id}" None
              (constant (PDict [("errors", PList [PStr "Forbidden"])])))
    as (r & _ & _ & _ & H).
  exact (proj1 (H [("errors", PList [PStr "Forbidden"])] eq_refl) eq_refl).
Defined.

Lemma validation_before_request_witness :
  snd (exec (Repo.repo_topics_replace (Repo.__init__ "octocat" "hello" None)
               [PStr "python"; PStr "Machine_Learning"])
         (constant PNone)) = []
  /\ snd (exec (Repo.label_create (Repo.__init__ "octocat" "hello" None)
                  (PStr "bug") (PStr "#d73a4a") (PStr ""))
            (constant PNone)) = [].
Proof.
  destruct (validation_before_request "octocat" "hello" None (constant PNone))
    as [Htopics Hlabel].
  split.
  - apply (Htopics [PStr "python"; PStr "Machine_Learning"]).
    right. left. right. reflexivity.
  - apply (Hlabel (PStr "bug") (PStr "#d73a4a") (PStr "")).
    left. exists "#d73a4a". repeat split. discriminate.
Defined.

Lemma issue_comments_stops_at_cap_witness :
  exists result sent,
    exec (Repo.issue_comments 2 (Repo.__init__ "octocat" "hello" None) 7 150)
      (constant (PList (page_of 100)))
    = (Ok result, sent)
    /\ List.length sent = 2%nat /\ List.length result = 200%nat.
Proof.
  destruct (@issue_comments_stops_at_cap (constant (PList (page_of 100)))
              "octocat" "hello" None 7%Z 150%Z (fun _ => page_of 100) 2%nat)
    as (result & sent & E & _ & _ & _ & _ & _ & H).
  - intros i. exists (PList (page_of 100)). repeat split.
  - vm_compute. lia.
  - exists result, sent. split; [exact E|]. apply H. reflexivity.
Defined.

Lemma paginated_fetch_extra_empty_page_witness :
  exists result sent,
    exec (Repo.labels 2 (Repo.__init__ "octocat" "hello" None))
      (scripted "octocat" "hello" Labels
         [Reply (PList (page_of 100)); Reply (PList [])])
    = (Ok result, sent)
    /\ List.length result = 100%nat /\ List.length sent = 2%nat.
Proof.
  destruct (@paginated_fetch_extra_empty_page
              (scripted "octocat" "hello" Labels
                 [Reply (PList (page_of 100)); Reply (PList [])])
              "octocat" "hello" None Labels [page_of 100] 2%nat)
    as (result & sent & E & _ & Hr & _ & Hs).
  - reflexivity.
  - intros i p Hp. destruct i as [|[|i]]; simpl in Hp;
      try (destruct i; discriminate); injection Hp as <-;
      eexists; split; reflexivity.
  - repeat constructor.
  - simpl; lia.
  - exists result, sent. split; [exact E|]. split; assumption.
Defined.

Lemma paginated_fetch_concatenates_witness :
  fst (exec (Repo.issue_comments 2 (Repo.__init__ "octocat" "hello" None) 7 150)
         (scripted "octocat" "hello" (IssueComments 7 150)
            [Reply (PList (page_of 100)); Reply (PList (page_of 100))]))
  = Ok (page_of 100 ++ page_of 100 ++ [])%list.
Proof.
  apply (@paginated_fetch_concatenates
           (scripted "octocat" "hello" (IssueComments 7 150)
              [Reply (PList (page_of 100)); Reply (PList (page_of 100))])
           "octocat" "hello" None (IssueComments 7 150)
           [page_of 100] (page_of 100) 2%nat).
  - intros i p Hp. destruct i as [|[|i]]; simpl in Hp;
      try (destruct i; discriminate); injection Hp as <-;
      eexists; split; reflexivity.
  - intros i p Hp. destruct i as [|i]; simpl in Hp;
      try (destruct i; discriminate); injection Hp as <-. reflexivity.
  - reflexivity.
  - simpl; lia.
Defined.

Lemma paginated_fetch_propagates_failure_witness :
  exec (Repo.issue_labels 2 (Repo.__init__ "octocat" "hello" None) 7)
    (scripted "octocat" "hello" (IssueLabels 7)
       [Reply (PList (page_of 100)); Fail (HTTPError 502 "Bad Gateway")])
  = (Raise (HTTPError 502 "Bad Gateway"),
     page_requests "octocat" "hello" None (IssueLabels 7) 2).
Proof.
  apply (@paginated_fetch_propagates_failure
           (scripted "octocat" "hello" (IssueLabels 7)
              [Reply (PList (page_of 100)); Fail (HTTPError 502 "Bad Gateway")])
           "octocat" "hello" None (IssueLabels 7) [page_of 100]
           (HTTPError 502 "Bad Gateway") 2%nat).
  - intros i p Hp. destruct i as [|i]; simpl in Hp;
      try (destruct i; discriminate); injection Hp as <-;
      eexists; split; reflexivity.
  - intros i p Hp. destruct i as [|i]; simpl in Hp;
      try (destruct i; discriminate); injection Hp as <-. reflexivity.
  - reflexivity.
  - simpl; lia.
Defined.

Lemma DOI_init_spec_witness :
  exec (DOI.__init__ "https://doi.org/10.1039/d2sc03130b") (constant PNone)
  = (Ok {| DOI.doi := "10.1039/d2sc03130b";
           DOI.url := "https://doi.org/10.1039/d2sc03130b" |}, [])
  /\ exec (DOI.__init__ "doi:10.1039/d2sc03130b") (constant PNone)
     = (Raise ValueError, []).
Proof.
  destruct (DOI_init_spec (constant PNone)) as [Hok Hbad].
  split.
  - apply (Hok "https://doi.org/" "10.1039/d2sc03130b").
    + exists "https://", "", "doi.org/". repeat split; auto.
    + exists "1039", "d2sc03130b". repeat split; discriminate.
  - apply Hbad.
    intros (pre & ident & rest & E & (a & b & c & -> & Ha & Hb & Hc)
            & (ds & tail & -> & _)).
    destruct Ha as [->|[->| ->]], Hb as [->| ->], Hc as [->| ->];
      discriminate.
Defined.

Lemma authenticated_and_authorization_witness :
  GitHub.authenticated (GitHub.__init__ (Some "")) = true
  /\ bearer (Some "") = None
  /\ exists r,
       exec (GitHub.rest_query (GitHub.__init__ (Some "")) "user" GET None None
               RJson None "api") (constant PNone)
       = (Ok PNone, [r])
       /\ dict_get (req_headers r) "Authorization" = None.
Proof.
  destruct (authenticated_and_authorization (Some ""))
    as (_ & _ & _ & Hrest & _ & _ & Hempty).
  destruct (Hempty eq_refl) as [Ha Hb].
  split; [exact Ha|]. split; [exact Hb|].
  destruct (Hrest (constant PNone) None "user" GET None None RJson "api" I
              (or_introl eq_refl)) as (r & E & Hh).
  exists r. split; [exact E|exact Hh].
Defined.

(** * Further properties of the code *)

(** ** The paginated loops on other responses *)

(** One turn of the loop on a response that cannot be iterated *)
Lemma page_body_not_iterable u n tok op transport acc page v sent :
  transport (page_request u n tok op page) = Reply v ->
  items v = None ->
  page_body (Repo.__init__ u n tok) (page_query op) (op_stop op)
    (acc, Z.of_nat page) transport sent
  = (Raise TypeError, (sent ++ [page_request u n tok op page])%list).
Proof.
  intros Hv Hi. unfold page_body, bind.
  rewrite get_run. fold (page_request u n tok op page). rewrite Hv.
  destruct v; try discriminate; reflexivity.
Qed.

(** X1. A page that is a JSON object instead of an array is taken as the
    list of its keys: with fewer than 100 keys, an operation without cap
    returns these keys after one request and raises nothing.  A page that
    is [null], a boolean or a number makes any of the five operations raise
    [TypeError] after that one request. *)
Theorem paginated_fetch_on_other_json transport u n tok op bound :
  (0 < bound)%nat ->
  (forall d, cap op = None ->
     transport (page_request u n tok op 1) = Reply (PDict d) ->
     (List.length d < 100)%nat ->
     exec (run_op op bound (Repo.__init__ u n tok)) transport
     = (Ok (map PStr (keys d)), page_requests u n tok op 1))
  /\ (forall v,
        transport (page_request u n tok op 1) = Reply v ->
        items v = None ->
        exec (run_op op bound (Repo.__init__ u n tok)) transport
        = (Raise TypeError, page_requests u n tok op 1)).
Proof.
  intros Hb. split.
  - intros d Hcap Hv Hd.
    rewrite (@exec_run_op transport u n tok op [] (map PStr (keys d)) bound).
    + simpl. now rewrite app_nil_r.
    + intros [|i] p Hp; simpl in Hp; [|destruct i; discriminate].
      injection Hp as <-. exists (PDict d). split; [exact Hv|reflexivity].
    + intros i p Hp. destruct i; discriminate.
    + rewrite uncapped_stops by exact Hcap.
      unfold keys. rewrite !length_map. apply Z.ltb_lt. lia.
    + exact Hb.
  - intros v Hv Hi. unfold exec. rewrite run_op_loop.
    destruct bound as [|b]; [lia|]. rewrite while_true_S.
    change 1%Z with (Z.of_nat 1).
    now rewrite page_body_not_iterable with (1 := Hv) (2 := Hi).
Qed.

(** The loop from any state, on pages none of which ends it *)
Lemma loop_unfinished transport u n tok op (pages : nat -> list pyval) :
  (forall i acc, exists v,
      transport (page_request u n tok op (S i)) = Reply v
      /\ items v = Some (pages i)
      /\ stops op (pages i) (acc ++ pages i) = false) ->
  forall bound acc start sent,
    while_true bound
      (page_body (Repo.__init__ u n tok) (page_query op) (op_stop op))
      (acc, Z.of_nat (S start)) transport sent
    = (Unfinished,
       (sent ++ map (page_request u n tok op) (seq (S start) bound))%list).
Proof.
  intros H. induction bound as [|b IH]; intros acc start sent.
  - simpl. now rewrite app_nil_r.
  - rewrite while_true_S.
    destruct (H start acc) as (v & Hv & Hi & Hs).
    rewrite (page_body_run _ _ _ _ _ _ _ _ Hv Hi), Hs, IH.
    simpl. now rewrite <- app_assoc.
Qed.

(** X2. The operations without cap have no limit of their own on the
    number of pages: as long as every page holds at least 100 items the
    loop goes on, so that within any number of turns it has sent that many
    requests and returned nothing. *)
Theorem paginated_fetch_never_stops_on_full_pages transport u n tok op
    (pages : nat -> list pyval) bound :
  cap op = None ->
  (forall i, exists v,
      transport (page_request u n tok op (S i)) = Reply v
      /\ items v = Some (pages i)
      /\ (100 <= List.length (pages i))%nat) ->
  exec (run_op op bound (Repo.__init__ u n tok)) transport
  = (Unfinished, page_requests u n tok op bound).
Proof.
  intros Hcap H. unfold exec. rewrite run_op_loop.
  change 1%Z with (Z.of_nat 1).
  rewrite (@loop_unfinished transport u n tok op pages); [reflexivity|].
  intros i acc. destruct (H i) as (v & Hv & Hi & Hl).
  exists v. repeat split; auto.
  rewrite uncapped_stops by exact Hcap. apply Z.ltb_ge. lia.
Qed.

(** X3. [issue_comments] never cuts what it has fetched down to
    [max_count]: when the first page already holds [max_count] items or
    more (as always when [max_count] is zero or negative), it returns the
    whole page after one request. *)
Theorem issue_comments_returns_whole_pages transport u n tok number max_count
    v p bound :
  transport (page_request u n tok (IssueComments number max_count) 1) = Reply v ->
  items v = Some p ->
  (max_count <= Z.of_nat (List.length p))%Z ->
  (0 < bound)%nat ->
  exec (Repo.issue_comments bound (Repo.__init__ u n tok) number max_count)
    transport
  = (Ok p, page_requests u n tok (IssueComments number max_count) 1).
Proof.
  intros Hv Hi Hm Hb.
  change (Repo.issue_comments bound (Repo.__init__ u n tok) number max_count)
    with (run_op (IssueComments number max_count) bound (Repo.__init__ u n tok)).
  rewrite (@exec_run_op transport u n tok (IssueComments number max_count)
             [] p bound).
  - simpl. now rewrite app_nil_r.
  - intros [|i] q Hq; simpl in Hq; [|destruct i; discriminate].
    injection Hq as <-. exists v. split; assumption.
  - intros i q Hq. destruct i; discriminate.
  - unfold stops. simpl. rewrite app_nil_r.
    apply orb_true_iff. right. apply Z.geb_le. lia.
  - exact Hb.
Qed.

(** ** [DOI.__init__] on other inputs *)

(** The group of a pattern hands what it consumed to the continuation. *)
Lemma run_group_sound r st k m :
  Re.run (Re.Group r) st k = Some m ->
  exists w after,
    Re.rest st = w ++ after /\ denote r (Re.pos st) w after
    /\ k (Re.MState (Re.pos st + String.length w) after (Some w)) = Some m.
Proof.
  intros H. simpl in H.
  apply run_sound in H as (w & after & g & E & D & K).
  exists w, after. repeat split; auto.
  simpl in K.
  now rewrite E, (Nat.add_comm (Re.pos st)), Nat.add_sub, substring_prefix,
    (Nat.add_comm (String.length w)) in K.
Qed.

(** What [DOI.pattern] captures is a bare DOI. *)
Lemma doi_group_identifier s m :
  Re.re_match DOI.pattern s = Some m ->
  exists ident, Re.group1 m = Some ident /\ identifier ident.
Proof.
  unfold Re.re_match, DOI.pattern. intros H.
  repeat match type of H with
  | Re.run (Re.Cat (Re.Opt ?a) ?b) ?st ?k = _ =>
      change (Re.run (Re.Cat (Re.Opt a) b) st k)
        with (Re.run (Re.Opt a) st (fun s => Re.run b s k)) in H;
      apply run_sound in H as (? & ? & ? & _ & _ & H)
  end.
  apply run_group_sound in H as (w & after & _ & D & K).
  injection K as <-. exists w. split; [reflexivity|].
  simpl in D.
  destruct D as (w7 & w8 & -> & -> & w9 & w10 & ->
                 & (w11 & ds & -> & (c & -> & Hc1) & Hd)
                 & w12 & w13 & -> & -> & w14 & tail & ->
                 & (c' & -> & Hc') & Ht).
  exists (String c ds), (String c' tail). simpl. rewrite Hc1, Hc', Hd, Ht.
  repeat split; auto; discriminate.
Qed.

(** ['10.\d+/\S+'] on a bare DOI followed by text that starts with
    whitespace *)
Lemma doi_body_run_rest n g ds tail rest k m :
  ds <> "" -> all Re.digit ds = true ->
  tail <> "" -> all Re.nonspace tail = true ->
  ends_run Re.nonspace rest ->
  let ident := "10." ++ ds ++ "/" ++ tail in
  k (Re.MState (n + String.length ident) rest g) = Some m ->
  Re.run
    (Re.Cat (Re.Chars "10.")
    (Re.Cat (Re.Plus Re.digit)
    (Re.Cat (Re.Chars "/") (Re.Plus Re.nonspace))))
    (Re.MState n (ident ++ rest) g) k
  = Some m.
Proof.
  intros Hds Hd Htail Ht Hrest ident Hk.
  destruct ds as [|c ds]; [congruence|].
  destruct tail as [|c' tail]; [congruence|].
  simpl in Hd, Ht.
  apply andb_true_iff in Hd as [Hc Hd], Ht as [Hc' Ht].
  subst ident. cbn. rewrite Hc, append_assoc.
  apply star_greedy; [exact Hd|reflexivity|].
  cbn. rewrite Hc'.
  apply star_greedy; [exact Ht|exact Hrest|].
  rewrite <- Hk. f_equal. f_equal.
  cbn. rewrite length_append. cbn. lia.
Qed.

Lemma doi_match_rest pre ident rest :
  url_prefix pre -> identifier ident -> ends_run Re.nonspace rest ->
  Re.re_match DOI.pattern (pre ++ ident ++ rest)
  = Some (Re.MState (String.length pre + String.length ident) rest (Some ident)).
Proof.
  intros Hpre (ds & tail & -> & Hds & Hd & Htail & Ht) Hrest.
  unfold Re.re_match, DOI.pattern.
  repeat change (Re.run (Re.Cat (Re.Opt ?a) ?b) ?st ?k)
    with (Re.run (Re.Opt a) st (fun s => Re.run b s k)).
  change (("10." ++ ds ++ "/" ++ tail) ++ rest)
    with (String "1" (("0." ++ ds ++ "/" ++ tail) ++ rest)).
  rewrite doi_prefix_run; auto.
  - change (String "1" (("0." ++ ds ++ "/" ++ tail) ++ rest))
      with (("10." ++ ds ++ "/" ++ tail) ++ rest).
    change (Re.run (Re.Group ?r) ?st ?k) with
      (Re.run r st (fun st' =>
         k (Re.MState (Re.pos st') (Re.rest st')
              (Some (substring 0 (Re.pos st' - Re.pos st) (Re.rest st)))))).
    apply doi_body_run_rest; auto.
    cbv beta. unfold Re.pos, Re.rest.
    now rewrite Nat.add_comm, Nat.add_sub, substring_prefix, Nat.add_comm.
  - intros n c y g Hc.
    assert (E : Re.strip "10." (String c y) = None).
    { unfold Re.strip. destruct (Ascii.eqb_spec "1" c); congruence. }
    now apply run_group_chars_fail.
Qed.

(** X4. Whatever follows the identifier from the first whitespace on is
    ignored: a bare DOI, behind one of the prefixes or not, followed by
    text that starts with a whitespace character gives the same object as
    the bare DOI alone. *)
Theorem DOI_init_ignores_trailing_text transport pre ident rest :
  url_prefix pre -> identifier ident -> ends_run Re.nonspace rest ->
  exec (DOI.__init__ (pre ++ ident ++ rest)) transport
  = (Ok {| DOI.doi := ident; DOI.url := "https://doi.org/" ++ ident |}, [])
  /\ exec (DOI.__init__ (pre ++ ident ++ rest)) transport
     = exec (DOI.__init__ ident) transport.
Proof.
  intros Hpre Hid Hrest.
  assert (Hempty : url_prefix "") by (exists "", "", ""; auto).
  pose proof (doi_match_whole Hempty Hid) as E0. simpl in E0.
  unfold exec, DOI.__init__.
  rewrite doi_match_rest by assumption. now rewrite E0.
Qed.

(** X5. Round trip: when [DOI(s)] succeeds, its [doi] is a bare DOI
    (['10.'], digits, ['/'], no whitespace), and building a [DOI] from its
    [doi] or from its [url] gives the same object again. *)
Theorem DOI_init_round_trip transport s d sent :
  exec (DOI.__init__ s) transport = (Ok d, sent) ->
  identifier (DOI.doi d)
  /\ DOI.url d = "https://doi.org/" ++ DOI.doi d
  /\ exec (DOI.__init__ (DOI.doi d)) transport = (Ok d, [])
  /\ exec (DOI.__init__ (DOI.url d)) transport = (Ok d, []).
Proof.
  unfold exec, DOI.__init__. intros H.
  destruct (Re.re_match DOI.pattern s) as [m|] eqn:E; [|discriminate].
  destruct (doi_group_identifier _ E) as (ident & Hg & Hid).
  unfold Re.group in H. rewrite Hg in H. injection H as <- <-. simpl.
  assert (Hempty : url_prefix "") by (exists "", "", ""; auto).
  assert (Hurl : url_prefix "https://doi.org/")
    by (exists "https://", "", "doi.org/"; auto).
  pose proof (doi_match_whole Hempty Hid) as E0. simpl in E0.
  pose proof (doi_match_whole Hurl Hid) as E1. simpl in E1.
  unfold Re.group. rewrite E0, E1. simpl. auto.
Qed.

(** ** [DOI._get_date] *)

Lemma silent_ret {A} (a : A) : silent (ret a).
Proof. intros t s. split; [reflexivity|discriminate]. Qed.

Lemma silent_raise {A} (e : exn) : silent (@raise A e).
Proof. intros t s. split; [reflexivity|discriminate]. Qed.

Lemma silent_bind {A B} (m : M A) (f : A -> M B) :
  silent m -> (forall a, silent (f a)) -> silent (bind m f).
Proof.
  intros Hm Hf t s. unfold bind.
  destruct (Hm t s) as [Hs Hu].
  destruct (m t s) as [[a|e|] s']; simpl in *; subst.
  - apply Hf.
  - split; [reflexivity|discriminate].
  - contradiction.
Qed.

Lemma silent_index v i : silent (index v i).
Proof.
  destruct v; simpl; try apply silent_raise.
  - destruct (String.get i s); [apply silent_ret|apply silent_raise].
  - destruct (nth_error l i); [apply silent_ret|apply silent_raise].
Qed.

Lemma silent_len v : silent (len v).
Proof. destruct v; simpl; try apply silent_raise; apply silent_ret. Qed.

Lemma silent_get_or v k d : silent (get_or v k d).
Proof.
  destruct v; simpl; try apply silent_raise.
  destruct (dict_get d0 k); apply silent_ret.
Qed.

Lemma silent_contains k v : silent (contains k v).
Proof. destruct v; simpl; try apply silent_raise; apply silent_ret. Qed.

Lemma silent_getitem v k : silent (getitem v k).
Proof.
  destruct v; simpl; try apply silent_raise.
  destruct (dict_get d k); [apply silent_ret|apply silent_raise].
Qed.

Lemma silent_extend acc v : silent (extend acc v).
Proof. destruct v; simpl; try apply silent_raise; apply silent_ret. Qed.

Lemma silent_for_state {A S} (l : list A) (body : A -> S -> M (S + S)) :
  (forall x s, silent (body x s)) -> forall s, silent (for_state l body s).
Proof.
  intros H. induction l as [|x l IH]; intros s; simpl.
  - apply silent_ret.
  - apply silent_bind; [apply H|]. intros [s'|s']; [apply IH|apply silent_ret].
Qed.

Ltac silent :=
  repeat first
    [ apply silent_ret | apply silent_raise | apply silent_index
    | apply silent_len | apply silent_get_or | apply silent_contains
    | apply silent_getitem | apply silent_extend
    | apply silent_bind; [|intros ?]
    | match goal with
      | |- silent (if ?b then _ else _) => destruct b
      | |- silent (let '(_, _) := ?p in _) => destruct p
      | |- silent (match ?p with (_, _) => _ end) => destruct p
      end ].

Lemma silent_get_date data : silent (DOI._get_date data).
Proof.
  unfold DOI._get_date. apply silent_bind.
  - apply silent_for_state. intros choice [[year month] day]. silent.
  - intros [[year month] day]. silent.
Qed.

Lemma truthy_or_else_one v : truthy (or_else v (PInt 1)) = true.
Proof. unfold or_else. destruct (truthy v) eqn:E; [exact E|reflexivity]. Qed.

(** X6. [_get_date] sends no request, and the month and the day it returns
    are never [None], zero or empty: where no month or day was found they
    are 1. *)
Theorem get_date_defaults data transport :
  snd (exec (DOI._get_date data) transport) = []
  /\ fst (exec (DOI._get_date data) transport) <> Unfinished
  /\ forall year month day,
       fst (exec (DOI._get_date data) transport) = Ok (year, month, day) ->
       truthy month = true /\ truthy day = true.
Proof.
  destruct (silent_get_date data transport []) as [Hs Hu].
  split; [exact Hs|]. split; [exact Hu|].
  intros year month day. unfold exec, DOI._get_date, bind.
  destruct (for_state _ _ _ transport []) as [[[[y m] d]|e|] s];
    simpl; try discriminate.
  intros [= _ <- <-]. split; apply truthy_or_else_one.
Qed.

Lemma for_state_ext {A S} (l : list A) (body1 body2 : A -> S -> M (S + S))
    transport :
  (forall x s sent, In x l -> body1 x s transport sent = body2 x s transport sent) ->
  forall s sent,
    for_state l body1 s transport sent = for_state l body2 s transport sent.
Proof.
  induction l as [|x l IH]; intros H s sent; simpl; [reflexivity|].
  unfold bind. rewrite H by (left; reflexivity).
  destruct (body2 x s transport sent) as [[[s'|s']|e|] sent']; auto.
  apply IH. intros; apply H; right; assumption.
Qed.

(** [_get_date] reads its argument through the keys of [choices] only. *)
Lemma get_date_ext data data' transport sent :
  (forall k, In k DOI.choices -> dict_get data k = dict_get data' k) ->
  DOI._get_date data transport sent = DOI._get_date data' transport sent.
Proof.
  intros H. unfold DOI._get_date, bind.
  match goal with
  | |- context [for_state _ ?b1 _ _ _] =>
      match goal with
      | |- _ = ?rhs =>
          match rhs with
          | context [for_state _ ?b2 _ _ _] =>
              rewrite (@for_state_ext _ _ DOI.choices b1 b2 transport)
          end
      end
  end; [reflexivity|].
  intros k [[year month] day] sent' Hk. simpl. unfold bind.
  now rewrite (H k Hk).
Qed.

(** X7. The first key that [_get_date] looks up is spelt [pubished]; the
    entry [published] of a record is never read: setting it, to any value,
    changes nothing in what [_get_date] returns or raises. *)
Theorem get_date_ignores_published data v transport :
  exec (DOI._get_date (dict_set data "published" v)) transport
  = exec (DOI._get_date data) transport.
Proof.
  apply get_date_ext. intros k Hk. rewrite dict_get_set.
  destruct (String.eqb_spec k "published") as [->|]; [|reflexivity].
  simpl in Hk. repeat (destruct Hk as [Hk|Hk]; [discriminate|]). contradiction.
Qed.

Lemma for_state_skip {A S} (pre l : list A) (body : A -> S -> M (S + S)) s
    transport :
  (forall x sent, In x pre -> body x s transport sent = (Ok (inl s), sent)) ->
  forall sent,
    for_state (pre ++ l) body s transport sent
    = for_state l body s transport sent.
Proof.
  induction pre as [|x pre IH]; intros H sent; simpl; [reflexivity|].
  unfold bind. rewrite H by (left; reflexivity).
  apply IH. intros; apply H; right; assumption.
Qed.

Lemma for_state_break {A S} (l : list A) (body : A -> S -> M (S + S)) s
    transport sent :
  (forall x, In x l -> body x s transport sent = (Ok (inr s), sent)) ->
  for_state l body s transport sent = (Ok s, sent).
Proof.
  destruct l as [|x l]; intros H; simpl; [reflexivity|].
  unfold bind. now rewrite H by (left; reflexivity).
Qed.

Lemma for_state_same {A S} (l : list A) (body : A -> S -> M (S + S)) s
    transport sent :
  (forall x, In x l -> body x s transport sent = (Ok (inl s), sent)) ->
  for_state l body s transport sent = (Ok s, sent).
Proof.
  induction l as [|x l IH]; intros H; simpl; [reflexivity|].
  unfold bind. rewrite H by (left; reflexivity).
  apply IH. intros; apply H; right; assumption.
Qed.

(** X8. [_get_date] takes the date from the first of its keys that the
    record holds.  When that date has the three parts year, month and day
    (none of them zero or [None]), these are returned and the entries under
    the later keys are not read at all.  When it has the two parts year and
    month, the day returned is 1 whatever dates the later entries hold: a
    day is only ever taken together with the month.  When the record holds
    none of the keys, the result is [None], 1, 1. *)
Theorem get_date_first_entry data transport :
  (forall pre c post y m d,
     DOI.choices = (pre ++ c :: post)%list ->
     (forall k, In k pre -> dict_get data k = None) ->
     dated data c [y; m; d] ->
     truthy y = true -> truthy m = true -> truthy d = true ->
     exec (DOI._get_date data) transport = (Ok (y, m, d), []))
  /\ (forall pre c post y m,
        DOI.choices = (pre ++ c :: post)%list ->
        (forall k, In k pre -> dict_get data k = None) ->
        dated data c [y; m] ->
        truthy y = true -> truthy m = true ->
        (forall k, In k post -> readable data k) ->
        exec (DOI._get_date data) transport = (Ok (y, m, PInt 1), []))
  /\ ((forall k, In k DOI.choices -> dict_get data k = None) ->
      exec (DOI._get_date data) transport = (Ok (PNone, PInt 1, PInt 1), [])).
Proof.
  split; [|split].
  - intros pre c post y m d Hc Hpre (e & rest & He & Hparts) Hy Hm Hd.
    unfold exec, DOI._get_date. rewrite Hc. unfold bind at 1.
    rewrite for_state_skip.
    2:{ intros k sent Hk. simpl. unfold bind. now rewrite (Hpre k Hk). }
    simpl for_state. unfold bind at 1.
    simpl. unfold bind. rewrite He. simpl. rewrite Hparts. simpl.
    rewrite for_state_break.
    + unfold or_else. now rewrite Hm, Hd.
    + intros k _. now rewrite Hy, Hm, Hd.
  - intros pre c post y m Hc Hpre (e & rest & He & Hparts) Hy Hm Hpost.
    unfold exec, DOI._get_date. rewrite Hc. unfold bind at 1.
    rewrite for_state_skip.
    2:{ intros k sent Hk. simpl. unfold bind. now rewrite (Hpre k Hk). }
    simpl for_state. unfold bind at 1.
    simpl. unfold bind. rewrite He. simpl. rewrite Hparts. simpl.
    rewrite for_state_same.
    + unfold or_else. now rewrite Hm.
    + intros k Hk. rewrite Hy, Hm. simpl. unfold bind.
      destruct (Hpost k Hk) as [->|(e' & -> & [Hn|(x & rest' & Hx)])]; simpl.
      * reflexivity.
      * rewrite Hn. reflexivity.
      * rewrite Hx. simpl. destruct (truthy x); reflexivity.
  - intros Hnone. unfold exec, DOI._get_date. unfold bind at 1.
    rewrite for_state_same; [reflexivity|].
    intros k Hk. simpl. unfold bind. now rewrite (Hnone k Hk).
Qed.

(** ** Branch protection rules *)

Lemma arg_map_inverse_get k k' :
  dict_get Repo.arg_map k = Some k' -> dict_get arg_map_inverse k' = Some k.
Proof.
  unfold Repo.arg_map. simpl dict_get.
  repeat match goal with
  | |- context [String.eqb k ?x] =>
      destruct (String.eqb_spec k x);
        [subst k; intros [= <-]; reflexivity|]
  end.
  discriminate.
Qed.

Lemma arg_map_injective k1 k2 k' :
  dict_get Repo.arg_map k1 = Some k' -> dict_get Repo.arg_map k2 = Some k' ->
  k1 = k2.
Proof.
  intros H1 H2. apply arg_map_inverse_get in H1, H2. congruence.
Qed.

Lemma dict_set_fresh {V} (d : dict V) k v :
  dict_get d k = None -> dict_set d k v = (d ++ [(k, v)])%list.
Proof.
  induction d as [|[k0 v0] d IH]; simpl; [reflexivity|].
  destruct (String.eqb k k0); [discriminate|].
  intros H. now rewrite IH.
Qed.

Lemma dict_get_app_fresh {V} (d : dict V) k v k0 :
  dict_get d k0 = None -> k0 <> k ->
  dict_get (d ++ [(k, v)])%list k0 = None.
Proof.
  induction d as [|[k1 v1] d IH]; simpl; intros H Hk.
  - destruct (String.eqb_spec k0 k); congruence.
  - destruct (String.eqb k0 k1); [discriminate|]. auto.
Qed.

Lemma comprehension_cons k v items out :
  Repo.comprehension ((k, v) :: items) out
  = match v with
    | PNone => Repo.comprehension items out
    | _ => match dict_get Repo.arg_map k with
           | Some k' => Repo.comprehension items (dict_set out k' v)
           | None => raise (KeyError k)
           end
    end.
Proof. destruct v; reflexivity. Qed.

Lemma renamed_cons k v items :
  renamed ((k, v) :: items)
  = (match v with
     | PNone => []
     | _ => match dict_get Repo.arg_map k with
            | Some k' => [(k', v)]
            | None => []
            end
     end ++ renamed items)%list.
Proof. destruct v; reflexivity. Qed.

(** The comprehension on entries that are [None] or known, from entries
    [out] that hold none of the names they are given *)
Lemma comprehension_run transport sent items : forall out,
  NoDup (keys items) -> known items ->
  (forall k v k', In (k, v) items -> dict_get Repo.arg_map k = Some k' ->
     dict_get out k' = None) ->
  Repo.comprehension items out transport sent
  = (Ok (out ++ renamed items)%list, sent).
Proof.
  induction items as [|[k v] items IH]; intros out Hnd Hkn Hfresh.
  - simpl. now rewrite app_nil_r.
  - inversion Hnd as [|? ? Hnotin Hnd']; subst.
    assert (Hkn' : known items) by (intros k0 v0 H0; apply (Hkn k0 v0); now right).
    assert (Hfresh' : forall k0 v0 k', In (k0, v0) items ->
              dict_get Repo.arg_map k0 = Some k' -> dict_get out k' = None)
      by (intros k0 v0 k' H0; apply (Hfresh k0 v0 k'); now right).
    rewrite comprehension_cons, renamed_cons.
    destruct (Hkn k v (or_introl eq_refl)) as [->|Hmem].
    + now apply IH.
    + unfold dict_mem in Hmem.
      destruct (dict_get Repo.arg_map k) as [k'|] eqn:Ek; [|discriminate].
      assert (Hstep : forall out',
                (forall k0 v0 k0', In (k0, v0) items ->
                   dict_get Repo.arg_map k0 = Some k0' ->
                   dict_get out' k0' = None) ->
                Repo.comprehension items out' transport sent
                = (Ok (out' ++ renamed items)%list, sent))
        by (intros; now apply IH).
      assert (Hset : dict_set out k' v = (out ++ [(k', v)])%list)
        by (apply dict_set_fresh, (Hfresh k v k'); [now left|exact Ek]).
      assert (Hnew : Repo.comprehension items (dict_set out k' v) transport sent
                     = (Ok (out ++ (k', v) :: renamed items)%list, sent)).
      { rewrite Hset, Hstep.
        - now rewrite <- app_assoc.
        - intros k0 v0 k0' H0 E0. apply dict_get_app_fresh; eauto.
          intros ->. apply Hnotin.
          rewrite (arg_map_injective _ _ Ek E0).
          unfold keys. apply in_map_iff. now exists (k0, v0). }
      destruct v; auto.
Qed.

Lemma renamed_keys_NoDup items :
  NoDup (keys items) -> NoDup (keys (renamed items)).
Proof.
  induction items as [|[k v] items IH]; intros Hnd; [constructor|].
  inversion Hnd as [|? ? Hnotin Hnd']; subst.
  assert (R : renamed ((k, v) :: items) = renamed items
              \/ exists k', dict_get Repo.arg_map k = Some k'
                   /\ renamed ((k, v) :: items) = (k', v) :: renamed items).
  { rewrite renamed_cons.
    destruct (dict_get Repo.arg_map k) as [k'|] eqn:Ek.
    - destruct v; simpl; eauto.
    - left. destruct v; reflexivity. }
  destruct R as [->|(k' & Ek & ->)]; [auto|].
  simpl. constructor; [|auto].
  intros Hin. unfold keys in Hin. apply in_map_iff in Hin as ([k1 v1] & <- & Hin).
  unfold renamed in Hin. apply in_flat_map in Hin as ([k0 v0] & H0 & Hin).
  cbn [fst snd] in Hin.
  assert (Ek0 : dict_get Repo.arg_map k0 = Some k1).
  { destruct (dict_get Repo.arg_map k0) as [k0'|];
      destruct v0; try contradiction;
      destruct Hin as [[= <- _]|[]]; reflexivity. }
  apply Hnotin.
  rewrite (arg_map_injective _ _ Ek Ek0).
  unfold keys. apply in_map_iff. now exists (k0, v0).
Qed.

(** X9. On keyword arguments with names that [arg_map] knows,
    [_prepare_branch_protection_rule_input] returns the arguments that are
    not [None], in order, each under its GraphQL name; no two of them end
    under the same name, so none is lost.  An argument that is [None] is
    dropped before its name is looked up, whatever its name. *)
Theorem prepare_input_renames kwargs transport :
  NoDup (keys kwargs) -> known kwargs ->
  exec (Repo._prepare_branch_protection_rule_input kwargs) transport
  = (Ok (renamed kwargs), [])
  /\ NoDup (keys (renamed kwargs))
  /\ List.length (renamed kwargs)
     = List.length (filter (fun kv => negb (match snd kv with
                                            | PNone => true
                                            | _ => false
                                            end)) kwargs).
Proof.
  intros Hnd Hkn. split; [|split].
  - unfold exec, Repo._prepare_branch_protection_rule_input.
    now rewrite comprehension_run.
  - now apply renamed_keys_NoDup.
  - clear Hnd. induction kwargs as [|[k v] kwargs IH]; [reflexivity|].
    assert (Hkn' : known kwargs)
      by (intros k0 v0 H0; apply (Hkn k0 v0); now right).
    specialize (IH Hkn').
    rewrite renamed_cons.
    destruct (Hkn k v (or_introl eq_refl)) as [->|Hmem]; [exact IH|].
    unfold dict_mem in Hmem.
    destruct (dict_get Repo.arg_map k); [|discriminate].
    destruct v; simpl; auto.
Qed.

(** The comprehension passes entries that are [None] or known. *)
Lemma comprehension_prefix transport sent pre rest : forall out,
  known pre ->
  exists out',
    Repo.comprehension (pre ++ rest)%list out transport sent
    = Repo.comprehension rest out' transport sent.
Proof.
  induction pre as [|[k v] pre IH]; intros out Hkn; [now exists out|].
  assert (Hkn' : known pre) by (intros k0 v0 H0; apply (Hkn k0 v0); now right).
  change (((k, v) :: pre) ++ rest)%list with ((k, v) :: pre ++ rest)%list.
  rewrite comprehension_cons.
  destruct (Hkn k v (or_introl eq_refl)) as [->|Hmem].
  - now apply IH.
  - unfold dict_mem in Hmem.
    destruct (dict_get Repo.arg_map k) as [k'|] eqn:Ek; [|discriminate].
    destruct (IH out Hkn') as (o1 & E1).
    destruct (IH (dict_set out k' v) Hkn') as (o2 & E2).
    destruct v; eauto.
Qed.

(** X10. The first keyword argument that is not [None] and has a name
    that [arg_map] does not know makes
    [_prepare_branch_protection_rule_input] raise [KeyError] with that
    name. *)
Theorem prepare_input_unknown_name pre k v post transport :
  known pre -> v <> PNone -> dict_get Repo.arg_map k = None ->
  exec (Repo._prepare_branch_protection_rule_input
          (pre ++ (k, v) :: post)%list) transport
  = (Raise (KeyError k), []).
Proof.
  intros Hkn Hv Hk.
  unfold exec, Repo._prepare_branch_protection_rule_input.
  destruct (comprehension_prefix transport [] ((k, v) :: post) [] Hkn)
    as (out' & ->).
  rewrite comprehension_cons, Hk.
  destruct v; try reflexivity. congruence.
Qed.

Lemma graphql_mutation_run token name input_name input payload transport sent :
  GitHub.graphql_mutation (GitHub.__init__ token) name input_name input payload
    None transport sent
  = (mutation_outcome
       (transport (mutation_request token name input_name payload input)),
     (sent ++ [mutation_request token name input_name payload input])%list).
Proof.
  unfold GitHub.graphql_mutation.
  rewrite endpoint_api, bind_ret. unfold bind, request.
  change (transport _) with
    (transport (mutation_request token name input_name payload input)).
  destruct (transport _) as [[ |b|z|f|s|l|d]|e]; simpl; try reflexivity.
  - destruct (occurs "errors" s); reflexivity.
  - destruct (existsb _ l); reflexivity.
  - destruct (dict_mem "errors" d); simpl; [reflexivity|].
    destruct (dict_get d "data"); reflexivity.
Qed.

(** What a silent computation leaves of a run *)
Lemma silent_run {A} (m : M A) transport sent :
  silent m -> m transport sent = (fst (m transport sent), sent).
Proof.
  intros H. destruct (H transport sent) as [Hs _].
  destruct (m transport sent); simpl in *; congruence.
Qed.

(** The end of [branch_protection_rule_create] and
    [branch_protection_rule_update], on the result of the mutation *)
Lemma rule_id_silent name out :
  silent (has_errors <- contains "errors" out ;;
          if has_errors : bool then ret out
          else
            rule <- getitem out name ;;
            rule <- getitem rule "branchProtectionRule" ;;
            getitem rule "id").
Proof. silent. Qed.

Lemma rule_id_envelope name d transport sent :
  dict_mem "errors" d = true ->
  (has_errors <- contains "errors" (PDict d) ;;
   if has_errors : bool then ret (PDict d)
   else
     rule <- getitem (PDict d) name ;;
     rule <- getitem rule "branchProtectionRule" ;;
     getitem rule "id") transport sent
  = (Ok (PDict d), sent).
Proof. intros H. unfold bind. simpl. now rewrite H. Qed.

Lemma rule_id_found name out id transport sent :
  at_path out ["errors"] = None ->
  at_path out [name; "branchProtectionRule"; "id"] = Some id ->
  (has_errors <- contains "errors" out ;;
   if has_errors : bool then ret out
   else
     rule <- getitem out name ;;
     rule <- getitem rule "branchProtectionRule" ;;
     getitem rule "id") transport sent
  = (Ok id, sent).
Proof.
  intros He Hid. destruct out as [ |b|z|f|s|l|d]; try discriminate.
  simpl in He, Hid.
  assert (Hm : dict_mem "errors" d = false)
    by (unfold dict_mem; destruct (dict_get d "errors");
        [discriminate|reflexivity]).
  unfold bind. simpl. rewrite Hm.
  destruct (dict_get d name) as [[ |b|z|f|s|l|d1]|]; try discriminate. simpl.
  destruct (dict_get d1 "branchProtectionRule") as [[ |b|z|f|s|l|d2]|];
    try discriminate. simpl.
  destruct (dict_get d2 "id"); [|discriminate].
  simpl. unfold ret. congruence.
Qed.

Lemma mutation_outcome_data resp out :
  dict_mem "errors" resp = false ->
  at_path (PDict resp) ["data"] = Some out ->
  mutation_outcome (Reply (PDict resp)) = Ok out.
Proof.
  intros He Hd. simpl in *. rewrite He.
  destruct (dict_get resp "data"); congruence.
Qed.

Lemma at_path_cons d k path :
  at_path (PDict d) (k :: path)
  = match dict_get d k with
    | Some v => at_path v path
    | None => None
    end.
Proof. reflexivity. Qed.

(** X11. [branch_protection_rule_create] first asks for the repository
    and then sends the mutation with the prepared input, to which it adds
    [repositoryId], the [node_id] of the repository.  When the first
    request fails, its exception is raised and no mutation is sent.  An
    answer with an ["errors"] key is returned as it is; otherwise the
    result is the [id] of the rule, found under the name of the mutation
    in [response["data"]]. *)
Theorem branch_protection_rule_create_run u n tok data transport :
  NoDup (keys data) -> known data ->
  let run := exec (Repo.branch_protection_rule_create (Repo.__init__ u n tok)
                     data) transport in
  let get := get_request u n tok "" in
  (forall e, transport get = Fail e -> run = (Raise e, [get]))
  /\ (forall info node_id,
        transport get = Reply (PDict info) ->
        dict_get info "node_id" = Some node_id ->
        let post :=
          mutation_request tok "createBranchProtectionRule"
            "CreateBranchProtectionRuleInput" "branchProtectionRule {id}"
            (dict_set (renamed data) "repositoryId" node_id) in
        snd run = [get; post]
        /\ (forall resp,
              transport post = Reply (PDict resp) ->
              dict_mem "errors" resp = true ->
              fst run = Ok (PDict resp))
        /\ (forall resp id,
              transport post = Reply (PDict resp) ->
              dict_mem "errors" resp = false ->
              at_path (PDict resp) ["data"; "errors"] = None ->
              at_path (PDict resp)
                ["data"; "createBranchProtectionRule"; "branchProtectionRule";
                 "id"] = Some id ->
              fst run = Ok id)).
Proof.
  intros Hnd Hkn run get.
  assert (Hrun : run
    = (let (o, sent') :=
         (of_reply (transport get), [get]) in
       match o with
       | Ok info =>
           (node_id <- getitem info "node_id" ;;
            let inputs := dict_set (renamed data) "repositoryId" node_id in
            out <- GitHub.graphql_mutation (GitHub.__init__ tok)
                     "createBranchProtectionRule"
                     "CreateBranchProtectionRuleInput"
                     inputs "branchProtectionRule {id}" None ;;
            has_errors <- contains "errors" out ;;
            if has_errors : bool then ret out
            else
              rule <- getitem out "createBranchProtectionRule" ;;
              rule <- getitem rule "branchProtectionRule" ;;
              getitem rule "id") transport sent'
       | Raise e => (Raise e, sent')
       | Unfinished => (Unfinished, sent')
       end)).
  { subst run. unfold exec, Repo.branch_protection_rule_create.
    unfold bind at 1. unfold Repo._prepare_branch_protection_rule_input.
    rewrite comprehension_run by (auto; intros; reflexivity).
    simpl app. unfold bind at 1. unfold Repo.info. rewrite get_run.
    reflexivity. }
  rewrite Hrun. clear Hrun. split.
  - intros e He. now rewrite He.
  - intros info node_id Hinfo Hnode post. rewrite Hinfo. simpl of_reply.
    cbv beta iota.
    match goal with
    | |- context [?m transport [get]] =>
        assert (E : m transport [get]
                    = match mutation_outcome (transport post) with
                      | Ok out =>
                          (has_errors <- contains "errors" out ;;
                           if has_errors : bool then ret out
                           else
                             rule <- getitem out "createBranchProtectionRule" ;;
                             rule <- getitem rule "branchProtectionRule" ;;
                             getitem rule "id") transport [get; post]
                      | Raise e => (Raise e, [get; post])
                      | Unfinished => (Unfinished, [get; post])
                      end);
        [|rewrite E; clear E]
    end.
    { unfold bind at 1. simpl getitem. rewrite Hnode.
      unfold ret at 1. cbv beta iota zeta. unfold bind at 1.
      rewrite graphql_mutation_run. reflexivity. }
    split; [|split].
    + destruct (mutation_outcome (transport post)); try reflexivity.
      now rewrite silent_run by apply rule_id_silent.
    + intros resp Hresp He. rewrite Hresp. simpl mutation_outcome. rewrite He.
      now rewrite rule_id_envelope.
    + intros resp id Hresp He Hne Hid. rewrite Hresp.
      rewrite at_path_cons in Hne, Hid.
      destruct (dict_get resp "data") as [out|] eqn:Ed; [|discriminate].
      rewrite (@mutation_outcome_data resp out) by (simpl; rewrite ?Ed; auto).
      now rewrite rule_id_found with (1 := Hne) (2 := Hid).
Qed.

(** X12. [branch_protection_rule_update] sends the mutation alone, with the
    prepared input (the rule being named by [branchProtectionRuleId], the
    [rule_id] argument): the repository is not looked up.  An answer with
    an ["errors"] key is returned as it is, an exception of the request is
    raised, and otherwise the result is the [id] of the rule. *)
Theorem branch_protection_rule_update_run u n tok data transport :
  NoDup (keys data) -> known data ->
  let run := exec (Repo.branch_protection_rule_update (Repo.__init__ u n tok)
                     data) transport in
  let post :=
    mutation_request tok "updateBranchProtectionRule"
      "UpdateBranchProtectionRuleInput" "branchProtectionRule {id}"
      (renamed data) in
  snd run = [post]
  /\ (forall e, transport post = Fail e -> fst run = Raise e)
  /\ (forall resp,
        transport post = Reply (PDict resp) ->
        dict_mem "errors" resp = true ->
        fst run = Ok (PDict resp))
  /\ (forall resp id,
        transport post = Reply (PDict resp) ->
        dict_mem "errors" resp = false ->
        at_path (PDict resp) ["data"; "errors"] = None ->
        at_path (PDict resp)
          ["data"; "updateBranchProtectionRule"; "branchProtectionRule"; "id"]
        = Some id ->
        fst run = Ok id).
Proof.
  intros Hnd Hkn run post.
  assert (Hrun : run
    = match mutation_outcome (transport post) with
      | Ok out =>
          (has_errors <- contains "errors" out ;;
           if has_errors : bool then ret out
           else
             rule <- getitem out "updateBranchProtectionRule" ;;
             rule <- getitem rule "branchProtectionRule" ;;
             getitem rule "id") transport [post]
      | Raise e => (Raise e, [post])
      | Unfinished => (Unfinished, [post])
      end).
  { subst run. unfold exec, Repo.branch_protection_rule_update.
    unfold bind at 1. unfold Repo._prepare_branch_protection_rule_input.
    rewrite comprehension_run by (auto; intros; reflexivity).
    simpl app. unfold bind at 1.
    change (Repo._github (Repo.__init__ u n tok)) with (GitHub.__init__ tok).
    rewrite graphql_mutation_run. reflexivity. }
  rewrite Hrun. clear Hrun. split; [|split; [|split]].
  - destruct (mutation_outcome (transport post)); try reflexivity.
    now rewrite silent_run by apply rule_id_silent.
  - intros e He. now rewrite He.
  - intros resp Hresp He. rewrite Hresp. simpl mutation_outcome. rewrite He.
    now rewrite rule_id_envelope.
  - intros resp id Hresp He Hne Hid. rewrite Hresp.
    rewrite at_path_cons in Hne, Hid.
    destruct (dict_get resp "data") as [out|] eqn:Ed; [|discriminate].
    rewrite (@mutation_outcome_data resp out) by (simpl; rewrite ?Ed; auto).
    now rewrite rule_id_found with (1 := Hne) (2 := Hid).
Qed.

(** ** Pull requests *)

Lemma rest_query_run u n tok query verb json rt transport sent :
  Repo._rest_query (Repo.__init__ u n tok) query verb None json rt None "api"
    transport sent
  = (of_reply (transport
       {| req_verb := verb;
          req_url := Div (Url "https://api.github.com")
                       ("repos/" ++ u ++ "/" ++ n ++ "/" ++ query);
          req_headers := GitHub._headers (GitHub.__init__ tok);
          req_data := None;
          req_json := json;
          req_response_type := rt |}),
     (sent ++ [{| req_verb := verb;
                  req_url := Div (Url "https://api.github.com")
                               ("repos/" ++ u ++ "/" ++ n ++ "/" ++ query);
                  req_headers := GitHub._headers (GitHub.__init__ tok);
                  req_data := None;
                  req_json := json;
                  req_response_type := rt |}])%list).
Proof. reflexivity. Qed.



(** X14. [pull_create] raises [ValueError] and sends nothing when [issue]
    is 0 and [title] is empty.  Otherwise it sends one [POST] whose payload
    holds [head], [base], [maintainer_can_modify] and [draft], followed by
    those of [issue], [title], [body] and [head_repo] that are not zero or
    empty. *)
Theorem pull_create_run u n tok head base title issue body
    maintainer_can_modify draft head_repo transport :
  let run := exec (Repo.pull_create (Repo.__init__ u n tok) head base title
                     issue body maintainer_can_modify draft head_repo)
               transport in
  let post :=
    json_request u n tok POST "pulls"
      (pull_create_payload head base title issue body maintainer_can_modify
         draft head_repo) RJson in
  (issue = 0%Z /\ title = "" -> run = (Raise ValueError, []))
  /\ (issue <> 0%Z \/ title <> "" -> run = (of_reply (transport post), [post])).
Proof.
  intros run post. subst run post.
  unfold exec, Repo.pull_create, pull_create_payload, unless_empty, or_else,
    nonempty.
  cbv zeta. cbn [truthy].
  split.
  - intros [-> ->]. reflexivity.
  - intros H.
    destruct (Z.eqb issue 0) eqn:Ei, (String.eqb title "") eqn:Et,
      (String.eqb body ""), (String.eqb head_repo "");
      simpl; rewrite ?Ei, ?Et; simpl; try apply rest_query_run;
      apply Z.eqb_eq in Ei; apply String.eqb_eq in Et; destruct H; congruence.
Qed.

(** ** Pages, labels and permissions *)

(** X15. [pages_create] raises [ValueError] and sends nothing for a build
    type other than ['legacy'] and ['workflow'], and for a legacy build
    without a branch or with a path other than ['/'] and ['/docs'].  For a
    workflow build it sends the build type alone, whatever the branch and
    the path are; for a legacy build it sends the build type and the
    source. *)
Theorem pages_create_run u n tok build_type branch path transport :
  let run := exec (Repo.pages_create (Repo.__init__ u n tok) build_type branch
                     path) transport in
  (build_type <> "legacy" -> build_type <> "workflow" ->
     run = (Raise ValueError, []))
  /\ (build_type = "workflow" ->
        let post := json_request u n tok POST "pages"
                      [("build_type", PStr "workflow")] RJson in
        run = (of_reply (transport post), [post]))
  /\ (build_type = "legacy" ->
        match pages_source branch path with
        | Some source =>
            let post := json_request u n tok POST "pages"
                          [("build_type", PStr "legacy"); ("source", source)]
                          RJson in
            run = (of_reply (transport post), [post])
        | None => run = (Raise ValueError, [])
        end).
Proof.
  intros run. subst run. unfold exec, Repo.pages_create, Repo.is_build_type.
  split; [|split].
  - intros Hl Hw.
    destruct (String.eqb_spec build_type "legacy"); [contradiction|].
    destruct (String.eqb_spec build_type "workflow"); [contradiction|].
    reflexivity.
  - intros ->. reflexivity.
  - intros ->. unfold pages_source. simpl.
    destruct branch as [b|]; [|reflexivity].
    unfold bind. destruct (nonempty b); [|reflexivity].
    destruct (Repo.is_pages_path path); reflexivity.
Qed.

(** X16. [pages_update] has no test that something is to be updated: with
    every argument [None] it sends a [PUT] with an empty object.  An empty
    [cname] is sent as [null].  For a build type that is absent or
    ['workflow'] the branch and the path are neither checked nor sent.  The
    result is [None] whatever the answer is. *)
Theorem pages_update_run u n tok cname https_enforced build_type branch path
    transport :
  build_type = None \/ build_type = Some "workflow" ->
  let payload :=
    set_fields
      [("cname", option_map (fun c => if nonempty c then PStr c else PNone)
                   cname);
       ("https_enforced", option_map PBool https_enforced);
       ("build_type", option_map PStr build_type)] in
  let put := json_request u n tok PUT "pages" payload RStr in
  exec (Repo.pages_update (Repo.__init__ u n tok) cname https_enforced
          build_type branch path) transport
  = (answered (transport put), [put])
  /\ (cname = None -> https_enforced = None -> build_type = None ->
      payload = []).
Proof.
  intros H payload put. subst put payload. split.
  - unfold exec, Repo.pages_update, json_request, answered.
    destruct H as [-> | ->], cname as [c|], https_enforced as [h|];
      simpl; try destruct (nonempty c); simpl; unfold bind; simpl;
      match goal with
      | |- context [of_reply (transport ?r)] => destruct (transport r)
      end; reflexivity.
  - intros -> -> ->. reflexivity.
Qed.

(** X17. [pages_update] raises [ValueError] and sends nothing for a build
    type other than ['legacy'] and ['workflow'], and for a legacy build
    without a branch or with a path other than ['/'] and ['/docs']; for a
    legacy build with both it sends the source after the other fields. *)
Theorem pages_update_validation u n tok cname https_enforced build_type branch
    path transport :
  let run := exec (Repo.pages_update (Repo.__init__ u n tok) cname
                     https_enforced (Some build_type) branch path)
               transport in
  (build_type <> "legacy" -> build_type <> "workflow" ->
     run = (Raise ValueError, []))
  /\ (build_type = "legacy" ->
        match pages_source branch path with
        | Some source =>
            let put :=
              json_request u n tok PUT "pages"
                (set_fields
                   [("cname",
                     option_map (fun c => if nonempty c then PStr c else PNone)
                       cname);
                    ("https_enforced", option_map PBool https_enforced);
                    ("build_type", Some (PStr "legacy"));
                    ("source", Some source)]) RStr in
            run = (answered (transport put), [put])
        | None => run = (Raise ValueError, [])
        end).
Proof.
  intros run. subst run.
  unfold exec, Repo.pages_update, Repo.is_build_type, json_request, answered.
  split.
  - intros Hl Hw. unfold bind at 1. unfold bind at 1.
    destruct (String.eqb_spec build_type "legacy"); [contradiction|].
    destruct (String.eqb_spec build_type "workflow"); [contradiction|].
    reflexivity.
  - intros ->. unfold pages_source.
    destruct cname as [c|], https_enforced as [h|], branch as [b|];
      cbn -[nonempty Repo.is_pages_path]; unfold bind;
      cbn -[nonempty Repo.is_pages_path]; try reflexivity;
      try destruct (nonempty c); destruct (nonempty b);
      cbn -[nonempty Repo.is_pages_path]; try reflexivity;
      destruct (Repo.is_pages_path path);
      cbn -[nonempty Repo.is_pages_path]; try reflexivity;
      match goal with
      | |- context [of_reply (transport ?r)] => destruct (transport r)
      end; reflexivity.
Qed.

Lemma validate_outcomes name color description transport sent :
  Repo._validate_label_data name color description transport sent
  = (Ok tt, sent)
  \/ Repo._validate_label_data name color description transport sent
     = (Raise TypeError, sent)
  \/ Repo._validate_label_data name color description transport sent
     = (Raise ValueError, sent).
Proof.
  unfold Repo._validate_label_data, bind.
  destruct name as [ |b|z|f|s|l|d]; try (right; left; reflexivity).
  destruct color as [ |b|z|f|c|l|d]; try (right; left; reflexivity).
  destruct description as [ |b|z|f|t|l|d]; try (right; left; reflexivity).
  cbn -[Re.re_match String.length Z.ltb Z.of_nat].
  destruct (String.eqb c ""); cbn -[Re.re_match String.length Z.ltb Z.of_nat].
  - destruct (100 <? Z.of_nat (String.length t))%Z; auto.
  - destruct (Re.re_match Repo.color_pattern c);
      cbn -[Re.re_match String.length Z.ltb Z.of_nat]; auto.
    destruct (100 <? Z.of_nat (String.length t))%Z; auto.
Qed.

Lemma bind_run A B (m : M A) (k : A -> M B) transport sent :
  bind m k transport sent
  = match m transport sent with
    | (Ok a, sent') => k a transport sent'
    | (Raise e, sent') => (Raise e, sent')
    | (Unfinished, sent') => (Unfinished, sent')
    end.
Proof. reflexivity. Qed.

(** X18. [label_update] never sends an update without a field: every
    request it sends is a [PATCH] with an object that is not empty.  When
    [new_name], [color] and [description] are all empty it raises
    [ValueError] (or [TypeError], for a name that is not a string) and
    sends nothing. *)
Theorem label_update_never_empty u n tok name new_name color description
    transport :
  let run := exec (Repo.label_update (Repo.__init__ u n tok) name new_name
                     color description) transport in
  (forall r, In r (snd run) ->
     req_verb r = PATCH
     /\ exists d, req_json r = Some (PDict d) /\ d <> [])
  /\ (truthy new_name = false -> truthy color = false ->
      truthy description = false ->
      validation_error (fst run) /\ snd run = []).
Proof.
  intros run. subst run. unfold exec, Repo.label_update.
  rewrite !bind_run.
  destruct (validate_outcomes new_name color description transport [])
    as [E|[E|E]]; rewrite E.
  2: split; [intros r []|intros _ _ _; split; [left|]; reflexivity].
  2: split; [intros r []|intros _ _ _; split; [right|]; reflexivity].
  destruct name as [ |b|z|f|s|l|d];
    try (split; [intros r []|intros _ _ _; split; [left|]; reflexivity]).
  split.
  - intros r Hr.
    destruct (truthy new_name), (truthy color), (truthy description);
      simpl in Hr; try contradiction;
      destruct Hr as [<-|[]]; (split; [reflexivity|]);
      eexists; (split; [reflexivity|discriminate]).
  - intros -> -> ->. split; [right|]; reflexivity.
Qed.

(** X19. [actions_permissions_workflow_default_set] raises [ValueError] and
    sends nothing when both arguments are [None]; otherwise it sends one
    [PUT] with the arguments that are not [None], and its result is [None]
    whatever the answer is. *)
Theorem workflow_permissions_set_run u n tok permissions
    can_approve_pull_requests transport :
  let run := exec (Repo.actions_permissions_workflow_default_set
                     (Repo.__init__ u n tok) permissions
                     can_approve_pull_requests) transport in
  let put :=
    json_request u n tok PUT "actions/permissions/workflow"
      (set_fields
         [("default_workflow_permissions", option_map PStr permissions);
          ("can_approve_pull_request_reviews",
           option_map PBool can_approve_pull_requests)]) RStr in
  (permissions = None -> can_approve_pull_requests = None ->
     run = (Raise ValueError, []))
  /\ (permissions <> None \/ can_approve_pull_requests <> None ->
        run = (answered (transport put), [put])).
Proof.
  intros run put. subst run put.
  unfold exec, Repo.actions_permissions_workflow_default_set, json_request,
    answered.
  split.
  - intros -> ->. reflexivity.
  - intros H.
    destruct permissions as [p|], can_approve_pull_requests as [b|];
      try (destruct H; congruence);
      simpl; unfold bind; simpl;
      match goal with
      | |- context [of_reply (transport ?r)] => destruct (transport r)
      end; reflexivity.
Qed.

(** ** Contents *)

Lemma removesuffix_slash p : removesuffix (p ++ "/") "/" = p.
Proof.
  induction p as [|c p IH]; [reflexivity|].
  simpl append. unfold removesuffix; fold removesuffix.
  destruct (String.eqb_spec (String c (p ++ "/")) "/") as [E|_].
  - injection E as _ E. destruct p; discriminate.
  - now rewrite IH.
Qed.

Lemma removesuffix_none p :
  (forall q, p <> q ++ "/") -> removesuffix p "/" = p.
Proof.
  induction p as [|c p IH]; intros H; [reflexivity|].
  unfold removesuffix; fold removesuffix.
  destruct (String.eqb_spec (String c p) "/") as [E|_].
  - exfalso. apply (H ""). exact E.
  - rewrite IH; [reflexivity|]. intros q ->. apply (H (String c q)). reflexivity.
Qed.

(** X20. [content] drops one slash from the end of the path: a path and
    the same path followed by a slash give the same request, whose query
    is ['contents/'], the path and, for a [ref] that is not empty,
    ['?ref='] and the [ref]. *)
Theorem content_trailing_slash u n tok path ref transport :
  let get := get_request u n tok
               ("contents/" ++ path ++ opt_param "?ref=" ref) in
  exec (Repo.content (Repo.__init__ u n tok) (path ++ "/") ref) transport
  = (of_reply (transport get), [get])
  /\ ((forall q, path <> q ++ "/") ->
      exec (Repo.content (Repo.__init__ u n tok) path ref) transport
      = (of_reply (transport get), [get])).
Proof.
  intros get. subst get. unfold exec, Repo.content. split.
  - rewrite removesuffix_slash, get_run. reflexivity.
  - intros H. rewrite (removesuffix_none H), get_run. reflexivity.
Qed.

(** ** Clients made from clients *)

(** X21. The token goes along from client to client: the repository client
    that [GitHub(token).user(u).repo(r)] gives is [Repo(u, r, token)], and
    its requests, like those of the user client, carry the
    [Authorization] header of the token. *)
Theorem token_goes_along token u r transport :
  let user := User.user (GitHub.__init__ token) u in
  User.repo user r = Repo.__init__ u r token
  /\ (exists q,
        exec (Repo.info (User.repo user r)) transport
        = (of_reply (transport q), [q])
        /\ req_url q = Div (Url "https://api.github.com")
                         ("repos/" ++ u ++ "/" ++ r ++ "/")
        /\ dict_get (req_headers q) "Authorization" = bearer token)
  /\ (exists q,
        exec (User.info user) transport = (of_reply (transport q), [q])
        /\ req_url q = Div (Url "https://api.github.com")
                         ("users/" ++ u ++ "/")
        /\ dict_get (req_headers q) "Authorization" = bearer token).
Proof.
  intros user. subst user. split; [reflexivity|]. split.
  - eexists. split; [reflexivity|]. split; [reflexivity|]. apply init_headers.
  - eexists. split; [reflexivity|]. split; [reflexivity|]. apply init_headers.
Qed.

(** ** What the validation lets through *)

Lemma at_end_cases s : Re.at_end s = true <-> s = "" \/ s = nl.
Proof.
  unfold Re.at_end, nl. rewrite orb_true_iff, !String.eqb_eq. reflexivity.
Qed.

Lemma topic_pattern_shape s :
  Re.re_match Repo.topic_pattern s <> None <-> topic_shape s.
Proof.
  split.
  - destruct (Re.re_match Repo.topic_pattern s) as [m|] eqn:E;
      [intros _|congruence].
    apply re_match_sound in E as (w & after & -> & D).
    unfold Repo.topic_pattern in D. cbn [denote] in D.
    destruct D as (w1 & w2 & -> & [-> _] & w3 & w4 & -> & (c & -> & Hc)
                   & w5 & w6 & -> & Hall & -> & Hend).
    exists c, w5, after. rewrite append_nil_r. simpl.
    repeat split; auto. now apply at_end_cases.
  - intros (c & body & last & -> & Hc & Hall & Hlast).
    unfold topic_first in Hc. unfold topic_next in Hall.
    unfold Re.re_match, Repo.topic_pattern.
    cbn [Re.run Re.pos Re.rest Re.group1 Nat.eqb append]. rewrite Hc.
    erewrite star_greedy; [discriminate|exact Hall| |].
    + destruct Hlast as [->| ->]; simpl; auto.
    + cbn [Re.run Re.rest]. apply at_end_cases in Hlast. rewrite Hlast.
      reflexivity.
Qed.

Lemma color_pattern_shape s :
  Re.re_match Repo.color_pattern s <> None <-> color_shape s.
Proof.
  split.
  - destruct (Re.re_match Repo.color_pattern s) as [m|] eqn:E;
      [intros _|congruence].
    apply re_match_sound in E as (w & after & -> & D).
    unfold Repo.color_pattern in D. cbn [denote Re.Times] in D.
    destruct D as (w0 & v0 & -> & [-> _]
                   & w1 & v1 & -> & (c1 & -> & H1)
                   & w2 & v2 & -> & (c2 & -> & H2)
                   & w3 & v3 & -> & (c3 & -> & H3)
                   & w4 & v4 & -> & (c4 & -> & H4)
                   & w5 & v5 & -> & (c5 & -> & H5)
                   & w6 & v6 & -> & (c6 & -> & H6) & -> & Hend).
    exists (String c1 (String c2 (String c3 (String c4 (String c5
              (String c6 "")))))), after.
    unfold hex_digit. cbn [all append String.length].
    rewrite H1, H2, H3, H4, H5, H6.
    repeat split; auto. now apply at_end_cases.
  - intros (h & last & -> & Hlen & Hall & Hlast).
    destruct h as [|c1 [|c2 [|c3 [|c4 [|c5 [|c6 [|c7 h]]]]]]];
      try discriminate Hlen.
    unfold hex_digit in Hall. cbn [all] in Hall.
    repeat (apply andb_true_iff in Hall as [? Hall]).
    apply at_end_cases in Hlast.
    unfold Re.re_match, Repo.color_pattern.
    cbn [Re.run Re.Times Re.pos Re.rest Re.group1 Nat.eqb append].
    repeat match goal with H : _ = true |- _ => rewrite H; clear H end.
    discriminate.
Qed.

Lemma topics_checked transport topics : forall sent,
  let checked :=
    for_each topics (fun topic =>
      match topic with
      | PStr s =>
          if (50 <? String.length s)%nat then raise ValueError
          else
            match Re.re_match Repo.topic_pattern s with
            | Some _ => ret tt
            | None => raise ValueError
            end
      | _ => raise TypeError
      end) transport sent in
  Forall good_topic topics /\ checked = (Ok tt, sent)
  \/ ~ Forall good_topic topics
     /\ (checked = (Raise TypeError, sent)
         \/ checked = (Raise ValueError, sent)).
Proof.
  induction topics as [|v topics IH]; intros sent checked; subst checked.
  - left. split; [constructor|reflexivity].
  - cbn [for_each]. rewrite bind_run.
    assert (Hbad : ~ good_topic v -> ~ Forall good_topic (v :: topics))
      by (intros H F; inversion F; auto).
    destruct v as [ |b|z|f|s|l|d];
      try (right; split; [apply Hbad; intros (s & [=] & _)|left; reflexivity]).
    destruct (50 <? String.length s)%nat eqn:L.
    { right. split; [|right; reflexivity].
      apply Hbad. intros (s' & [= <-] & Hl & _).
      apply Nat.ltb_lt in L. lia. }
    destruct (Re.re_match Repo.topic_pattern s) as [m|] eqn:E.
    + assert (G : good_topic (PStr s)).
      { exists s. split; [reflexivity|]. split.
        - apply Nat.ltb_ge in L. exact L.
        - apply topic_pattern_shape. congruence. }
      cbn [ret]. destruct (IH sent) as [[F ->]|[F H]].
      * left. split; [constructor; assumption|reflexivity].
      * right. split; [intros F'; inversion F'; auto|].
        destruct H as [-> | ->]; [left|right]; reflexivity.
    + right. split; [|right; reflexivity].
      apply Hbad. intros (s' & [= <-] & _ & Hs).
      apply topic_pattern_shape in Hs. congruence.
Qed.

(** X22. [repo_topics_replace] lets through exactly the lists of good
    topics: strings of at most 50 characters made of a lower-case letter or
    a digit, then lower-case letters, digits and hyphens (one newline at
    the very end passes too).  For such a list it sends one [PUT] with the
    list under ["names"]; for any other list it raises [TypeError] or
    [ValueError] and sends nothing. *)
Theorem repo_topics_replace_accepts u n tok topics transport :
  let run := exec (Repo.repo_topics_replace (Repo.__init__ u n tok) topics)
               transport in
  let put := json_request u n tok PUT "topics" [("names", PList topics)]
               RJson in
  (Forall good_topic topics -> run = (of_reply (transport put), [put]))
  /\ (~ Forall good_topic topics ->
      validation_error (fst run) /\ snd run = []).
Proof.
  intros run put. subst run put.
  unfold exec, Repo.repo_topics_replace. rewrite !bind_run.
  destruct (topics_checked transport topics []) as [[F E]|[F E]];
    cbv zeta in E.
  - rewrite E. split; [intros _|contradiction].
    rewrite rest_query_run. reflexivity.
  - split; [contradiction|intros _].
    destruct E as [E|E]; rewrite E; split; try reflexivity;
      [left|right]; reflexivity.
Qed.

(** X23. [label_create] with strings for its three arguments, a colour
    that is empty or six hexadecimal digits and a description of at most
    100 characters sends one [POST] with the name and whichever of the
    colour and the description is not empty.  The name itself is not
    checked further: an empty name is sent as it is. *)
Theorem label_create_accepts u n tok name color description transport :
  (color = "" \/ color_shape color) ->
  (String.length description <= 100)%nat ->
  let post :=
    json_request u n tok POST "labels"
      (("name", PStr name)
       :: set_fields [("color", unless_empty color);
                      ("description", unless_empty description)]) RJson in
  exec (Repo.label_create (Repo.__init__ u n tok) (PStr name) (PStr color)
          (PStr description)) transport
  = (of_reply (transport post), [post]).
Proof.
  intros Hc Hd post. subst post.
  assert (V : forall sent,
    Repo._validate_label_data (PStr name) (PStr color) (PStr description)
      transport sent = (Ok tt, sent)).
  { intros sent. unfold Repo._validate_label_data.
    cbn -[Re.re_match String.length Z.ltb Z.of_nat truthy].
    unfold bind. cbn -[Re.re_match String.length Z.ltb Z.of_nat truthy].
    change (truthy (PStr color)) with (nonempty color).
    assert (L : (100 <? Z.of_nat (String.length description))%Z = false)
      by (apply Z.ltb_ge; lia).
    destruct (nonempty color) eqn:N.
    - destruct Hc as [-> |Hc]; [discriminate N|].
      apply color_pattern_shape in Hc.
      destruct (Re.re_match Repo.color_pattern color); [|congruence].
      cbn -[Re.re_match String.length Z.ltb Z.of_nat nonempty].
      now rewrite L.
    - cbn -[Re.re_match String.length Z.ltb Z.of_nat nonempty].
      now rewrite L. }
  unfold exec, Repo.label_create. rewrite bind_run, V.
  rewrite rest_query_run. unfold json_request, unless_empty.
  cbn [truthy]. unfold nonempty.
  destruct (negb (color =? "")), (negb (description =? "")); reflexivity.
Qed.

(** ** GraphQL queries of the repository client *)

Lemma graphql_query_run tok query mutation transport sent :
  GitHub.graphql_query (GitHub.__init__ tok) query mutation None RJson
    transport sent
  = (of_reply (transport (query_request tok mutation query)),
     (sent ++ [query_request tok mutation query])%list).
Proof. reflexivity. Qed.

Lemma silent_comprehend {A B} (l : list A) (f : A -> M B) :
  (forall x, silent (f x)) -> silent (comprehend l f).
Proof.
  intros H. induction l as [|x l IH]; simpl; [apply silent_ret|].
  apply silent_bind; [apply H|]. intros y.
  apply silent_bind; [apply IH|]. intros ys. apply silent_ret.
Qed.

Lemma rstrip_keep x y chars :
  rstrip y chars <> "" -> rstrip (x ++ y) chars = x ++ rstrip y chars.
Proof.
  intros H. induction x as [|c x IH]; [reflexivity|].
  simpl. rewrite IH.
  destruct (x ++ rstrip y chars) eqn:E; [|reflexivity].
  destruct x; simpl in E; [contradiction|discriminate].
Qed.

Lemma rstrip_quoted x :
  rstrip (x ++ dq ++ ", ") ", " = x ++ dq.
Proof. rewrite rstrip_keep; [reflexivity|discriminate]. Qed.

Lemma concat_quoted_nonempty f fs :
  (exists x, f = x ++ dq) -> String.concat ", " (f :: fs) <> "".
Proof.
  intros [x ->]. destruct fs; simpl; destruct x; discriminate.
Qed.

(** Fields that end with a quote, each followed by [", "]: stripping
    commas and spaces from the right removes the last separator only. *)
Lemma rstrip_fields fs : forall f,
  Forall (fun f => exists x, f = x ++ dq) (f :: fs) ->
  rstrip (fold_right (fun f acc => f ++ ", " ++ acc) "" (f :: fs)) ", "
  = String.concat ", " (f :: fs).
Proof.
  induction fs as [|g fs IH]; intros f H; inversion H as [|? ? [x ->] H'];
    subst.
  - cbn [fold_right String.concat]. rewrite append_assoc.
    change (", " ++ "") with ", ". apply rstrip_quoted.
  - specialize (IH g H').
    change (fold_right _ "" ((x ++ dq) :: g :: fs))
      with ((x ++ dq) ++ ", "
            ++ fold_right (fun f acc => f ++ ", " ++ acc) "" (g :: fs)).
    rewrite <- append_assoc, rstrip_keep; rewrite IH.
    + rewrite append_assoc. reflexivity.
    + inversion H'; subst. now apply concat_quoted_nonempty.
Qed.

Lemma linked_branch_inputs issue_id base_sha name repository_id :
  rstrip
    (let inputs :=
       "issueId: " ++ dq ++ Repo.fmt issue_id ++ dq ++ ", oid: " ++ dq
       ++ base_sha ++ dq ++ ", " in
     let inputs :=
       match name with
       | Some s =>
           if nonempty s then inputs ++ "name: " ++ dq ++ s ++ dq ++ ", "
           else inputs
       | None => inputs
       end in
     match repository_id with
     | Some r =>
         if Repo.given repository_id
         then inputs ++ "repositoryId: " ++ dq ++ Repo.fmt r ++ dq ++ ", "
         else inputs
     | None => inputs
     end) ", "
  = String.concat ", "
      (linked_branch_fields issue_id base_sha name repository_id).
Proof.
  assert (Q : forall n v, exists x, quoted_field n v = x ++ dq).
  { intros n v. exists (n ++ ": " ++ dq ++ v). unfold quoted_field.
    now rewrite !append_assoc. }
  unfold linked_branch_fields.
  destruct name as [s|]; [destruct (nonempty s)|];
    (destruct repository_id as [r|];
     [destruct (Repo.given (Some r))|]);
    cbv zeta; cbn [app];
    (rewrite <- rstrip_fields; [|repeat constructor; apply Q]);
    f_equal; unfold quoted_field; cbn [fold_right];
    repeat rewrite append_assoc; reflexivity.
Qed.

Lemma linked_branch_silent out :
  silent (has_errors <- contains "errors" out ;;
          if has_errors : bool then ret out
          else
            data <- getitem out "data" ;;
            data <- getitem data "createLinkedBranch" ;;
            data <- getitem data "linkedBranch" ;;
            data <- getitem data "ref" ;;
            name <- getitem data "name" ;;
            target <- getitem data "target" ;;
            oid <- getitem target "oid" ;;
            ret (PDict [("name", name); ("sha", oid)])).
Proof. silent. Qed.

Lemma at_path_app v p q :
  at_path v (p ++ q)
  = match at_path v p with
    | Some w => at_path w q
    | None => None
    end.
Proof.
  revert v. induction p as [|k p IH]; intros v; [reflexivity|].
  destruct v as [ |b|z|f|s|l|d]; try reflexivity.
  simpl. destruct (dict_get d k); [apply IH|reflexivity].
Qed.

(** X24. [branch_create_linked] sends one mutation, whose input is the
    fields [issueId] and [oid], then [name] and [repositoryId] when they
    are given and not empty (or zero), each value in quotes, the fields
    separated by [", "] with nothing after the last one.  A failure of the
    request is raised; an answer with an ["errors"] key is returned as it
    is; an answer with a branch is returned as its ["name"] and ["sha"];
    an answer whose [linkedBranch] is [null] raises [TypeError]. *)
Theorem branch_create_linked_run u n tok issue_id base_sha name
    repository_id transport :
  let run := exec (Repo.branch_create_linked (Repo.__init__ u n tok) issue_id
                     base_sha name repository_id) transport in
  let post :=
    query_request tok true
      (linked_branch_query
         (String.concat ", "
            (linked_branch_fields issue_id base_sha name repository_id))) in
  snd run = [post]
  /\ (forall e, transport post = Fail e -> fst run = Raise e)
  /\ (forall resp,
        transport post = Reply (PDict resp) ->
        dict_mem "errors" resp = true -> fst run = Ok (PDict resp))
  /\ (forall resp branch sha,
        transport post = Reply (PDict resp) ->
        dict_mem "errors" resp = false ->
        at_path (PDict resp) (linked_branch_ref ++ ["name"]) = Some branch ->
        at_path (PDict resp) (linked_branch_ref ++ ["target"; "oid"])
        = Some sha ->
        fst run = Ok (PDict [("name", branch); ("sha", sha)]))
  /\ (forall resp,
        transport post = Reply (PDict resp) ->
        dict_mem "errors" resp = false ->
        at_path (PDict resp) ["data"; "createLinkedBranch"; "linkedBranch"]
        = Some PNone ->
        fst run = Raise TypeError).
Proof.
  intros run post. subst run post.
  unfold exec, Repo.branch_create_linked. cbv zeta.
  rewrite linked_branch_inputs.
  change (Repo._github (Repo.__init__ u n tok)) with (GitHub.__init__ tok).
  fold (linked_branch_query
          (String.concat ", "
             (linked_branch_fields issue_id base_sha name repository_id))).
  set (q := linked_branch_query _).
  rewrite bind_run, graphql_query_run. cbn [app].
  destruct (transport (query_request tok true q)) as [out|e] eqn:T;
    cbn [of_reply].
  2: { repeat split; try discriminate. now intros e' [= <-]. }
  rewrite (silent_run _ _ (linked_branch_silent out)). cbn [fst snd].
  split; [reflexivity|]. split; [discriminate|].
  split; [|split].
  - intros resp [= ->] He. unfold bind. simpl. now rewrite He.
  - intros resp branch sha [= ->] He Hb Hs.
    rewrite at_path_app in Hb, Hs. unfold linked_branch_ref in Hb, Hs.
    unfold bind. simpl in *. rewrite He.
    destruct (dict_get resp "data") as [[ |b|z|f|s|l|d1]|]; try discriminate.
    simpl.
    destruct (dict_get d1 "createLinkedBranch") as [[ |b|z|f|s|l|d2]|];
      try discriminate. simpl.
    destruct (dict_get d2 "linkedBranch") as [[ |b|z|f|s|l|d3]|];
      try discriminate. simpl.
    destruct (dict_get d3 "ref") as [[ |b|z|f|s|l|d4]|];
      try discriminate. simpl.
    destruct (dict_get d4 "name") as [nm|]; [|discriminate]. simpl.
    destruct (dict_get d4 "target") as [[ |b|z|f|s|l|d5]|];
      try discriminate. simpl.
    destruct (dict_get d5 "oid") as [oid|]; [|discriminate]. simpl.
    unfold ret. congruence.
  - intros resp [= ->] He Hn.
    unfold bind. simpl in *. rewrite He.
    destruct (dict_get resp "data") as [[ |b|z|f|s|l|d1]|]; try discriminate.
    simpl.
    destruct (dict_get d1 "createLinkedBranch") as [[ |b|z|f|s|l|d2]|];
      try discriminate. simpl.
    destruct (dict_get d2 "linkedBranch") as [[ |b|z|f|s|l|d3]|];
      try discriminate. reflexivity.
Qed.

Lemma categories_silent response :
  silent (data <- getitem response "data" ;;
          repository <- getitem data "repository" ;;
          categories <- getitem repository "discussionCategories" ;;
          edges <- getitem categories "edges" ;;
          entries <- iterate edges ;;
          comprehend entries (fun entry => getitem entry "node")).
Proof.
  silent. unfold iterate. silent. apply silent_comprehend. intros x. silent.
Qed.

Lemma comprehend_nodes edges transport sent : forall nodes,
  Forall2 (fun e nd => at_path e ["node"] = Some nd) edges nodes ->
  comprehend edges (fun entry => getitem entry "node") transport sent
  = (Ok nodes, sent).
Proof.
  induction edges as [|e edges IH]; intros nodes H; inversion H; subst;
    [reflexivity|].
  cbn [comprehend]. rewrite bind_run.
  destruct e as [ |b|z|f|s|l|d]; try discriminate.
  simpl in *. destruct (dict_get d "node") as [nd|]; [|discriminate].
  cbn [ret]. rewrite bind_run, (IH _ H4). unfold ret. congruence.
Qed.

(** X25. [discussion_categories] sends one query and returns the ["node"]
    of every edge of the answer, in the order of the edges.  It does not
    look for an ["errors"] key: an answer without ["data"] raises
    [KeyError], and a failure of the request is raised. *)
Theorem discussion_categories_run u n tok transport :
  let run := exec (Repo.discussion_categories (Repo.__init__ u n tok))
               transport in
  let post := query_request tok false (categories_query u n) in
  snd run = [post]
  /\ (forall e, transport post = Fail e -> fst run = Raise e)
  /\ (forall resp edges nodes,
        transport post = Reply (PDict resp) ->
        at_path (PDict resp) categories_edges = Some (PList edges) ->
        Forall2 (fun e nd => at_path e ["node"] = Some nd) edges nodes ->
        fst run = Ok nodes)
  /\ (forall resp,
        transport post = Reply (PDict resp) ->
        dict_get resp "data" = None ->
        fst run = Raise (KeyError "data")).
Proof.
  intros run post. subst run post.
  unfold exec, Repo.discussion_categories. cbv zeta.
  change (Repo._github (Repo.__init__ u n tok)) with (GitHub.__init__ tok).
  change (Repo._name (Repo.__init__ u n tok)) with n.
  change (Repo._username (Repo.__init__ u n tok)) with u.
  fold (categories_query u n). set (q := categories_query u n).
  rewrite bind_run, graphql_query_run. cbn [app].
  destruct (transport (query_request tok false q)) as [out|e] eqn:T;
    cbn [of_reply].
  2: { repeat split; try discriminate. now intros e' [= <-]. }
  rewrite (silent_run _ _ (categories_silent out)). cbn [fst snd].
  split; [reflexivity|]. split; [discriminate|]. split.
  - intros resp edges nodes [= ->] He Hn.
    unfold categories_edges in He. rewrite !bind_run. simpl in *.
    destruct (dict_get resp "data") as [[ |b|z|f|s|l|d1]|]; try discriminate.
    cbn [getitem ret]. rewrite !bind_run. cbn [getitem].
    destruct (dict_get d1 "repository") as [[ |b|z|f|s|l|d2]|];
      try discriminate.
    cbn [getitem ret]. rewrite !bind_run. cbn [getitem].
    destruct (dict_get d2 "discussionCategories") as [[ |b|z|f|s|l|d3]|];
      try discriminate.
    cbn [getitem ret]. rewrite !bind_run. cbn [getitem].
    destruct (dict_get d3 "edges") as [v|]; [|discriminate].
    injection He as ->.
    cbn [ret iterate extend app]. rewrite !bind_run. cbn [ret iterate extend app].
    now rewrite (comprehend_nodes _ _ Hn).
  - intros resp [= ->] Hd. unfold bind. simpl. now rewrite Hd.
Qed.

(** ** Headers and endpoints *)

Lemma dict_get_absent {V} (d : dict V) k :
  ~ In k (keys d) -> dict_get d k = None.
Proof.
  induction d as [|[k0 v0] d IH]; simpl; intros H; [reflexivity|].
  destruct (String.eqb_spec k k0) as [->|_]; [tauto|]. apply IH. tauto.
Qed.

Lemma dict_get_or_both {V} (d2 : dict V) : forall d1 k,
  NoDup (keys d2) ->
  dict_get (dict_or d1 d2) k
  = match dict_get d2 k with
    | Some v => Some v
    | None => dict_get d1 k
    end.
Proof.
  unfold dict_or.
  induction d2 as [|[k0 v0] d2 IH]; intros d1 k H; [reflexivity|].
  inversion H as [|? ? Hk0 H']; subst. simpl.
  rewrite IH by exact H'. rewrite dict_get_set.
  destruct (String.eqb_spec k k0) as [->|_]; [|reflexivity].
  now rewrite (dict_get_absent _ _ Hk0).
Qed.

Lemma merged_headers_get token extra k :
  NoDup (keys extra) ->
  dict_get (GitHub.merged_headers (GitHub.__init__ token) (Some extra)) k
  = match dict_get extra k with
    | Some v => Some v
    | None => dict_get (GitHub._headers (GitHub.__init__ token)) k
    end.
Proof.
  intros H. unfold GitHub.merged_headers.
  destruct extra as [|kv extra]; [reflexivity|].
  now apply dict_get_or_both.
Qed.

(** X26. Extra headers win: the request of [rest_query], of
    [graphql_query] and of [graphql_mutation] with [extra_headers] carries,
    under every name, the value that [extra_headers] gives it, and the
    client's own header where [extra_headers] has none.  (So the version
    and the [Authorization] header can be replaced by the caller.) *)
Theorem extra_headers_win token extra transport :
  NoDup (keys extra) ->
  let self := GitHub.__init__ token in
  let merged (r : Request) :=
    forall k,
      dict_get (req_headers r) k
      = match dict_get extra k with
        | Some v => Some v
        | None => dict_get (GitHub._headers self) k
        end in
  (forall query verb data json response_type,
     exists r,
       snd (exec (GitHub.rest_query self query verb data json response_type
                    (Some extra) "api") transport) = [r]
       /\ merged r)
  /\ (forall query mutation response_type,
        exists r,
          snd (exec (GitHub.graphql_query self query mutation (Some extra)
                       response_type) transport) = [r]
          /\ merged r)
  /\ (forall name input_name input payload,
        exists r,
          snd (exec (GitHub.graphql_mutation self name input_name input
                       payload (Some extra)) transport) = [r]
          /\ merged r).
Proof.
  intros H self merged. subst self merged. cbv beta. repeat split.
  - intros. eexists. split.
    + unfold exec, GitHub.rest_query. rewrite endpoint_api, bind_ret.
      reflexivity.
    + intros k. now apply merged_headers_get.
  - intros. eexists. split.
    + unfold exec, GitHub.graphql_query. rewrite endpoint_api, bind_ret.
      reflexivity.
    + intros k. now apply merged_headers_get.
  - intros.
    destruct (graphql_mutation_sent token name input_name input payload
                (Some extra) transport) as (r & Hs & _ & _ & Hh & _).
    exists r. split; [exact Hs|]. intros k. rewrite Hh.
    now apply merged_headers_get.
Qed.

(** X27. [rest_query] knows two endpoints: with ["api"] the request goes
    to [https://api.github.com / query], with ["upload"] to
    [https://uploads.github.com / query]; with any other name it raises
    [KeyError] for that name and sends nothing. *)
Theorem rest_query_endpoints token query verb data json response_type extra
    endpoint transport :
  let run := exec (GitHub.rest_query (GitHub.__init__ token) query verb data
                     json response_type extra endpoint) transport in
  let to (base : string) :=
    exists r, run = (of_reply (transport r), [r])
              /\ req_url r = Div (Url base) query
              /\ req_verb r = verb /\ req_data r = data /\ req_json r = json
              /\ req_response_type r = response_type in
  (endpoint = "api" -> to "https://api.github.com")
  /\ (endpoint = "upload" -> to "https://uploads.github.com")
  /\ (endpoint <> "api" -> endpoint <> "upload" ->
      run = (Raise (KeyError endpoint), [])).
Proof.
  intros run to. subst run to. cbv beta. repeat split.
  - intros ->. eexists. split; [reflexivity|]. repeat split.
  - intros ->. eexists. split; [reflexivity|]. repeat split.
  - intros Ha Hu. unfold exec, GitHub.rest_query, GitHub.endpoint.
    simpl dict_get.
    destruct (String.eqb_spec endpoint "api") as [|_]; [contradiction|].
    destruct (String.eqb_spec endpoint "upload") as [|_]; [contradiction|].
    reflexivity.
Qed.

(** ** The further statements at concrete inputs *)

Lemma paginated_fetch_on_other_json_witness :
  exec (Repo.labels 1 (Repo.__init__ "octocat" "hello" None))
    (constant (PDict [("message", PStr "Not Found")]))
  = (Ok [PStr "message"], page_requests "octocat" "hello" None Labels 1)
  /\ exec (Repo.issue_comments 1 (Repo.__init__ "octocat" "hello" None) 7 1000)
       (constant PNone)
     = (Raise TypeError,
        page_requests "octocat" "hello" None (IssueComments 7 1000) 1).
Proof.
  split.
  - apply (proj1 (@paginated_fetch_on_other_json
                    (constant (PDict [("message", PStr "Not Found")]))
                    "octocat" "hello" None Labels 1%nat (le_n 1))
             [("message", PStr "Not Found")]);
      [reflexivity|reflexivity|vm_compute; lia].
  - apply (proj2 (@paginated_fetch_on_other_json (constant PNone)
                    "octocat" "hello" None (IssueComments 7 1000) 1%nat
                    (le_n 1)) PNone); reflexivity.
Defined.

Lemma paginated_fetch_never_stops_on_full_pages_witness :
  exec (Repo.branches 5 (Repo.__init__ "octocat" "hello" None))
    (constant (PList (page_of 100)))
  = (Unfinished, page_requests "octocat" "hello" None Branches 5).
Proof.
  apply (@paginated_fetch_never_stops_on_full_pages
           (constant (PList (page_of 100))) "octocat" "hello" None Branches
           (fun _ => page_of 100) 5%nat eq_refl).
  intros i. exists (PList (page_of 100)).
  split; [reflexivity|]. split; [reflexivity|].
  unfold page_of. rewrite repeat_length. apply le_n.
Defined.

Lemma issue_comments_returns_whole_pages_witness :
  exec (Repo.issue_comments 1 (Repo.__init__ "octocat" "hello" None) 7 2)
    (constant (PList (page_of 3)))
  = (Ok (page_of 3),
     page_requests "octocat" "hello" None (IssueComments 7 2) 1).
Proof.
  apply (@issue_comments_returns_whole_pages (constant (PList (page_of 3)))
           "octocat" "hello" None 7%Z 2%Z (PList (page_of 3)) (page_of 3)
           1%nat);
    [reflexivity|reflexivity|vm_compute; discriminate|apply le_n].
Defined.

Lemma DOI_init_ignores_trailing_text_witness :
  exec (DOI.__init__ ("https://doi.org/" ++ "10.1039/d2sc03130b"
                      ++ " (accessed 2023)")) (constant PNone)
  = (Ok {| DOI.doi := "10.1039/d2sc03130b";
           DOI.url := "https://doi.org/" ++ "10.1039/d2sc03130b" |}, []).
Proof.
  refine (proj1 (@DOI_init_ignores_trailing_text (constant PNone)
                   "https://doi.org/" "10.1039/d2sc03130b" " (accessed 2023)"
                   _ _ _)).
  - exists "https://", "", "doi.org/". repeat split; auto.
  - exists "1039", "d2sc03130b". repeat split; discriminate.
  - reflexivity.
Defined.

Lemma DOI_init_round_trip_witness :
  identifier "10.1039/d2sc03130b"
  /\ exec (DOI.__init__ "10.1039/d2sc03130b") (constant PNone)
     = (Ok {| DOI.doi := "10.1039/d2sc03130b";
              DOI.url := "https://doi.org/10.1039/d2sc03130b" |}, [])
  /\ exec (DOI.__init__ "https://doi.org/10.1039/d2sc03130b") (constant PNone)
     = (Ok {| DOI.doi := "10.1039/d2sc03130b";
              DOI.url := "https://doi.org/10.1039/d2sc03130b" |}, []).
Proof.
  destruct (@DOI_init_round_trip (constant PNone)
              "dx.doi.org/10.1039/d2sc03130b"
              {| DOI.doi := "10.1039/d2sc03130b";
                 DOI.url := "https://doi.org/10.1039/d2sc03130b" |} []
              eq_refl) as (Hi & _ & Hd & Hu).
  exact (conj Hi (conj Hd Hu)).
Defined.

Lemma get_date_defaults_witness :
  snd (exec (DOI._get_date [dated_record "issued" [2020%Z]]) (constant PNone))
  = []
  /\ truthy (PInt 1) = true /\ truthy (PInt 1) = true.
Proof.
  destruct (@get_date_defaults [dated_record "issued" [2020%Z]]
              (constant PNone)) as (Hs & _ & Hd).
  exact (conj Hs (Hd (PInt 2020) (PInt 1) (PInt 1) eq_refl)).
Defined.

Lemma get_date_first_entry_witness :
  exec (DOI._get_date [dated_record "created" [1999; 1; 2]%Z;
                       dated_record "issued" [2020; 5; 17]%Z])
    (constant PNone)
  = (Ok (PInt 2020, PInt 5, PInt 17), [])
  /\ exec (DOI._get_date [dated_record "published-print" [2020; 5]%Z;
                          dated_record "issued" [2021; 6; 7]%Z])
       (constant PNone)
     = (Ok (PInt 2020, PInt 5, PInt 1), [])
  /\ exec (DOI._get_date [("published", PDict [])]) (constant PNone)
     = (Ok (PNone, PInt 1, PInt 1), []).
Proof.
  split; [|split].
  - refine (proj1 (get_date_first_entry _ (constant PNone))
              ["pubished"; "published-online"; "published-print";
               "published-other"] "issued"
              ["created"; "deposited"; "indexed"]
              (PInt 2020) (PInt 5) (PInt 17) eq_refl _ _ eq_refl eq_refl
              eq_refl).
    + intros k Hk. simpl in Hk.
      repeat destruct Hk as [<-|Hk]; try contradiction; reflexivity.
    + eexists. eexists. split; reflexivity.
  - refine (proj1 (proj2 (get_date_first_entry _ (constant PNone)))
              ["pubished"; "published-online"] "published-print"
              ["published-other"; "issued"; "created"; "deposited"; "indexed"]
              (PInt 2020) (PInt 5) eq_refl _ _ eq_refl eq_refl _).
    + intros k Hk. simpl in Hk.
      repeat destruct Hk as [<-|Hk]; try contradiction; reflexivity.
    + eexists. eexists. split; reflexivity.
    + intros k Hk. simpl in Hk.
      repeat destruct Hk as [<-|Hk]; try contradiction;
        first [ left; reflexivity
              | right; eexists; split;
                [reflexivity|right; eexists; eexists; reflexivity] ].
  - apply (proj2 (proj2 (get_date_first_entry _ (constant PNone)))).
    intros k Hk. simpl in Hk.
    repeat destruct Hk as [<-|Hk]; try contradiction; reflexivity.
Defined.

Lemma prepare_input_renames_witness :
  exec (Repo._prepare_branch_protection_rule_input
          [("pattern", PStr "main"); ("allow_deletions", PNone);
           ("enforce_admins", PBool true); ("undocumented", PNone)])
    (constant PNone)
  = (Ok [("pattern", PStr "main"); ("isAdminEnforced", PBool true)], []).
Proof.
  refine (proj1 (@prepare_input_renames
                   [("pattern", PStr "main"); ("allow_deletions", PNone);
                    ("enforce_admins", PBool true); ("undocumented", PNone)]
                   (constant PNone) _ _)).
  - repeat constructor; simpl; intuition discriminate.
  - intros k v Hk. simpl in Hk.
    repeat destruct Hk as [[= <- <-]|Hk]; try contradiction;
      first [left; reflexivity|right; reflexivity].
Defined.

Lemma prepare_input_unknown_name_witness :
  exec (Repo._prepare_branch_protection_rule_input
          ([("pattern", PStr "main")]
           ++ ("allow_deletion", PBool true) :: [("lock_branch", PBool true)])
          %list)
    (constant PNone)
  = (Raise (KeyError "allow_deletion"), []).
Proof.
  refine (@prepare_input_unknown_name [("pattern", PStr "main")]
            "allow_deletion" (PBool true) [("lock_branch", PBool true)]
            (constant PNone) _ _ eq_refl).
  - intros k v Hk. simpl in Hk.
    repeat destruct Hk as [[= <- <-]|Hk]; try contradiction.
    right; reflexivity.
  - discriminate.
Defined.

Lemma branch_protection_rule_create_run_witness :
  exec (Repo.branch_protection_rule_create
          (Repo.__init__ "octocat" "hello" (Some "token"))
          [("pattern", PStr "main"); ("enforce_admins", PBool true)])
    github_mock
  = (Ok (PStr "BPR_1"),
     [get_request "octocat" "hello" (Some "token") "";
      mutation_request (Some "token") "createBranchProtectionRule"
        "CreateBranchProtectionRuleInput" "branchProtectionRule {id}"
        [("pattern", PStr "main"); ("isAdminEnforced", PBool true);
         ("repositoryId", PStr "R_1")]]).
Proof.
  assert (Hd : NoDup (keys [("pattern", PStr "main");
                            ("enforce_admins", PBool true)]))
    by (repeat constructor; simpl; intuition discriminate).
  assert (Hk : known [("pattern", PStr "main"); ("enforce_admins", PBool true)]).
  { intros k v Hk. simpl in Hk.
    repeat destruct Hk as [[= <- <-]|Hk]; try contradiction;
      right; reflexivity. }
  destruct (proj2 (@branch_protection_rule_create_run "octocat" "hello"
                     (Some "token") _ github_mock Hd Hk)
              [("node_id", PStr "R_1")] (PStr "R_1") eq_refl eq_refl)
    as (Hs & _ & Hok).
  apply injective_projections.
  - exact (Hok _ (PStr "BPR_1") eq_refl eq_refl eq_refl eq_refl).
  - exact Hs.
Defined.

Lemma branch_protection_rule_update_run_witness :
  exec (Repo.branch_protection_rule_update
          (Repo.__init__ "octocat" "hello" (Some "token"))
          [("rule_id", PStr "BPR_1"); ("pattern", PNone);
           ("lock_branch", PBool true)])
    (constant (PDict [("errors", PList [PStr "Could not resolve"])]))
  = (Ok (PDict [("errors", PList [PStr "Could not resolve"])]),
     [mutation_request (Some "token") "updateBranchProtectionRule"
        "UpdateBranchProtectionRuleInput" "branchProtectionRule {id}"
        [("branchProtectionRuleId", PStr "BPR_1");
         ("lockBranch", PBool true)]]).
Proof.
  assert (Hd : NoDup (keys [("rule_id", PStr "BPR_1"); ("pattern", PNone);
                            ("lock_branch", PBool true)]))
    by (repeat constructor; simpl; intuition discriminate).
  assert (Hk : known [("rule_id", PStr "BPR_1"); ("pattern", PNone);
                      ("lock_branch", PBool true)]).
  { intros k v Hk. simpl in Hk.
    repeat destruct Hk as [[= <- <-]|Hk]; try contradiction;
      right; reflexivity. }
  destruct (@branch_protection_rule_update_run "octocat" "hello"
              (Some "token") _
              (constant (PDict [("errors", PList [PStr "Could not resolve"])]))
              Hd Hk) as (Hs & _ & He & _).
  apply injective_projections.
  - exact (He _ eq_refl eq_refl).
  - exact Hs.
Defined.


Lemma pull_create_run_witness :
  exec (Repo.pull_create (Repo.__init__ "octocat" "hello" None) "fix" "main"
          "" 0 "A body" true false "") (constant PNone)
  = (Raise ValueError, [])
  /\ exec (Repo.pull_create (Repo.__init__ "octocat" "hello" None) "fix" "main"
             "" 12 "" true false "") (constant (PInt 1))
     = (Ok (PInt 1),
        [json_request "octocat" "hello" None POST "pulls"
           [("head", PStr "fix"); ("base", PStr "main");
            ("maintainer_can_modify", PBool true); ("draft", PBool false);
            ("issue", PInt 12)] RJson]).
Proof.
  split.
  - exact (proj1 (@pull_create_run "octocat" "hello" None "fix" "main" "" 0%Z
                    "A body" true false "" (constant PNone))
             (conj eq_refl eq_refl)).
  - refine (proj2 (@pull_create_run "octocat" "hello" None "fix" "main" ""
                     12%Z "" true false "" (constant (PInt 1))) _).
    left. discriminate.
Defined.

Lemma pages_create_run_witness :
  exec (Repo.pages_create (Repo.__init__ "octocat" "hello" None) "Legacy"
          (Some "main") "/") (constant PNone)
  = (Raise ValueError, [])
  /\ exec (Repo.pages_create (Repo.__init__ "octocat" "hello" None) "workflow"
             None "/anywhere") (constant PNone)
     = (Ok PNone,
        [json_request "octocat" "hello" None POST "pages"
           [("build_type", PStr "workflow")] RJson])
  /\ exec (Repo.pages_create (Repo.__init__ "octocat" "hello" None) "legacy"
             (Some "main") "/docs/") (constant PNone)
     = (Raise ValueError, []).
Proof.
  split; [|split].
  - refine (proj1 (@pages_create_run "octocat" "hello" None "Legacy"
                     (Some "main") "/" (constant PNone)) _ _); discriminate.
  - exact (proj1 (proj2 (@pages_create_run "octocat" "hello" None "workflow"
                           None "/anywhere" (constant PNone))) eq_refl).
  - exact (proj2 (proj2 (@pages_create_run "octocat" "hello" None "legacy"
                           (Some "main") "/docs/" (constant PNone))) eq_refl).
Defined.

Lemma pages_update_run_witness :
  exec (Repo.pages_update (Repo.__init__ "octocat" "hello" None) None None
          None (Some "gh-pages") "/nowhere") (constant PNone)
  = (Ok tt, [json_request "octocat" "hello" None PUT "pages" [] RStr]).
Proof.
  exact (proj1 (@pages_update_run "octocat" "hello" None None None None
                  (Some "gh-pages") "/nowhere" (constant PNone)
                  (or_introl eq_refl))).
Defined.

Lemma pages_update_validation_witness :
  exec (Repo.pages_update (Repo.__init__ "octocat" "hello" None) None None
          (Some "static") None "/") (constant PNone)
  = (Raise ValueError, [])
  /\ exec (Repo.pages_update (Repo.__init__ "octocat" "hello" None)
             (Some "") None (Some "legacy") (Some "main") "/docs")
       (constant PNone)
     = (Ok tt,
        [json_request "octocat" "hello" None PUT "pages"
           [("cname", PNone); ("build_type", PStr "legacy");
            ("source", PDict [("branch", PStr "main");
                              ("path", PStr "/docs")])] RStr]).
Proof.
  split.
  - refine (proj1 (@pages_update_validation "octocat" "hello" None None None
                     "static" None "/" (constant PNone)) _ _); discriminate.
  - exact (proj2 (@pages_update_validation "octocat" "hello" None (Some "")
                    None "legacy" (Some "main") "/docs" (constant PNone))
             eq_refl).
Defined.

Lemma label_update_never_empty_witness :
  exec (Repo.label_update (Repo.__init__ "octocat" "hello" None) (PStr "bug")
          (PStr "") (PStr "") (PStr "")) (constant PNone)
  = (Raise ValueError, [])
  /\ (exists d,
        req_json (json_request "octocat" "hello" None PATCH "labels/bug"
                    [("color", PStr "d73a4a")] RJson) = Some (PDict d)
        /\ d <> []).
Proof.
  destruct (@label_update_never_empty "octocat" "hello" None (PStr "bug")
              (PStr "") (PStr "") (PStr "") (constant PNone)) as [_ Hnone].
  destruct (Hnone eq_refl eq_refl eq_refl) as [[He|He] Hs].
  - discriminate He.
  - split.
    + apply injective_projections; [exact He|exact Hs].
    + exact (proj2 (proj1 (@label_update_never_empty "octocat" "hello" None
                             (PStr "bug") (PStr "") (PStr "d73a4a") (PStr "")
                             (constant PNone)) _ (or_introl eq_refl))).
Defined.

Lemma workflow_permissions_set_run_witness :
  exec (Repo.actions_permissions_workflow_default_set
          (Repo.__init__ "octocat" "hello" None) None None) (constant PNone)
  = (Raise ValueError, [])
  /\ exec (Repo.actions_permissions_workflow_default_set
             (Repo.__init__ "octocat" "hello" None) None (Some false))
       (constant (PStr ""))
     = (Ok tt,
        [json_request "octocat" "hello" None PUT
           "actions/permissions/workflow"
           [("can_approve_pull_request_reviews", PBool false)] RStr]).
Proof.
  split.
  - exact (proj1 (@workflow_permissions_set_run "octocat" "hello" None None
                    None (constant PNone)) eq_refl eq_refl).
  - refine (proj2 (@workflow_permissions_set_run "octocat" "hello" None None
                     (Some false) (constant (PStr ""))) _).
    right. discriminate.
Defined.

Lemma content_trailing_slash_witness :
  exec (Repo.content (Repo.__init__ "octocat" "hello" None) "docs"
          (Some "main")) (constant PNone)
  = exec (Repo.content (Repo.__init__ "octocat" "hello" None) ("docs" ++ "/")
            (Some "main")) (constant PNone).
Proof.
  destruct (@content_trailing_slash "octocat" "hello" None "docs"
              (Some "main") (constant PNone)) as [Hslash Hplain].
  rewrite Hslash. apply Hplain.
  intros q H.
  repeat (destruct q as [|? q]; simpl in H;
          [discriminate H|injection H as _ H]).
  destruct q; discriminate H.
Defined.

Lemma repo_topics_replace_accepts_witness :
  exec (Repo.repo_topics_replace (Repo.__init__ "octocat" "hello" None)
          [PStr "python"; PStr "rocq-9"]) (constant PNone)
  = (Ok PNone,
     [json_request "octocat" "hello" None PUT "topics"
        [("names", PList [PStr "python"; PStr "rocq-9"])] RJson])
  /\ snd (exec (Repo.repo_topics_replace (Repo.__init__ "octocat" "hello" None)
                  [PStr "python"; PStr "Rocq"]) (constant PNone)) = [].
Proof.
  split.
  - refine (proj1 (@repo_topics_replace_accepts "octocat" "hello" None
                     [PStr "python"; PStr "rocq-9"] (constant PNone)) _).
    repeat constructor.
    + exists "python". split; [reflexivity|]. split; [simpl; lia|].
      exists "p"%char, "ython", "". repeat split; auto.
    + exists "rocq-9". split; [reflexivity|]. split; [simpl; lia|].
      exists "r"%char, "ocq-9", "". repeat split; auto.
  - refine (proj2 (proj2 (@repo_topics_replace_accepts "octocat" "hello" None
                            [PStr "python"; PStr "Rocq"] (constant PNone))
                     _)).
    intros F. inversion F as [|? ? _ F']. inversion F' as [|? ? G _].
    destruct G as (s & [= <-] & _ & Hs).
    apply topic_pattern_shape in Hs. apply Hs. reflexivity.
Defined.

Lemma label_create_accepts_witness :
  exec (Repo.label_create (Repo.__init__ "octocat" "hello" None) (PStr "")
          (PStr "d73a4a") (PStr "")) (constant PNone)
  = (Ok PNone,
     [json_request "octocat" "hello" None POST "labels"
        [("name", PStr ""); ("color", PStr "d73a4a")] RJson]).
Proof.
  refine (@label_create_accepts "octocat" "hello" None "" "d73a4a" ""
            (constant PNone) _ _).
  - right. exists "d73a4a", "". repeat split; auto.
  - simpl. lia.
Defined.

Lemma branch_create_linked_run_witness :
  exec (Repo.branch_create_linked (Repo.__init__ "octocat" "hello" None)
          (inr 42%Z) "abc123" (Some "") (Some (inl "R_1")))
    (constant
       (PDict [("data", PDict [("createLinkedBranch",
          PDict [("linkedBranch", PDict [("ref",
            PDict [("name", PStr "42-fix");
                   ("target", PDict [("oid", PStr "abc123")])])])])])]))
  = (Ok (PDict [("name", PStr "42-fix"); ("sha", PStr "abc123")]),
     [query_request None true
        (linked_branch_query
           (String.concat ", "
              [quoted_field "issueId" "42"; quoted_field "oid" "abc123";
               quoted_field "repositoryId" "R_1"]))]).
Proof.
  destruct (@branch_create_linked_run "octocat" "hello" None (inr 42%Z)
              "abc123" (Some "") (Some (inl "R_1"))
              (constant
                 (PDict [("data", PDict [("createLinkedBranch",
                    PDict [("linkedBranch", PDict [("ref",
                      PDict [("name", PStr "42-fix");
                             ("target", PDict [("oid", PStr "abc123")])])])])])])))
    as (Hs & _ & _ & Hok & _).
  apply injective_projections.
  - exact (Hok _ (PStr "42-fix") (PStr "abc123") eq_refl eq_refl eq_refl
             eq_refl).
  - exact Hs.
Defined.

Lemma discussion_categories_run_witness :
  exec (Repo.discussion_categories (Repo.__init__ "octocat" "hello" None))
    (constant (PDict [("errors", PList [PStr "Bad credentials"])]))
  = (Raise (KeyError "data"),
     [query_request None false (categories_query "octocat" "hello")])
  /\ fst (exec (Repo.discussion_categories
                  (Repo.__init__ "octocat" "hello" None))
            (constant
               (PDict [("data", PDict [("repository",
                  PDict [("discussionCategories", PDict [("edges",
                    PList [PDict [("node", PStr "General")];
                           PDict [("node", PStr "Ideas")]])])])])])))
     = Ok [PStr "General"; PStr "Ideas"].
Proof.
  split.
  - destruct (@discussion_categories_run "octocat" "hello" None
                (constant (PDict [("errors", PList [PStr "Bad credentials"])])))
      as (Hs & _ & _ & Hno).
    apply injective_projections; [exact (Hno _ eq_refl eq_refl)|exact Hs].
  - refine (proj1 (proj2 (proj2 (@discussion_categories_run "octocat" "hello"
              None _)))
              [("data", PDict [("repository",
                  PDict [("discussionCategories", PDict [("edges",
                    PList [PDict [("node", PStr "General")];
                           PDict [("node", PStr "Ideas")]])])])])]
              [PDict [("node", PStr "General")]; PDict [("node", PStr "Ideas")]]
              [PStr "General"; PStr "Ideas"] eq_refl eq_refl _).
    repeat constructor.
Defined.

Lemma extra_headers_win_witness :
  exists r,
    snd (exec (GitHub.rest_query (GitHub.__init__ (Some "token")) "user" GET
                 None None RJson
                 (Some [("Authorization", "Basic dXNlcg==");
                        ("Accept", "application/vnd.github+json")]) "api")
           (constant PNone)) = [r]
    /\ dict_get (req_headers r) "Authorization" = Some "Basic dXNlcg=="
    /\ dict_get (req_headers r) "X-GitHub-Api-Version" = Some "2022-11-28".
Proof.
  assert (Hd : NoDup (keys [("Authorization", "Basic dXNlcg==");
                            ("Accept", "application/vnd.github+json")]))
    by (repeat constructor; simpl; intuition discriminate).
  destruct (proj1 (@extra_headers_win (Some "token") _ (constant PNone) Hd)
              "user" GET None None RJson) as (r & Hs & Hm).
  exists r. split; [exact Hs|]. split.
  - exact (Hm "Authorization").
  - exact (Hm "X-GitHub-Api-Version").
Defined.

Lemma rest_query_endpoints_witness :
  exec (GitHub.rest_query (GitHub.__init__ None) "user" GET None None RJson
          None "uploads") (constant PNone)
  = (Raise (KeyError "uploads"), []).
Proof.
  refine (proj2 (proj2 (@rest_query_endpoints None "user" GET None None RJson
                          None "uploads" (constant PNone))) _ _);
    discriminate.
Defined.
